(** * sqlite-to-jsonl: a shallow embedding of [sqlite_to_jsonl.py]

    The script validates a SQLite3 file, folds its write-ahead log,
    enumerates the tables and dumps each table as JSON lines.  The
    embedding follows the script function by function.  What the script
    takes from its runtime is modelled next to it:

    - Python values that a SQLite column can hold ([value]);
    - [bytes.__repr__], [str.lstrip], [str.strip], [str.split],
      [os.path.join] (POSIX flavour, [os.sep = "/"]);
    - a file system of regular files and directories, without symbolic
      links, permissions or [..] components;
    - the [sqlite3] module, as an interface ([Sqlite3]) the development
      is parametric in;
    - [json.dumps] with its default options.

    Python [str] values are Rocq strings: sequences of code points below
    256.  Exceptions are values of [exn]; every exception the script can
    meet derives from [Exception].  [main] is embedded from the parsed
    arguments on. *)

From Stdlib Require Import ZArith NArith Ascii String Strings.Byte.
From Stdlib Require Import Floats.SpecFloat DecimalString Decimal.
From stdpp Require Import base option list strings gmap.

Local Open Scope string_scope.
Local Open Scope list_scope.

(** ** Python values *)

Abbreviation bytes := (list Byte.byte).

(** What [sqlite3] hands back for a column: [None], [int], [float],
    [str] or [bytes]. *)
Inductive value : Type :=
| VNone
| VInt (z : Z)
| VFloat (f : spec_float)
| VStr (s : string)
| VBytes (b : bytes).

Definition is_bytes (v : value) : bool :=
  match v with VBytes _ => true | _ => false end.

Definition is_str (v : value) : bool :=
  match v with VStr _ => true | _ => false end.

(** ** Characters used below *)

Definition squote : ascii := "039"%char.
Definition dquote : ascii := "034"%char.
Definition bslash : ascii := "092"%char.

Definition str1 (c : ascii) : string := String c EmptyString.

(** ** [str.lstrip(chars)], [str.strip(chars)] *)

Fixpoint lstrip (chars : list ascii) (s : string) : string :=
  match s with
  | EmptyString => EmptyString
  | String c rest =>
      if bool_decide (c ∈ chars) then lstrip chars rest else s
  end.

Fixpoint rstrip (chars : list ascii) (s : string) : string :=
  match s with
  | EmptyString => EmptyString
  | String c rest =>
      match rstrip chars rest with
      | EmptyString =>
          if bool_decide (c ∈ chars) then EmptyString else str1 c
      | kept => String c kept
      end
  end.

Definition strip (chars : list ascii) (s : string) : string :=
  rstrip chars (lstrip chars s).

(** ** [bytes.__repr__] (CPython [PyBytes_Repr] with smart quotes) *)

Definition hexdigit (n : N) : ascii :=
  nth (N.to_nat n) (list_ascii_of_string "0123456789abcdef") "0"%char.

Definition byte_is (a : ascii) (c : Byte.byte) : bool :=
  bool_decide (ascii_of_byte c = a).

(** The quote is the single quote, unless the data holds a single quote
    and no double quote: then it is the double quote. *)
Definition repr_quote (data : bytes) : ascii :=
  if existsb (byte_is squote) data && negb (existsb (byte_is dquote) data)
  then dquote else squote.

Definition repr_byte (quote : ascii) (c : Byte.byte) : string :=
  let a := ascii_of_byte c in
  let n := Byte.to_N c in
  if bool_decide (a = quote) || bool_decide (a = bslash) then
    String bslash (str1 a)
  else if (n =? 9)%N then String bslash "t"
  else if (n =? 10)%N then String bslash "n"
  else if (n =? 13)%N then String bslash "r"
  else if (n <? 32)%N || (127 <=? n)%N then
    String bslash
      (String "x" (String (hexdigit (n / 16)) (str1 (hexdigit (n mod 16)))))
  else str1 a.

Definition repr_body (quote : ascii) (data : bytes) : string :=
  String.concat "" (map (repr_byte quote) data).

Definition bytes_repr (data : bytes) : string :=
  let q := repr_quote data in
  String "b" (String q (repr_body q data +:+ str1 q)).

(** [str(data)] for a [bytes] object is its [repr]. *)
Definition str_of_bytes (data : bytes) : string := bytes_repr data.

(** ** Value Normalizer: [to_string] *)

Definition to_string (data : value) : value :=
  match data with
  | VBytes b => VStr (strip [squote] (lstrip ["b"%char] (str_of_bytes b)))
  | _ => data
  end.

Definition bytes_of_string (s : string) : bytes := list_byte_of_string s.

(** ** Exceptions and results *)

(** An exception object: its class name and its message ([str(e)]). *)
Record exn : Type := Exn { exn_class : string; exn_msg : string }.

Inductive result (A : Type) : Type :=
| Ok (a : A)
| Raise (e : exn).
Arguments Ok {A} a.
Arguments Raise {A} e.

Definition is_ok {A} (r : result A) : bool :=
  match r with Ok _ => true | Raise _ => false end.

(** ** Path strings ([os.sep] is the slash) *)

Definition sep : ascii := "/"%char.

(** [s.split(os.sep)] *)
Fixpoint split_sep (s : string) : list string :=
  match s with
  | EmptyString => [EmptyString]
  | String c rest =>
      let l := split_sep rest in
      if bool_decide (c = sep) then EmptyString :: l
      else match l with
           | h :: t => String c h :: t
           | [] => [str1 c]
           end
  end.

(** [os.sep.join(parts)] *)
Definition join_sep (parts : list string) : string :=
  String.concat (str1 sep) parts.

Definition startswith_sep (s : string) : bool :=
  match s with
  | String c _ => bool_decide (c = sep)
  | EmptyString => false
  end.

Fixpoint endswith_sep (s : string) : bool :=
  match s with
  | EmptyString => false
  | String c EmptyString => bool_decide (c = sep)
  | String _ rest => endswith_sep rest
  end.

(** [os.path.join(a, b)] of [posixpath]: an absolute [b] discards [a]. *)
Definition os_path_join (a b : string) : string :=
  if startswith_sep b then b
  else if bool_decide (a = "") || endswith_sep a then a +:+ b
  else a +:+ str1 sep +:+ b.

(** [os.path.basename(p)] *)
Definition os_path_basename (p : string) : string :=
  List.last (split_sep p) "".

(** ** File system *)

Inductive node : Type :=
| File (content : bytes)
| Dir.

(** A resolved location: the names from the root down. *)
Abbreviation location := (list string).

Record fsys : Type := Fsys {
  cwd : location;
  tree : gmap location node
}.

Definition is_name (c : string) : bool :=
  negb (bool_decide (c = "")) && negb (bool_decide (c = ".")).

(** Path resolution: empty and dot components vanish, a relative path
    starts from the working directory. *)
Definition resolve (fs : fsys) (p : string) : location :=
  let names := List.filter is_name (split_sep p) in
  if startswith_sep p then names else cwd fs ++ names.

(** A path that ends in a slash or a dot component names a directory. *)
Definition wants_dir (p : string) : bool :=
  negb (is_name (List.last (split_sep p) "")).

(** [stat]: the node a path names, [None] for the errors [ENOENT] and
    [ENOTDIR]. *)
Definition stat (fs : fsys) (p : string) : option node :=
  if bool_decide (p = "") then None
  else match tree fs !! resolve fs p with
       | Some (File c) => if wants_dir p then None else Some (File c)
       | o => o
       end.

Definition os_path_exists (fs : fsys) (p : string) : bool :=
  match stat fs p with Some _ => true | None => false end.

Definition os_path_isfile (fs : fsys) (p : string) : bool :=
  match stat fs p with Some (File _) => true | _ => false end.

Definition os_path_isdir (fs : fsys) (p : string) : bool :=
  match stat fs p with Some Dir => true | _ => false end.

(** [repr] of a path without quotes or escapes in it *)
Definition path_repr (p : string) : string := "'" +:+ p +:+ "'".

Definition no_such_file (p : string) : exn :=
  Exn "FileNotFoundError"
      ("[Errno 2] No such file or directory: " +:+ path_repr p).
Definition is_a_directory (p : string) : exn :=
  Exn "IsADirectoryError" ("[Errno 21] Is a directory: " +:+ path_repr p).
Definition not_a_directory (p : string) : exn :=
  Exn "NotADirectoryError" ("[Errno 20] Not a directory: " +:+ path_repr p).
Definition file_exists (p : string) : exn :=
  Exn "FileExistsError" ("[Errno 17] File exists: " +:+ path_repr p).
Definition same_file (p q : string) : exn :=
  Exn "SameFileError"
      (path_repr p +:+ " and " +:+ path_repr q +:+ " are the same file").

(** The size reported for a directory depends on the file system; the
    script asks for the size of regular files only. *)
Definition dir_size : Z := 4096.

(** [os.path.getsize(p)] *)
Definition os_path_getsize (fs : fsys) (p : string) : result Z :=
  match stat fs p with
  | Some (File c) => Ok (Z.of_nat (length c))
  | Some Dir => Ok dir_size
  | None => Raise (no_such_file p)
  end.

(** [open(p, 'rb').read(n)], the file closed again. *)
Definition read_head (fs : fsys) (p : string) (n : nat) : result bytes :=
  match stat fs p with
  | Some (File c) => Ok (take n c)
  | Some Dir => Raise (is_a_directory p)
  | None => Raise (no_such_file p)
  end.

Definition read_all (fs : fsys) (p : string) : result bytes :=
  match stat fs p with
  | Some (File c) => Ok c
  | Some Dir => Raise (is_a_directory p)
  | None => Raise (no_such_file p)
  end.

Definition parent (k : location) : location := removelast k.

Definition is_dir_at (t : gmap location node) (k : location) : bool :=
  match t !! k with Some Dir => true | _ => false end.

Definition set_tree (fs : fsys) (t : gmap location node) : fsys :=
  Fsys (cwd fs) t.

(** Opening for writing (modes [w], [w+], [wb]) creates or truncates the
    file; the directory it lies in must exist. *)
Definition open_trunc (fs : fsys) (p : string) : result fsys :=
  if bool_decide (p = "") then Raise (no_such_file p)
  else if wants_dir p then Raise (is_a_directory p)
  else
    let k := resolve fs p in
    match tree fs !! k with
    | Some Dir => Raise (is_a_directory p)
    | _ =>
        if is_dir_at (tree fs) (parent k)
        then Ok (set_tree fs (<[k := File []]> (tree fs)))
        else match tree fs !! parent k with
             | Some (File _) => Raise (not_a_directory p)
             | _ => Raise (no_such_file p)
             end
    end.

(** [f.write(data)] on the file opened at [p]. *)
Definition append_file (fs : fsys) (p : string) (data : bytes) : fsys :=
  let k := resolve fs p in
  match tree fs !! k with
  | Some (File c) => set_tree fs (<[k := File (c ++ data)]> (tree fs))
  | _ => fs
  end.

(** [os.remove(p)] *)
Definition os_remove (fs : fsys) (p : string) : result fsys :=
  match stat fs p with
  | Some (File _) => Ok (set_tree fs (delete (resolve fs p) (tree fs)))
  | Some Dir => Raise (is_a_directory p)
  | None => Raise (no_such_file p)
  end.

(** [shutil.copy(src, dst)]: into [dst] when it is a directory; the
    source is opened first, then the target is truncated and filled. *)
Definition shutil_copy (fs : fsys) (src dst : string) : result fsys :=
  let dst := if os_path_isdir fs dst
             then os_path_join dst (os_path_basename src) else dst in
  if os_path_exists fs src && os_path_exists fs dst
     && bool_decide (resolve fs src = resolve fs dst)
  then Raise (same_file src dst)
  else
    match read_all fs src with
    | Raise e => Raise e
    | Ok data =>
        match open_trunc fs dst with
        | Raise e => Raise e
        | Ok fs' => Ok (append_file fs' dst data)
        end
    end.

(** [os.makedirs(p, exist_ok=True)], walking down from the root: a
    missing directory is created, a regular file on the way is an
    error ([FileExistsError] when it is at [p] itself, else
    [NotADirectoryError], whose message in CPython names the first path
    below that file, here [p]). *)
Fixpoint mkdirs_from (t : gmap location node) (above : location)
    (names : list string) : option (gmap location node) :=
  match names with
  | [] => Some t
  | c :: rest =>
      let k := (above ++ [c])%list in
      match t !! k with
      | Some Dir => mkdirs_from t k rest
      | Some (File _) => None
      | None => mkdirs_from (<[k := Dir]> t) k rest
      end
  end.

Definition os_makedirs (fs : fsys) (p : string) : result fsys :=
  if bool_decide (p = "") then Raise (no_such_file p)
  else match mkdirs_from (tree fs) [] (resolve fs p) with
       | Some t => Ok (set_tree fs t)
       | None =>
           match tree fs !! resolve fs p with
           | Some (File _) => Raise (file_exists p)
           | _ => Raise (not_a_directory p)
           end
       end.

(** [os.listdir(p)]: the names of the entries of the directory.  Their
    order is the file system's; here it is the order of the map. *)
Definition entry_name (d : location) (kn : location * node) : option string :=
  if bool_decide (kn.1 ≠ [] ∧ parent kn.1 = d)
  then Some (List.last kn.1 "") else None.

Definition children (t : gmap location node) (d : location) : list string :=
  omap (entry_name d) (map_to_list t).

Definition os_listdir (fs : fsys) (p : string) : result (list string) :=
  if bool_decide (p = "") then Raise (no_such_file p)
  else match tree fs !! resolve fs p with
       | Some Dir => Ok (children (tree fs) (resolve fs p))
       | Some (File _) => Raise (not_a_directory p)
       | None => Raise (no_such_file p)
       end.

(** [os.getcwd()] *)
Definition os_getcwd (fs : fsys) : string :=
  String sep (join_sep (cwd fs)).

(** ** The [sqlite3] module

    The engine is not part of the script.  It is an interface over an
    engine state [E] and the file system: every operation may change
    both and may raise. *)

Definition eng_op (E A : Type) : Type := E → fsys → result A * (E * fsys).

(** A row as [fetchall] returns it: a tuple of column values. *)
Abbreviation row := (list value).

Class Sqlite3 (E : Type) : Type := {
  (** [sqlite3.connect(path)], the handle of the new connection *)
  db_connect : string → eng_op E nat;
  (** [conn.cursor()] *)
  db_cursor : nat → eng_op E nat;
  (** [conn.execute(sql)] *)
  db_execute : nat → string → eng_op E unit;
  (** [cursor.execute(sql)] followed by [cursor.fetchall()] *)
  db_query : nat → string → eng_op E (list row);
  (** [cursor.close()] *)
  db_cursor_close : nat → eng_op E unit;
  (** [conn.close()] *)
  db_close : nat → eng_op E unit
}.

(** What the variables [conn] and [cursor] of [process_file] can hold:
    the placeholder string they start with, or an object of the
    engine. *)
Inductive pyobj : Type :=
| OStr (s : string)
| OConn (h : nat)
| OCursor (h : nat).

(** ** The world and the monad of the script *)

(** Calls into the engine, kept as a ghost trace. *)
Inductive call : Type :=
| CConnect (path : string)
| CCursor (conn : nat)
| CExecute (conn : nat) (sql : string)
| CQuery (cursor : nat) (sql : string)
| CCursorClose (cursor : nat)
| CClose (conn : nat).

Record world (E : Type) : Type := World {
  w_fs : fsys;
  w_eng : E;
  (** lines printed on standard output, oldest first *)
  w_out : list string;
  (** engine calls made, oldest first *)
  w_calls : list call
}.
Arguments World {E}.
Arguments w_fs {E}.
Arguments w_eng {E}.
Arguments w_out {E}.
Arguments w_calls {E}.

Definition py (E A : Type) : Type := world E → result A * world E.

#[global] Instance py_ret {E} : MRet (py E) := λ A a w, (Ok a, w).

#[global] Instance py_bind {E} : MBind (py E) := λ A B f m w,
  match m w with
  | (Ok a, w') => f a w'
  | (Raise e, w') => (Raise e, w')
  end.

Definition raise {E A} (e : exn) : py E A := λ w, (Raise e, w).

(** [try: body except Exception as e: handler e] *)
Definition try_except {E A} (body : py E A) (handler : exn → py E A) : py E A :=
  λ w, match body w with
       | (Ok a, w') => (Ok a, w')
       | (Raise e, w') => handler e w'
       end.

(** [for x in l: f x] *)
Fixpoint for_each {E A} (l : list A) (f : A → py E unit) : py E unit :=
  match l with
  | [] => mret tt
  | x :: rest => f x ;; for_each rest f
  end.

(** [[f x for x in l]] *)
Fixpoint comprehension {E A B} (l : list A) (f : A → py E B) : py E (list B) :=
  match l with
  | [] => mret []
  | x :: rest => y ← f x; ys ← comprehension rest f; mret (y :: ys)
  end.

Definition print {E} (line : string) : py E unit :=
  λ w, (Ok tt, World (w_fs w) (w_eng w) (w_out w ++ [line]) (w_calls w)).

Definition set_fs {E} (w : world E) (fs : fsys) : world E :=
  World fs (w_eng w) (w_out w) (w_calls w).

(** A file system operation that changes the file system. *)
Definition fs_do {E} (op : fsys → result fsys) : py E unit :=
  λ w, match op (w_fs w) with
       | Ok fs' => (Ok tt, set_fs w fs')
       | Raise e => (Raise e, w)
       end.

(** A file system operation that only reads. *)
Definition fs_read {E A} (op : fsys → result A) : py E A :=
  λ w, (op (w_fs w), w).

Definition fs_test {E} (op : fsys → bool) : py E bool :=
  λ w, (Ok (op (w_fs w)), w).

(** A call into the engine, recorded in the trace. *)
Definition engine_call {E A} (c : call) (op : eng_op E A) : py E A :=
  λ w, let '(r, (e', fs')) := op (w_eng w) (w_fs w) in
       (r, World fs' e' (w_out w) (w_calls w ++ [c])).

Definition attribute_error (attr : string) : exn :=
  Exn "AttributeError" ("'str' object has no attribute '" +:+ attr +:+ "'").
Definition type_error (msg : string) : exn := Exn "TypeError" msg.
Definition index_error : exn := Exn "IndexError" "tuple index out of range".

Section Objects.
Context {E : Type} `{!Sqlite3 E}.

Definition sqlite3_connect (path : string) : py E nat :=
  engine_call (CConnect path) (db_connect path).

(** [conn.cursor()] *)
Definition conn_cursor (conn : nat) : py E nat :=
  engine_call (CCursor conn) (db_cursor conn).

(** [conn.execute(sql)] *)
Definition conn_execute (conn : nat) (sql : string) : py E unit :=
  engine_call (CExecute conn sql) (db_execute conn sql).

(** [cursor.execute(sql)] then [cursor.fetchall()] *)
Definition cursor_fetch (cursor : nat) (sql : string) : py E (list row) :=
  engine_call (CQuery cursor sql) (db_query cursor sql).

(** [o.close()]: a string has no such method. *)
Definition obj_close (o : pyobj) : py E unit :=
  match o with
  | OCursor c => engine_call (CCursorClose c) (db_cursor_close c)
  | OConn h => engine_call (CClose h) (db_close h)
  | OStr s => raise (attribute_error "close")
  end.
End Objects.

(** ** Tuples, dictionaries, formatting *)

(** [t[i]] on a tuple *)
Definition tuple_get {E} (t : row) (i : nat) : py E value :=
  match t !! i with
  | Some v => mret v
  | None => raise index_error
  end.

#[global] Instance spec_float_eq_dec : EqDecision spec_float.
Proof. solve_decision. Defined.
#[global] Instance byte_eq_dec : EqDecision Byte.byte := Byte.byte_eq_dec.
#[global] Instance value_eq_dec : EqDecision value.
Proof. solve_decision. Defined.

(** A [dict] in insertion order.  Keys are compared structurally (the
    keys of the script are column names, which are [str]). *)
Abbreviation dict := (list (value * value)).

(** [d[k] = v]: an existing key keeps its place and takes the new value,
    a new key goes to the end. *)
Fixpoint dict_set (k v : value) (d : dict) : dict :=
  match d with
  | [] => [(k, v)]
  | (k', v') :: rest =>
      if decide (k' = k) then (k', v) :: rest
      else (k', v') :: dict_set k v rest
  end.

Fixpoint dict_get (k : value) (d : dict) : option value :=
  match d with
  | [] => None
  | (k', v') :: rest => if decide (k' = k) then Some v' else dict_get k rest
  end.

(** [{k: v for k, v in pairs}] *)
Definition dict_of_pairs (pairs : list (value * value)) : dict :=
  fold_left (λ d kv, dict_set kv.1 kv.2 d) pairs [].

(** [zip(a, b)] stops at the shorter sequence. *)
Definition zip {A B} (a : list A) (b : list B) : list (A * B) := combine a b.

(** [float.__repr__] is the runtime's; the development is parametric in
    it. *)
Class FloatRepr : Type := float_repr : spec_float → string.

Definition decimal (z : Z) : string := NilZero.string_of_int (Z.to_int z).

Section Formatting.
Context `{!FloatRepr}.

(** [str(v)], what an f-string puts for [{v}] *)
Definition str_of (v : value) : string :=
  match v with
  | VNone => "None"
  | VInt z => decimal z
  | VFloat f => float_repr f
  | VStr s => s
  | VBytes b => str_of_bytes b
  end.
End Formatting.

(** ** [json.dumps] with its default options

    Separators are [", "] and [": "], strings are escaped to ASCII,
    keys may be [str], [int], [float] or [None], and a [bytes] object
    is not serializable. *)

Definition newline : ascii := "010"%char.

Definition json_escape_char (c : ascii) : string :=
  let n := N_of_ascii c in
  if bool_decide (c = dquote) then String bslash (str1 dquote)
  else if bool_decide (c = bslash) then String bslash (str1 bslash)
  else if (n =? 8)%N then String bslash "b"
  else if (n =? 12)%N then String bslash "f"
  else if (n =? 10)%N then String bslash "n"
  else if (n =? 13)%N then String bslash "r"
  else if (n =? 9)%N then String bslash "t"
  else if (n <? 32)%N || (126 <? n)%N then
    String bslash
      ("u00" +:+ String (hexdigit (n / 16)) (str1 (hexdigit (n mod 16))))
  else str1 c.

Definition json_string (s : string) : string :=
  String dquote
    (String.concat "" (map json_escape_char (list_ascii_of_string s))
     +:+ str1 dquote).

Section Json.
Context `{!FloatRepr}.

Definition json_float (f : spec_float) : string :=
  match f with
  | S754_nan => "NaN"
  | S754_infinity false => "Infinity"
  | S754_infinity true => "-Infinity"
  | _ => float_repr f
  end.

Definition json_value (v : value) : result string :=
  match v with
  | VNone => Ok "null"
  | VInt z => Ok (decimal z)
  | VFloat f => Ok (json_float f)
  | VStr s => Ok (json_string s)
  | VBytes _ =>
      Raise (type_error "Object of type bytes is not JSON serializable")
  end.

Definition json_key (k : value) : result string :=
  match k with
  | VNone => Ok (json_string "null")
  | VInt z => Ok (json_string (decimal z))
  | VFloat f => Ok (json_string (json_float f))
  | VStr s => Ok (json_string s)
  | VBytes _ =>
      Raise (type_error "keys must be str, int, float, bool or None, not bytes")
  end.

Fixpoint json_items (d : dict) : result (list string) :=
  match d with
  | [] => Ok []
  | (k, v) :: rest =>
      match json_key k with
      | Raise e => Raise e
      | Ok ks =>
          match json_value v with
          | Raise e => Raise e
          | Ok vs =>
              match json_items rest with
              | Raise e => Raise e
              | Ok items => Ok ((ks +:+ ": " +:+ vs) :: items)
              end
          end
      end
  end.

(** [json.dumps(entry)] for a dictionary *)
Definition json_dumps (entry : dict) : result string :=
  match json_items entry with
  | Raise e => Raise e
  | Ok items => Ok ("{" +:+ String.concat ", " items +:+ "}")
  end.
End Json.

Definition lift_result {E A} (r : result A) : py E A := λ w, (r, w).

(** [os.path.join(a, b)] where [b] comes from a query: anything but a
    [str] is a type error (its message is abbreviated). *)
Definition os_path_join_value (a : string) (b : value) : result string :=
  match b with
  | VStr s => Ok (os_path_join a s)
  | _ => Raise (type_error "expected str, bytes or os.PathLike object")
  end.

(** ** The script *)

(** The 16 bytes every SQLite3 file starts with. *)
Definition magic : bytes := bytes_of_string "SQLite format 3" ++ [x00].
Arguments magic : simpl never.

(** The namespace [parser.parse_args()] returns: an option that was not
    given is [None]. *)
Record arguments : Type := Args {
  args_output_dir : option string;
  args_input_filename : option string;
  args_input_foldername : option string
}.

(** Truth value of an optional string: [None] and the empty string are
    false. *)
Definition truthy (o : option string) : bool :=
  match o with
  | Some s => negb (bool_decide (s = ""))
  | None => false
  end.

Section Script.
Context {E : Type} `{!Sqlite3 E} `{!FloatRepr}.

Definition create_folder_if_not_exists (folder_path : string) : py E unit :=
  try_except
    (fs_do (λ fs, os_makedirs fs folder_path))
    (λ e, print ("[EXCEPTION RAISED] An error occurred while creating the folder '"
                 +:+ folder_path +:+ "': " +:+ exn_msg e)).

Definition is_sqlite3 (filename : string) : py E bool :=
  isfile ← fs_test (λ fs, os_path_isfile fs filename);
  if negb isfile then
    print ("[ERROR] " +:+ filename +:+ " is not a file") ;; mret false
  else
    size ← fs_read (λ fs, os_path_getsize fs filename);
    if (size <? 100)%Z then
      print ("[ERROR] " +:+ filename
             +:+ " is too small to be a SQLite3 database") ;;
      mret false
    else
      header ← fs_read (λ fs, read_head fs filename 16);
      let result_bool := bool_decide (header = magic) in
      (if negb result_bool then
         print ("[ERROR] " +:+ filename +:+ " has the wrong header: "
                +:+ str_of_bytes (take 15 header))
       else mret tt) ;;
      mret result_bool.

Definition write_dicts_to_jsonl (dict_list : list dict)
    (output_file : string) : py E unit :=
  try_except
    (let output_folder := join_sep (removelast (split_sep output_file)) in
     create_folder_if_not_exists output_folder ;;
     fs_do (λ fs, open_trunc fs output_file) ;;
     for_each dict_list (λ entry,
       json_line ← lift_result (json_dumps entry);
       fs_do (λ fs, Ok (append_file fs output_file
                          (bytes_of_string (json_line +:+ str1 newline))))))
    (λ e, print ("[EXCEPTION RAISED] An error occurred when writing to the file '"
                 +:+ output_file +:+ "': " +:+ exn_msg e)).

(** The record of one row:
    [{column_name: to_string(value) for column_name, value in zip(column_names, row)}] *)
Definition row_dict (column_names : list value) (r : row) : dict :=
  dict_of_pairs (map (λ cv, (cv.1, to_string cv.2)) (zip column_names r)).

Definition process_table (output_dir : string) (table_name : value)
    (cursor : nat) : py E unit :=
  columns_info ← cursor_fetch cursor
    ("PRAGMA table_info(" +:+ str_of table_name +:+ ");");
  column_names ← comprehension columns_info (λ column, tuple_get column 1);
  rows ← cursor_fetch cursor ("SELECT * FROM " +:+ str_of table_name +:+ ";");
  joined ← lift_result (os_path_join_value output_dir table_name);
  let output_file := joined +:+ ".jsonl" in
  let rows_list := map (row_dict column_names) rows in
  write_dicts_to_jsonl rows_list output_file.

Definition get_tables (cursor : nat) : py E (list value) :=
  rows ← cursor_fetch cursor
    "SELECT name FROM sqlite_master WHERE type='table';";
  comprehension rows (λ r, tuple_get r 0).

Definition apply_wal (conn : nat) (input_filename : string) : py E unit :=
  let wal_name := input_filename +:+ "-wal" in
  wal ← fs_test (λ fs, os_path_exists fs wal_name);
  (if negb wal then print ("[INFO] No WAL applied to " +:+ input_filename)
   else mret tt) ;;
  let backup_path := input_filename +:+ ".backup" in
  fs_do (λ fs, shutil_copy fs input_filename backup_path) ;;
  print ("[INFO] A backup has been done: " +:+ backup_path +:+ ".") ;;
  try_except
    (conn_execute conn "PRAGMA wal_checkpoint(FULL);" ;;
     conn_execute conn "VACUUM;" ;;
     fs_do (λ fs, os_remove fs backup_path))
    (λ e,
       fs_do (λ fs, shutil_copy fs backup_path input_filename) ;;
       fs_do (λ fs, os_remove fs backup_path) ;;
       print ("[EXCEPTION RAISED] Applying WAL: " +:+ exn_msg e)).

(** The [except] clause of [process_file], with the objects the
    variables [conn] and [cursor] hold when it runs. *)
Definition file_handler (conn cursor : pyobj) (e : exn) : py E unit :=
  print ("[EXCEPTION RAISED] " +:+ exn_msg e) ;;
  obj_close cursor ;;
  obj_close conn.

(** The [try] body of [process_file] once [conn] and [cursor] are
    assigned. *)
Definition file_body (conn cursor : nat) (input_filename output_dir : string)
    : py E unit :=
  apply_wal conn input_filename ;;
  tables ← get_tables cursor;
  for_each tables (λ table, process_table output_dir table cursor).

(** The [try] statement of [process_file].  [conn] and [cursor] start
    as the empty string and are assigned inside the [try], so the
    handler sees what was assigned before the exception. *)
Definition file_try (input_filename output_dir : string) : py E unit :=
  λ w,
    let conn := OStr "" in
    let cursor := OStr "" in
    match sqlite3_connect input_filename w with
    | (Raise e, w1) => file_handler conn cursor e w1
    | (Ok c, w1) =>
        let conn := OConn c in
        match conn_cursor c w1 with
        | (Raise e, w2) => file_handler conn cursor e w2
        | (Ok cu, w2) =>
            let cursor := OCursor cu in
            try_except (file_body c cu input_filename output_dir)
                       (file_handler conn cursor) w2
        end
    end.

Definition process_file (input_filename output_dir : string)
    (already_checked : bool) : py E unit :=
  print ("[INFO] Processing " +:+ input_filename +:+ "...") ;;
  valid ← is_sqlite3 input_filename;
  if valid || already_checked then
    let output_dir := os_path_join output_dir input_filename in
    create_folder_if_not_exists output_dir ;;
    file_try input_filename output_dir
  else
    print ("[ERROR] " +:+ input_filename +:+ " is not a sqlite3 file").

Definition process_folder (input_foldername output_dir : string) : py E unit :=
  list_file ← fs_read (λ fs, os_listdir fs input_foldername);
  for_each list_file (λ file,
    let filename := os_path_join input_foldername file in
    isfile ← fs_test (λ fs, os_path_isfile fs filename);
    valid ← (if (isfile : bool) then is_sqlite3 filename
             else (mret false : py E bool));
    if (valid : bool) then process_file filename output_dir true
    else (mret tt : py E unit)).

(** [main] from the parsed arguments on ([argparse] is not embedded). *)
Definition main (args : arguments) : py E unit :=
  output_folder ←
    match args_output_dir args with
    | None => fs_read (λ fs, Ok (os_path_join (os_getcwd fs) "output"))
    | Some d => (mret d : py E string)
    end;
  create_folder_if_not_exists output_folder ;;
  if truthy (args_input_filename args) then
    process_file (default "" (args_input_filename args)) output_folder false
  else if truthy (args_input_foldername args) then
    process_folder (default "" (args_input_foldername args)) output_folder
  else (mret tt : py E unit).
End Script.

(** * Vocabulary of the properties *)

(** ** Strings and paths *)

(** The debug representation without its prefix and its two
    surrounding quotes, as the specification words it. *)
Definition repr_stripped (data : bytes) : string :=
  repr_body (repr_quote data) data.

(** Strings without a single quote. *)
Fixpoint no_squote (s : string) : bool :=
  match s with
  | EmptyString => true
  | String c rest => negb (bool_decide (c = squote)) && no_squote rest
  end.

(** Strings without a separator. *)
Fixpoint no_sep (s : string) : bool :=
  match s with
  | EmptyString => true
  | String c rest => negb (bool_decide (c = sep)) && no_sep rest
  end.

(** The directory part of a resolved path. *)
Definition dir_location (fs : fsys) (p : string) : location :=
  (if startswith_sep p then [] else cwd fs)
  ++ List.filter is_name (removelast (split_sep p)).

(** [os.sep.join(f.split(os.sep)[:-1])], the folder
    [write_dicts_to_jsonl] creates for the file [f] *)
Definition folder_of (f : string) : string :=
  join_sep (removelast (split_sep f)).

(** The locations [mkdirs_from] visits below [a]. *)
Fixpoint on_the_way (a : location) (ns : list string) : list location :=
  match ns with
  | [] => []
  | c :: rest => (a ++ [c]) :: on_the_way (a ++ [c]) rest
  end.

(** The last character of a string. *)
Fixpoint last_char (s : string) : option ascii :=
  match s with
  | EmptyString => None
  | String c EmptyString => Some c
  | String _ rest => last_char rest
  end.

(** Data whose last byte is the single quote. *)
Fixpoint ends_with_squote (data : bytes) : bool :=
  match data with
  | [] => false
  | [c] => byte_is squote c
  | _ :: rest => ends_with_squote rest
  end.

(** Strings made of characters that satisfy a test. *)
Fixpoint all_chars (P : ascii → bool) (s : string) : bool :=
  match s with
  | EmptyString => true
  | String c rest => P c && all_chars P rest
  end.

(** The printable characters of ASCII, the space included. *)
Definition printable (c : ascii) : bool :=
  (32 <=? N_of_ascii c)%N && (N_of_ascii c <=? 126)%N.

(** A dictionary entry of which neither the key nor the value is
    [bytes]. *)
Definition plain_pair (kv : value * value) : Prop :=
  is_bytes kv.1 = false ∧ is_bytes kv.2 = false.

(** ** Format Validator *)

(** The verdict as a function of the file system. *)
Definition sqlite3_verdict (fs : fsys) (filename : string) : bool :=
  match stat fs filename with
  | Some (File c) =>
      negb (Z.of_nat (length c) <? 100)%Z && bool_decide (take 16 c = magic)
  | _ => false
  end.

(** ** The statements the script issues *)

Definition checkpoint_sql : string := "PRAGMA wal_checkpoint(FULL);".
Definition vacuum_sql : string := "VACUUM;".
Definition master_sql : string :=
  "SELECT name FROM sqlite_master WHERE type='table';".
Definition table_info_sql (name : string) : string :=
  "PRAGMA table_info(" +:+ name +:+ ");".
Definition select_all_sql (name : string) : string :=
  "SELECT * FROM " +:+ name +:+ ";".

(** ** The catalog *)

(** A row of [sqlite_master], with the two columns the script's
    statement uses (the others are [tbl_name], [rootpage], [sql]).
    [ce_type] is one of [table], [index], [view], [trigger]. *)
Record catalog_entry : Type := CatalogEntry {
  ce_type : string;
  ce_name : string
}.

(** What [master_sql] selects: the name column of the rows whose type
    is [table], in catalog order. *)
Definition select_table_names (catalog : list catalog_entry) : list string :=
  map ce_name (List.filter (λ en, bool_decide (ce_type en = "table")) catalog).

Definition name_rows (names : list string) : list row :=
  map (λ n, [VStr n]) names.

(** Names that begin with [sqlite_] are reserved for the engine's own
    tables ([sqlite_sequence], [sqlite_stat1], ...). *)
Definition is_system_name (name : string) : bool :=
  String.prefix "sqlite_" name.

(** The user tables, as the specification words them: entries of type
    [table] that are not system tables. *)
Definition spec_user_tables (catalog : list catalog_entry) : list string :=
  map ce_name
    (List.filter (λ en, bool_decide (ce_type en = "table")
                        && negb (is_system_name (ce_name en))) catalog).

(** [[column[1] for column in columns_info]], when every tuple has a
    second field. *)
Definition second_fields (columns_info : list row) : option (list value) :=
  mapM (λ column : row, column !! 1%nat) columns_info.

(** ** The trace of engine calls *)

(** The calls that carry a statement. *)
Definition is_statement (c : call) : bool :=
  match c with
  | CExecute _ _ | CQuery _ _ => true
  | _ => false
  end.

(** From [w] to [w'] the trace has grown by calls that satisfy [P]. *)
Definition only_calls {E} (P : call → bool) (w w' : world E) : Prop :=
  ∃ rest, w_calls w' = w_calls w ++ rest ∧ forallb P rest = true.

(** Whatever the world, the computation makes only calls that satisfy
    [P]. *)
Definition calls_only {E A} (P : call → bool) (m : py E A) : Prop :=
  ∀ w, only_calls P w (m w).2.

(** ** Log Folder *)

(** The line the test for the log file prints when there is none. *)
Definition no_wal_notice (fs : fsys) (input : string) : list string :=
  if os_path_exists fs (input +:+ "-wal") then []
  else ["[INFO] No WAL applied to " +:+ input].

(** The file system once the backup is made. *)
Definition backed_up (fs : fsys) (input : string) : fsys :=
  match shutil_copy fs input (input +:+ ".backup") with
  | Ok fs1 => fs1
  | Raise _ => fs
  end.


Section Vocabulary.
Context {E : Type} `{!Sqlite3 E} `{!FloatRepr}.

(** On cursor [cu] the engine answers [master_sql] from its catalog
    (the rows of [sqlite_master] it holds), as SQL says, and changes
    nothing. *)
Definition answers_master_sql (catalog : E → fsys → list catalog_entry)
    (cu : nat) (w : world E) : Prop :=
  db_query cu master_sql (w_eng w) (w_fs w)
  = (Ok (name_rows (select_table_names (catalog (w_eng w) (w_fs w)))),
     (w_eng w, w_fs w)).

(** [apply_wal] after the test for the log file. *)
Definition fold_log (conn : nat) (input_filename : string) : py E unit :=
  let backup_path := input_filename +:+ ".backup" in
  fs_do (λ fs, shutil_copy fs input_filename backup_path) ;;
  print ("[INFO] A backup has been done: " +:+ backup_path +:+ ".") ;;
  try_except
    (conn_execute conn checkpoint_sql ;;
     conn_execute conn vacuum_sql ;;
     fs_do (λ fs, os_remove fs backup_path))
    (λ e,
       fs_do (λ fs, shutil_copy fs backup_path input_filename) ;;
       fs_do (λ fs, os_remove fs backup_path) ;;
       print ("[EXCEPTION RAISED] Applying WAL: " +:+ exn_msg e)).


(** The bytes the loop of [write_dicts_to_jsonl] writes: one line per
    entry, up to the first entry [json.dumps] rejects. *)
Fixpoint jsonl_bytes (l : list dict) : bytes :=
  match l with
  | [] => []
  | entry :: rest =>
      match json_dumps entry with
      | Raise _ => []
      | Ok line => bytes_of_string (line +:+ str1 newline) ++ jsonl_bytes rest
      end
  end.

(** What [write_dicts_to_jsonl] does to the file system. *)
Definition jsonl_fs (l : list dict) (f : string) (fs : fsys) : fsys :=
  let folder := join_sep (removelast (split_sep f)) in
  let fs1 := match os_makedirs fs folder with
             | Ok fs' => fs'
             | Raise _ => fs
             end in
  match open_trunc fs1 f with
  | Raise _ => fs1
  | Ok fs2 => append_file fs2 f (jsonl_bytes l)
  end.

(** The body of the loop of [process_folder]. *)
Definition folder_step (input_foldername output_dir file : string)
    : py E unit :=
  let filename := os_path_join input_foldername file in
  isfile ← fs_test (λ fs, os_path_isfile fs filename);
  valid ← (if (isfile : bool) then is_sqlite3 filename
           else (mret false : py E bool));
  if (valid : bool) then process_file filename output_dir true
  else (mret tt : py E unit).

(** What [process_table] does to the file system, given the column
    names and the rows the two statements returned. *)
Definition exported_fs (output_dir : string) (t : value) (names : list value)
    (rows : list row) (fs : fsys) : fsys :=
  match os_path_join_value output_dir t with
  | Ok joined => jsonl_fs (map (row_dict names) rows) (joined +:+ ".jsonl") fs
  | Raise _ => fs
  end.
End Vocabulary.

(** * A small engine

    An instance of [Sqlite3] over a database held in memory, used to
    run the script on concrete worlds.  It knows the statements the
    script issues. *)

Module MiniDb.
Record state : Type := State {
  md_path : string;
  md_catalog : list catalog_entry;
  (** per table: its name, the rows of [PRAGMA table_info], its rows *)
  md_tables : list (string * (list row * list row));
  (** [connect] fails *)
  md_refuse : bool;
  (** statements that fail *)
  md_broken : list string;
  (** what a failing statement leaves in the database file *)
  md_torn : bytes;
  (** what [VACUUM] rewrites the database file to, if it rewrites it *)
  md_vacuumed : option bytes
}.

Definition operational_error (msg : string) : exn :=
  Exn "OperationalError" msg.

(** Overwrite a regular file in place. *)
Definition rewrite_file (fs : fsys) (p : string) (data : bytes) : fsys :=
  match stat fs p with
  | Some (File _) => set_tree fs (<[resolve fs p := File data]> (tree fs))
  | _ => fs
  end.

Definition connect (path : string) : eng_op state nat := λ e fs,
  if md_refuse e
  then (Raise (operational_error "unable to open database file"), (e, fs))
  else (Ok 1%nat,
        (State path (md_catalog e) (md_tables e) (md_refuse e)
               (md_broken e) (md_torn e) (md_vacuumed e), fs)).

Definition cursor (conn : nat) : eng_op state nat := λ e fs,
  (Ok 2%nat, (e, fs)).

Definition execute (conn : nat) (sql : string) : eng_op state unit := λ e fs,
  if bool_decide (sql ∈ md_broken e) then
    (Raise (operational_error "disk I/O error"),
     (e, rewrite_file fs (md_path e) (md_torn e)))
  else if bool_decide (sql = vacuum_sql) then
    match md_vacuumed e with
    | Some image => (Ok tt, (e, rewrite_file fs (md_path e) image))
    | None => (Ok tt, (e, fs))
    end
  else (Ok tt, (e, fs)).

Fixpoint lookup_table (sql : string)
    (tables : list (string * (list row * list row))) : option (list row) :=
  match tables with
  | [] => None
  | (name, (info, rows)) :: rest =>
      if bool_decide (sql = table_info_sql name) then Some info
      else if bool_decide (sql = select_all_sql name) then Some rows
      else lookup_table sql rest
  end.

Definition query (cursor : nat) (sql : string) : eng_op state (list row) :=
  λ e fs,
    if bool_decide (sql ∈ md_broken e) then
      (Raise (operational_error "disk I/O error"), (e, fs))
    else if bool_decide (sql = master_sql) then
      (Ok (name_rows (select_table_names (md_catalog e))), (e, fs))
    else match lookup_table sql (md_tables e) with
         | Some rows => (Ok rows, (e, fs))
         | None =>
             if String.prefix "PRAGMA " sql then (Ok [], (e, fs))
             else (Raise (operational_error "no such table"), (e, fs))
         end.

Definition close (h : nat) : eng_op state unit := λ e fs, (Ok tt, (e, fs)).

#[export] Instance engine : Sqlite3 state := {
  db_connect := connect;
  db_cursor := cursor;
  db_execute := execute;
  db_query := query;
  db_cursor_close := close;
  db_close := close
}.

(** Floats are not printed in the runs below. *)
#[export] Instance float_text : FloatRepr := λ _, "0.0".
End MiniDb.

(** * Concrete worlds *)

Module Worlds.
Import MiniDb.

Definition header100 : bytes := magic ++ replicate 84 x00.

(** A database [x.db] in the working directory [/home/u]. *)
Definition home : location := ["home"; "u"].

Definition fs0 : fsys :=
  Fsys home
    (<[home ++ ["x.db"] := File header100]>
       (<[home := Dir]> (<[["home"] := Dir]> {[ [] := Dir ]}))).

Definition catalog0 : list catalog_entry :=
  [CatalogEntry "table" "users";
   CatalogEntry "table" "sqlite_sequence";
   CatalogEntry "index" "users_by_name";
   CatalogEntry "view" "recent_users"].

Definition users_info : list row :=
  [[VInt 0; VStr "id"; VStr "INTEGER"; VInt 0; VNone; VInt 1];
   [VInt 1; VStr "name"; VStr "TEXT"; VInt 0; VNone; VInt 0]].

Definition users_rows : list row :=
  [[VInt 1; VStr "ann"]; [VInt 2; VStr "bob"]].

Definition sequence_info : list row :=
  [[VInt 0; VStr "name"; VStr ""; VInt 0; VNone; VInt 0];
   [VInt 1; VStr "seq"; VStr ""; VInt 0; VNone; VInt 0]].

Definition db0 : state :=
  State "x.db" catalog0
    [("users", (users_info, users_rows));
     ("sqlite_sequence", (sequence_info, [[VStr "users"; VInt 2]]))]
    false [] [] None.

Definition world0 : world state := World fs0 db0 [] [].

Definition catalog_of (e : state) (fs : fsys) : list catalog_entry :=
  md_catalog e.





(** What the compaction writes: the header with the change counter
    (bytes 24 to 27) moved on. *)
Definition compacted : bytes :=
  magic ++ replicate 11 x00 ++ [x01] ++ replicate 72 x00.

Definition db_vac : state :=
  State "x.db" catalog0 [] false [] [] (Some compacted).

Definition world_vac : world state := World fs0 db_vac [] [].

(** The file system when the compaction is done, the backup still
    there. *)
Definition fs_vac : fsys :=
  rewrite_file (backed_up fs0 "x.db") "x.db" compacted.

(** The engine cannot open the database. *)
Definition db_refusing : state :=
  State "" catalog0 [] true [] [] None.
Definition world_refusing : world state := World fs0 db_refusing [] [].

(** The catalog statement fails. *)
Definition db_unreadable : state :=
  State "" catalog0 [] false [master_sql] [] None.
Definition world_unreadable : world state := World fs0 db_unreadable [] [].

Definition w_connected : world state :=
  (sqlite3_connect "x.db" world_unreadable).2.
Definition w_cursor : world state := (conn_cursor 1 w_connected).2.
Definition w_failed : world state :=
  (file_body 1 2 "x.db" "out/x.db" w_cursor).2.

(** A table [log] with two columns and no row. *)
Definition log_info : list row :=
  [[VInt 0; VStr "at"; VStr "TEXT"; VInt 0; VNone; VInt 0];
   [VInt 1; VStr "line"; VStr "TEXT"; VInt 0; VNone; VInt 0]].

Definition db_log : state :=
  State "x.db" [CatalogEntry "table" "log"] [("log", (log_info, []))]
        false [] [] None.

Definition world_log : world state := World fs0 db_log [] [].

Definition w_info : world state :=
  (cursor_fetch 2 (table_info_sql "log") world_log).2.
Definition w_rows : world state :=
  (cursor_fetch 2 (select_all_sql "log") w_info).2.

Definition quoted (s : string) : string := str1 dquote +:+ s +:+ str1 dquote.

(** The two lines of the table [users]. *)
Definition users_jsonl : string :=
  "{" +:+ quoted "id" +:+ ": 1, " +:+ quoted "name" +:+ ": " +:+ quoted "ann"
  +:+ "}" +:+ str1 newline
  +:+ "{" +:+ quoted "id" +:+ ": 2, " +:+ quoted "name" +:+ ": " +:+ quoted "bob"
  +:+ "}" +:+ str1 newline.

Definition once : result unit * world state :=
  process_table "out/x.db" (VStr "users") 2 world0.
Definition twice : result unit * world state :=
  process_table "out/x.db" (VStr "users") 2 once.2.

(** The database [/tmp/x.db], the directory [output] in the working
    directory. *)
Definition fs_abs : fsys :=
  Fsys home
    (<[["tmp"; "x.db"] := File header100]>
       (<[["tmp"] := Dir]>
          (<[home ++ ["output"] := Dir]>
             (<[home := Dir]> (<[["home"] := Dir]> {[ [] := Dir ]}))))).

Definition world_abs : world state := World fs_abs db0 [] [].

(** What the run on [/tmp/x.db] prints. *)
Definition abs_log : list string :=
  ["[INFO] Processing /tmp/x.db...";
   "[EXCEPTION RAISED] An error occurred while creating the folder '/tmp/x.db': [Errno 17] File exists: '/tmp/x.db'";
   "[INFO] No WAL applied to /tmp/x.db";
   "[INFO] A backup has been done: /tmp/x.db.backup.";
   "[EXCEPTION RAISED] An error occurred while creating the folder '/tmp/x.db': [Errno 17] File exists: '/tmp/x.db'";
   "[EXCEPTION RAISED] An error occurred when writing to the file '/tmp/x.db/users.jsonl': [Errno 20] Not a directory: '/tmp/x.db/users.jsonl'";
   "[EXCEPTION RAISED] An error occurred while creating the folder '/tmp/x.db': [Errno 17] File exists: '/tmp/x.db'";
   "[EXCEPTION RAISED] An error occurred when writing to the file '/tmp/x.db/sqlite_sequence.jsonl': [Errno 20] Not a directory: '/tmp/x.db/sqlite_sequence.jsonl'"].

(** A folder [docs] that holds a text file and a directory, and no
    database. *)
Definition fs_docs : fsys :=
  Fsys home
    (<[home ++ ["docs"; "old"] := Dir]>
       (<[home ++ ["docs"; "notes.txt"] := File (bytes_of_string "hello")]>
          (<[home ++ ["docs"] := Dir]>
             (<[home := Dir]> (<[["home"] := Dir]> {[ [] := Dir ]}))))).

Definition world_docs : world state := World fs_docs db0 [] [].

(** A table [g] with the columns [a], [b] and [c], where [b] is
    generated as ten times [a].  [PRAGMA table_info] leaves generated
    columns out, [SELECT *] returns them. *)
Definition gen_columns : list value := [VStr "a"; VStr "b"; VStr "c"].

Definition gen_info : list row :=
  [[VInt 0; VStr "a"; VStr "INTEGER"; VInt 0; VNone; VInt 0];
   [VInt 1; VStr "c"; VStr "INTEGER"; VInt 0; VNone; VInt 0]].

Definition gen_row : row := [VInt 7; VInt 70; VInt 700].

Definition db_gen : state :=
  State "x.db" [CatalogEntry "table" "g"] [("g", (gen_info, [gen_row]))]
        false [] [] None.

Definition world_gen : world state := World fs0 db_gen [] [].

(** The line written for the row of [g]. *)
Definition gen_jsonl : string :=
  "{" +:+ quoted "a" +:+ ": 7, " +:+ quoted "c" +:+ ": 70}" +:+ str1 newline.

(** An output file of an earlier run is in place, with other content. *)
Definition fs_stale : fsys :=
  Fsys home
    (<[home ++ ["out"; "x.db"; "users.jsonl"]
         := File (bytes_of_string "stale line")]>
       (<[home ++ ["out"; "x.db"] := Dir]>
          (<[home ++ ["out"] := Dir]> (tree fs0)))).

Definition world_stale : world state := World fs_stale db0 [] [].

(** The same database given by a relative path. *)
Definition fs_rel : fsys :=
  Fsys home
    (<[home ++ ["x.db"] := File header100]>
       (<[home ++ ["output"] := Dir]>
          (<[home := Dir]> (<[["home"] := Dir]> {[ [] := Dir ]})))).

Definition world_rel : world state := World fs_rel db0 [] [].
End Worlds.

(** * Properties *)

(** Unfolding the monad of the script. *)
Ltac py_unfold :=
  unfold mbind, mret, py_bind, py_ret, raise, try_except, print,
    fs_do, fs_read, fs_test, lift_result, set_fs in *.

(** ** Small runs of the runtime model *)

Example rstrip_ex : rstrip ["'"%char] "a'b''" = "a'b".
Proof. reflexivity. Qed.

Example strip_ex : strip ["'"%char] "''a'b''" = "a'b".
Proof. reflexivity. Qed.

Example to_string_nul :
  to_string (VBytes [x00; x00])
  = VStr (String bslash ("x00" +:+ String bslash "x00")).
Proof. vm_compute. reflexivity. Qed.

Example to_string_its :
  to_string (VBytes (bytes_of_string "it's"))
  = VStr (String dquote ("it's" +:+ str1 dquote)).
Proof. vm_compute. reflexivity. Qed.

Example join_rel : os_path_join "out" "data/x.db" = "out/data/x.db".
Proof. reflexivity. Qed.

Example join_abs : os_path_join "out" "/tmp/x.db" = "/tmp/x.db".
Proof. reflexivity. Qed.

Example join_slash : os_path_join "out/" "x.db" = "out/x.db".
Proof. reflexivity. Qed.

Example split_ex : split_sep "out/x.db/t.jsonl" = ["out"; "x.db"; "t.jsonl"].
Proof. reflexivity. Qed.

Example decimal_0 : decimal 0 = "0". Proof. reflexivity. Qed.

Example decimal_neg : decimal (-42) = "-42". Proof. reflexivity. Qed.

(** ** Format Validator *)

Section Validator.
Context {E : Type}.
Implicit Types (w : world E) (filename : string).

Lemma magic_length : length magic = 16%nat.
Proof. reflexivity. Qed.

Lemma is_sqlite3_run filename w :
  ∃ out, is_sqlite3 filename w
         = (Ok (sqlite3_verdict (w_fs w) filename),
            World (w_fs w) (w_eng w) out (w_calls w)).
Proof.
  unfold is_sqlite3, sqlite3_verdict, os_path_isfile, os_path_getsize,
    read_head.
  py_unfold. destruct w as [fs e out calls]; cbn.
  destruct (stat fs filename) as [[c|]|] eqn:Hst; cbn;
    rewrite ?Hst; cbn; eauto.
  destruct (Z.of_nat (length c) <? 100)%Z eqn:Hsz; cbn;
    rewrite ?Hst; cbn; eauto.
  destruct (bool_decide (take 16 c = magic)); cbn; eauto.
Qed.

(** C1.  [is_sqlite3] always returns a verdict and leaves the file
    system alone.  The verdict is negative for a path that is not a
    regular file, for a file shorter than 100 bytes, and for a file
    whose first 16 bytes are not the magic signature; it is positive
    exactly when the path is a regular file of at least 100 bytes
    that starts with the signature. *)
Theorem is_sqlite3_verdict_rules filename w :
  ∃ (b : bool) (out : list string),
    is_sqlite3 filename w = (Ok b, World (w_fs w) (w_eng w) out (w_calls w))
    ∧ (os_path_isfile (w_fs w) filename = false → b = false)
    ∧ (∀ c, stat (w_fs w) filename = Some (File c) →
            (length c < 100)%nat → b = false)
    ∧ (∀ c, stat (w_fs w) filename = Some (File c) →
            take 16 c ≠ magic → b = false)
    ∧ (b = true ↔
       ∃ c, stat (w_fs w) filename = Some (File c)
            ∧ (100 ≤ length c)%nat ∧ take 16 c = magic).
Proof.
  destruct (is_sqlite3_run filename w) as [out Hrun].
  exists (sqlite3_verdict (w_fs w) filename), out.
  split; [exact Hrun|]. clear Hrun.
  unfold sqlite3_verdict, os_path_isfile.
  destruct (stat (w_fs w) filename) as [[c|]|] eqn:Hst.
  - repeat split.
    + discriminate.
    + intros c' [= <-] Hlt.
      replace (Z.of_nat (length c) <? 100)%Z with true; [done|].
      symmetry. apply Z.ltb_lt. lia.
    + intros c' [= <-] Hne. rewrite bool_decide_eq_false_2 by done.
      apply andb_false_r.
    + intros [Hsz Hhd]%andb_true_iff. exists c. split; [done|].
      apply negb_true_iff, Z.ltb_ge in Hsz.
      apply bool_decide_eq_true_1 in Hhd. split; [lia|done].
    + intros (c' & [= <-] & Hsz & Hhd). apply andb_true_iff. split.
      * apply negb_true_iff, Z.ltb_ge. lia.
      * by apply bool_decide_eq_true_2.
  - repeat split; try done. intros (c & ? & _); discriminate.
  - repeat split; try done. intros (c & ? & _); discriminate.
Qed.
End Validator.

(** ** Value Normalizer *)

Section Normalizer.
Implicit Types (v : value) (data : bytes).

(** Every value but [bytes] passes through. *)
Lemma to_string_passthrough v : is_bytes v = false → to_string v = v.
Proof. by destruct v. Qed.

(** The result is never [bytes]. *)
Lemma to_string_not_bytes v : is_bytes (to_string v) = false.
Proof. by destruct v. Qed.

Lemma to_string_bytes_is_str data : is_str (to_string (VBytes data)) = true.
Proof. reflexivity. Qed.

(** So [json.dumps] accepts it as a value. *)
Lemma to_string_serializable `{!FloatRepr} v :
  is_ok (json_value (to_string v)) = true.
Proof. by destruct v. Qed.

Lemma bytes_repr_shape data :
  bytes_repr data
  = "b" +:+ str1 (repr_quote data) +:+ repr_stripped data
    +:+ str1 (repr_quote data).
Proof. reflexivity. Qed.

Lemma no_squote_app s t :
  no_squote (s +:+ t) = no_squote s && no_squote t.
Proof.
  induction s as [|c s IH]; [done|]. simpl.
  by rewrite IH, andb_assoc.
Qed.

Lemma no_squote_repr_byte c :
  byte_is squote c = false → no_squote (repr_byte squote c) = true.
Proof. destruct c; vm_compute; congruence. Qed.

Lemma no_squote_repr_body data :
  existsb (byte_is squote) data = false →
  no_squote (repr_body squote data) = true.
Proof.
  unfold repr_body. induction data as [|c data IH]; [done|].
  intros [Hc Hd]%orb_false_iff.
  destruct data as [|c' data'].
  - cbn. by apply no_squote_repr_byte.
  - change (no_squote (repr_byte squote c +:+ "" +:+
              String.concat "" (map (repr_byte squote) (c' :: data')))
            = true).
    rewrite !no_squote_app, no_squote_repr_byte, IH by done. done.
Qed.

Lemma in_squote c : bool_decide (c ∈ [squote]) = bool_decide (c = squote).
Proof. apply bool_decide_ext, list_elem_of_singleton. Qed.

Lemma rstrip_quoted body :
  no_squote body = true →
  rstrip [squote] (body +:+ str1 squote) = body.
Proof.
  induction body as [|c body IH]; [done|].
  intros [Hc Hb]%andb_true_iff.
  change (rstrip [squote] (String c body +:+ str1 squote))
    with (match rstrip [squote] (body +:+ str1 squote) with
          | EmptyString =>
              if bool_decide (c ∈ [squote]) then EmptyString else str1 c
          | kept => String c kept
          end).
  rewrite IH by done.
  destruct body; [|done].
  rewrite in_squote. by destruct (bool_decide (c = squote)).
Qed.

Lemma strip_quoted body :
  no_squote body = true →
  strip [squote] (String squote (body +:+ str1 squote)) = body.
Proof.
  intros Hb. unfold strip.
  assert (lstrip [squote] (String squote (body +:+ str1 squote))
          = rstrip [squote] (body +:+ str1 squote)
            ∨ lstrip [squote] (String squote (body +:+ str1 squote))
              = body +:+ str1 squote) as Hl.
  { change (lstrip [squote] (String squote (body +:+ str1 squote)))
      with (lstrip [squote] (body +:+ str1 squote)).
    destruct body as [|c body]; [by left|]. right.
    apply andb_true_iff in Hb as [Hc _].
    change (lstrip [squote] (String c body +:+ str1 squote))
      with (if bool_decide (c ∈ [squote])
            then lstrip [squote] (body +:+ str1 squote)
            else String c (body +:+ str1 squote)).
    rewrite in_squote. by destruct (bool_decide (c = squote)). }
  destruct Hl as [Hl|Hl]; rewrite Hl.
  - rewrite rstrip_quoted by done.
    clear Hl. induction body as [|c body IH]; [done|].
    apply andb_true_iff in Hb as [Hc Hb].
    cbn [rstrip]. rewrite IH by done.
    destruct body; [|done].
    rewrite in_squote. by destruct (bool_decide (c = squote)).
  - by apply rstrip_quoted.
Qed.

(** Where the data holds no single quote, [to_string] is the
    representation without prefix and quotes. *)
Lemma to_string_without_squote data :
  existsb (byte_is squote) data = false →
  to_string (VBytes data) = VStr (repr_stripped data).
Proof.
  intros Hq. unfold to_string, str_of_bytes, bytes_repr, repr_stripped.
  assert (repr_quote data = squote) as -> by (unfold repr_quote; by rewrite Hq).
  cbn [lstrip]. rewrite bool_decide_eq_true_2 by set_solver.
  rewrite bool_decide_eq_false_2 by (intros ?%list_elem_of_singleton; done).
  f_equal. apply strip_quoted. by apply no_squote_repr_body.
Qed.
End Normalizer.

(** C7.  On the four bytes [it's] the representation is quoted with
    double quotes, which [strip] with a single quote leaves in place:
    [to_string] returns the text with its two double quotes, not the
    representation without prefix and quotes. *)
Theorem to_string_keeps_double_quotes :
  let data := bytes_of_string "it's" in
  str_of_bytes data = "b" +:+ str1 dquote +:+ "it's" +:+ str1 dquote
  ∧ repr_stripped data = "it's"
  ∧ to_string (VBytes data) = VStr (str1 dquote +:+ "it's" +:+ str1 dquote)
  ∧ to_string (VBytes data) ≠ VStr (repr_stripped data).
Proof. vm_compute. repeat split; discriminate. Qed.

(** A single quote at the end of data that also holds a double quote is
    taken for the closing quote: the backslash that escaped it is all
    that is left of it. *)
Example to_string_eats_trailing_quote :
  let data := [x22; x61; x27] in
  repr_stripped data = str1 dquote +:+ "a" +:+ str1 bslash +:+ "'"
  ∧ to_string (VBytes data) = VStr (str1 dquote +:+ "a" +:+ str1 bslash).
Proof. vm_compute. done. Qed.

(** ** Records *)

Section Records.
Implicit Types (d : dict) (k v : value) (r : row).

Lemma dict_set_fresh k v d :
  k ∉ d.*1 → dict_set k v d = d ++ [(k, v)].
Proof.
  induction d as [|[k' v'] d IH]; [done|].
  cbn [fmap list_fmap fst dict_set app]. intros Hk.
  apply not_elem_of_cons in Hk as [Hne Hk].
  destruct (decide (k' = k)) as [->|_]; [done|]. by rewrite IH.
Qed.

Lemma dict_of_pairs_go (pairs acc : dict) :
  NoDup (acc.*1 ++ pairs.*1) →
  fold_left (λ d kv, dict_set kv.1 kv.2 d) pairs acc = acc ++ pairs.
Proof.
  revert acc. induction pairs as [|[k v] pairs IH]; intros acc Hnd.
  - by rewrite app_nil_r.
  - cbn [fold_left fst snd].
    cbn [fmap list_fmap fst] in Hnd.
    rewrite dict_set_fresh.
    + rewrite IH; [by rewrite <- app_assoc|].
      rewrite fmap_app. cbn [fmap list_fmap fst].
      by rewrite <- app_assoc.
    + apply NoDup_app in Hnd as (_ & Hdis & _).
      intros Hin. apply (Hdis k Hin). left.
Qed.

(** With distinct keys the comprehension is the list of pairs. *)
Lemma dict_of_pairs_distinct (pairs : dict) :
  NoDup pairs.*1 → dict_of_pairs pairs = pairs.
Proof. intros Hnd. unfold dict_of_pairs. by rewrite dict_of_pairs_go. Qed.

Lemma fst_zip {A B} (a : list A) (b : list B) :
  length a = length b → (zip a b).*1 = a.
Proof.
  revert b. induction a as [|x a IH]; intros [|y b]; try done.
  cbn. intros [= Hl]. by rewrite IH.
Qed.

Lemma NoDup_fst_zip {A B} (a : list A) (b : list B) :
  NoDup a → NoDup (zip a b).*1.
Proof.
  revert b. induction a as [|x a IH]; intros [|y b] Hnd;
    [apply NoDup_nil_2..|].
  change (NoDup (x :: (zip a b).*1)).
  apply NoDup_cons in Hnd as [Hx Ha]. apply NoDup_cons. split; [|by apply IH].
  intros [[x' y'] [-> Hin]]%list_elem_of_fmap. apply Hx.
  apply list_elem_of_In. apply list_elem_of_In in Hin.
  by apply in_combine_l in Hin.
Qed.

Lemma map_to_string_plain r :
  Forall (λ v, is_bytes v = false) r → map to_string r = r.
Proof.
  induction 1 as [|v r Hv _ IH]; [done|].
  cbn. by rewrite to_string_passthrough, IH.
Qed.

Lemma zip_map_snd {A B C} (f : B → C) (a : list A) (b : list B) :
  map (λ p, (p.1, f p.2)) (zip a b) = zip a (map f b).
Proof.
  revert b. induction a as [|x a IH]; intros [|y b]; try done.
  cbn. by rewrite <- IH.
Qed.

Lemma dict_get_distinct (pairs : dict) k v :
  NoDup pairs.*1 → (k, v) ∈ pairs → dict_get k pairs = Some v.
Proof.
  induction pairs as [|[k' v'] pairs IH]; intros Hnd Hin; [by inversion Hin|].
  change (NoDup (k' :: pairs.*1)) in Hnd.
  apply NoDup_cons in Hnd as [Hk' Hnd]. cbn [dict_get].
  apply elem_of_cons in Hin as [[= -> ->]|Hin].
  - by rewrite decide_True.
  - destruct (decide (k' = k)) as [->|_]; [|by apply IH].
    destruct Hk'. apply list_elem_of_fmap. by exists (k, v).
Qed.

Lemma lookup_zip {A B} (a : list A) (b : list B) (i : nat) x y :
  a !! i = Some x → b !! i = Some y → (x, y) ∈ zip a b.
Proof.
  revert a b. induction i as [|i IH]; intros [|x' a] [|y' b]; try done.
  - intros [= ->] [= ->]. left.
  - intros Ha Hb. right. by apply IH.
Qed.

(** X23.  For a row without binary values the Value Normalizer changes
    no value, and the record of the row is the dictionary built from
    the column names paired by position with the raw values; with
    distinct column names that is the list of (name, raw value) pairs
    in column order, and looking up the name of column [i] gives the
    raw value at position [i]. *)
Theorem row_dict_plain (column_names : list value) r :
  Forall (λ v, is_bytes v = false) r →
  Forall (λ v, to_string v = v) r
  ∧ row_dict column_names r = dict_of_pairs (zip column_names r)
  ∧ (NoDup column_names →
     row_dict column_names r = zip column_names r
     ∧ ∀ (i : nat) name v,
         column_names !! i = Some name → r !! i = Some v →
         dict_get name (row_dict column_names r) = Some v).
Proof.
  intros Hplain.
  assert (row_dict column_names r = dict_of_pairs (zip column_names r)) as Heq.
  { unfold row_dict. by rewrite zip_map_snd, map_to_string_plain. }
  split; [|split; [done|]].
  - eapply Forall_impl; [exact Hplain|]. apply to_string_passthrough.
  - intros Hnd.
    assert (row_dict column_names r = zip column_names r) as Hzip.
    { rewrite Heq. apply dict_of_pairs_distinct. by apply NoDup_fst_zip. }
    split; [done|]. intros i name v Hname Hv. rewrite Hzip.
    apply dict_get_distinct; [by apply NoDup_fst_zip|by eapply lookup_zip].
Qed.

Lemma row_dict_plain_witness :
  row_dict [VStr "id"; VStr "name"; VStr "score"; VStr "note"]
           [VInt 7; VStr "ann"; VFloat (S754_zero false); VNone]
  = [(VStr "id", VInt 7); (VStr "name", VStr "ann");
     (VStr "score", VFloat (S754_zero false)); (VStr "note", VNone)].
Proof.
  apply (row_dict_plain
           [VStr "id"; VStr "name"; VStr "score"; VStr "note"]
           [VInt 7; VStr "ann"; VFloat (S754_zero false); VNone]).
  - repeat constructor.
  - apply (bool_decide_unpack _). vm_compute. exact I.
Defined.
End Records.

(** ** Table Enumerator *)

Section Enumerator.
Context {E : Type} `{!Sqlite3 E}.

(** The catalog the engine holds: the rows of [sqlite_master]. *)
Variable catalog : E → fsys → list catalog_entry.

Lemma first_column_of_name_rows (names : list string) (w : world E) :
  comprehension (name_rows names) (λ r, tuple_get r 0) w
  = (Ok (map VStr names), w).
Proof.
  induction names as [|n names IH]; [done|].
  simpl. py_unfold. simpl. by rewrite IH.
Qed.

Lemma elem_of_select_table_names name (cat : list catalog_entry) :
  name ∈ select_table_names cat
  ↔ ∃ en, en ∈ cat ∧ ce_type en = "table" ∧ ce_name en = name.
Proof.
  unfold select_table_names. rewrite list_elem_of_In, in_map_iff.
  split.
  - intros (en & <- & [Hin Hty]%filter_In). exists en.
    apply bool_decide_eq_true_1 in Hty. by rewrite list_elem_of_In.
  - intros (en & Hin & Hty & <-). exists en. split; [done|].
    apply filter_In. split; [by apply list_elem_of_In|].
    by apply bool_decide_eq_true_2.
Qed.

(** C4, as the code has it.  Where the engine answers the catalog
    statement, [get_tables] returns the names of the catalog entries
    of type [table], in catalog order, and nothing else: entries of
    another type (views, indexes, triggers) are left out, and the
    result is empty when no entry has type [table].  The one engine
    call made is the catalog statement. *)
Theorem get_tables_lists_type_table (cu : nat) (w : world E) :
  answers_master_sql catalog cu w →
  let cat := catalog (w_eng w) (w_fs w) in
  get_tables cu w
  = (Ok (map VStr (select_table_names cat)),
     World (w_fs w) (w_eng w) (w_out w)
           (w_calls w ++ [CQuery cu master_sql]))
  ∧ (∀ name, name ∈ select_table_names cat
             ↔ ∃ en, en ∈ cat ∧ ce_type en = "table" ∧ ce_name en = name)
  ∧ ((∀ en, en ∈ cat → ce_type en ≠ "table") → select_table_names cat = []).
Proof.
  intros Hq cat. split; [|split].
  - unfold get_tables, cursor_fetch, engine_call. py_unfold.
    fold master_sql. rewrite Hq. fold cat.
    by rewrite first_column_of_name_rows.
  - intros name. apply elem_of_select_table_names.
  - intros Hnone. destruct (select_table_names cat) as [|n ns] eqn:Hs; [done|].
    assert (n ∈ select_table_names cat) as Hin by (rewrite Hs; left).
    apply elem_of_select_table_names in Hin as (en & Hin & Hty & _).
    by destruct (Hnone en Hin).
Qed.
End Enumerator.

Module EnumeratorCases.
Import MiniDb Worlds.

Lemma get_tables_lists_type_table_witness :
  (get_tables 2 world0).1 = Ok [VStr "users"; VStr "sqlite_sequence"].
Proof.
  assert (answers_master_sql catalog_of 2 world0) as Hq
    by (vm_compute; reflexivity).
  destruct (get_tables_lists_type_table catalog_of 2 world0 Hq) as [-> _].
  reflexivity.
Defined.

(** C4, as stated, fails: a database with an [AUTOINCREMENT] column
    has the engine's table [sqlite_sequence] in its catalog with type
    [table], and [get_tables] returns it with the user table. *)
Lemma get_tables_returns_system_table :
  answers_master_sql catalog_of 2 world0
  ∧ (get_tables 2 world0).1 = Ok [VStr "users"; VStr "sqlite_sequence"]
  ∧ spec_user_tables catalog0 = ["users"]
  ∧ (get_tables 2 world0).1 ≠ Ok (map VStr (spec_user_tables catalog0)).
Proof. vm_compute. repeat split; discriminate. Qed.
End EnumeratorCases.

(** ** Running the monad *)

Section Run.
Context {E : Type}.
Implicit Types (w : world E).

Lemma run_bind_ok {A B} (m : py E A) (f : A → py E B) w a w' :
  m w = (Ok a, w') → (m ≫= f) w = f a w'.
Proof. intros H. unfold mbind, py_bind. by rewrite H. Qed.

Lemma run_bind_raise {A B} (m : py E A) (f : A → py E B) w e w' :
  m w = (Raise e, w') → (m ≫= f) w = (Raise e, w').
Proof. intros H. unfold mbind, py_bind. by rewrite H. Qed.

Lemma run_try_ok {A} (m : py E A) h w a w' :
  m w = (Ok a, w') → try_except m h w = (Ok a, w').
Proof. intros H. unfold try_except. by rewrite H. Qed.

Lemma run_try_raise {A} (m : py E A) h w e w' :
  m w = (Raise e, w') → try_except m h w = h e w'.
Proof. intros H. unfold try_except. by rewrite H. Qed.

Lemma run_fs_do_ok (op : fsys → result fsys) w fs' :
  op (w_fs w) = Ok fs' → fs_do op w = (Ok tt, set_fs w fs').
Proof. intros H. unfold fs_do. by rewrite H. Qed.

Lemma run_fs_do_raise (op : fsys → result fsys) w e :
  op (w_fs w) = Raise e → fs_do op w = (Raise e, w).
Proof. intros H. unfold fs_do. by rewrite H. Qed.
End Run.

(** ** Paths and locations *)

Section Paths.
Implicit Types (p s t : string) (fs : fsys).

Lemma append_cons (a : ascii) s t : String a s +:+ t = String a (s +:+ t).
Proof. reflexivity. Qed.

Lemma append_assoc s t u : (s +:+ t) +:+ u = s +:+ (t +:+ u).
Proof. induction s as [|a s IH]; [done|]. rewrite !append_cons. by f_equal. Qed.

Lemma length_append s t :
  String.length (s +:+ t) = (String.length s + String.length t)%nat.
Proof. induction s as [|c s IH]; [done|]. simpl. by rewrite IH. Qed.

Lemma split_sep_nonempty s : split_sep s ≠ [].
Proof.
  destruct s as [|c s]; [done|]. cbn [split_sep].
  destruct (bool_decide (c = sep)); [done|]. by destruct (split_sep s).
Qed.

Lemma split_sep_plain t : no_sep t = true → split_sep t = [t].
Proof.
  induction t as [|c t IH]; [done|]. cbn [no_sep split_sep].
  intros [Hc Ht]%andb_true_iff. rewrite IH by done.
  by destruct (bool_decide (c = sep)).
Qed.

(** Appending a separator-free suffix extends the last component. *)
Lemma split_sep_suffix s t :
  no_sep t = true →
  split_sep (s +:+ t)
  = removelast (split_sep s) ++ [List.last (split_sep s) "" +:+ t].
Proof.
  intros Ht. induction s as [|c s IH].
  - cbn. by apply split_sep_plain.
  - change (String c s +:+ t) with (String c (s +:+ t)).
    cbn [split_sep]. rewrite IH.
    pose proof (split_sep_nonempty s) as Hne.
    destruct (bool_decide (c = sep)).
    + destruct (split_sep s) as [|h l]; [done|].
      destruct l; reflexivity.
    + destruct (split_sep s) as [|h l]; [done|].
      destruct l as [|h' l]; [reflexivity|].
      cbn [removelast app]. reflexivity.
Qed.

Lemma startswith_sep_suffix s t :
  s ≠ "" → startswith_sep (s +:+ t) = startswith_sep s.
Proof. by destruct s. Qed.

Lemma split_sep_snoc s :
  split_sep s = removelast (split_sep s) ++ [os_path_basename s].
Proof. apply app_removelast_last, split_sep_nonempty. Qed.

Lemma resolve_named fs p :
  is_name (os_path_basename p) = true →
  resolve fs p = dir_location fs p ++ [os_path_basename p].
Proof.
  intros Hn. unfold resolve, dir_location.
  assert (List.filter is_name (split_sep p)
          = List.filter is_name (removelast (split_sep p))
            ++ [os_path_basename p]) as ->.
  { rewrite (split_sep_snoc p) at 1. rewrite List.filter_app.
    cbn [List.filter]. by rewrite Hn. }
  by destruct (startswith_sep p); rewrite ?app_assoc.
Qed.

Lemma resolve_suffix fs p t :
  p ≠ "" → no_sep t = true →
  is_name (os_path_basename p +:+ t) = true →
  resolve fs (p +:+ t) = dir_location fs p ++ [os_path_basename p +:+ t].
Proof.
  intros Hp Ht Hn. unfold resolve, dir_location.
  rewrite startswith_sep_suffix, split_sep_suffix by done.
  rewrite List.filter_app. cbn [List.filter]. fold (os_path_basename p).
  rewrite Hn. by destruct (startswith_sep p); rewrite ?app_assoc.
Qed.

Lemma wants_dir_suffix p t :
  no_sep t = true →
  wants_dir (p +:+ t) = negb (is_name (os_path_basename p +:+ t)).
Proof.
  intros Ht. unfold wants_dir. rewrite split_sep_suffix by done.
  by rewrite last_last.
Qed.

Lemma parent_snoc (k : location) c : parent (k ++ [c]) = k.
Proof. apply removelast_last. Qed.

Lemma is_name_suffix c t :
  is_name c = true → (1 ≤ String.length t)%nat → is_name (c +:+ t) = true.
Proof.
  unfold is_name. intros Hc Ht.
  destruct c as [|a c]; [done|].
  cbn [String.append]. apply andb_true_iff. split; [done|].
  apply negb_true_iff, bool_decide_eq_false_2.
  destruct c as [|b c]; [|done].
  destruct t; [cbn in Ht; lia|done].
Qed.

Lemma stat_file_named fs p c :
  stat fs p = Some (File c) →
  p ≠ "" ∧ is_name (os_path_basename p) = true
  ∧ tree fs !! resolve fs p = Some (File c).
Proof.
  unfold stat, wants_dir. fold (os_path_basename p).
  case_bool_decide as Hp; [done|].
  destruct (tree fs !! resolve fs p) as [[c'|]|]; try done.
  destruct (is_name (os_path_basename p)); [|done].
  by intros [= ->].
Qed.
End Paths.

(** ** Log Folder *)

Section FileCopy.
Implicit Types (fs : fsys) (src dst : string) (content : bytes).

Lemma stat_set_tree fs t p :
  stat (set_tree fs t) p
  = if bool_decide (p = "") then None
    else match t !! resolve fs p with
         | Some (File c) => if wants_dir p then None else Some (File c)
         | o => o
         end.
Proof. reflexivity. Qed.

Lemma stat_not_dir fs p :
  tree fs !! resolve fs p ≠ Some Dir → os_path_isdir fs p = false.
Proof.
  unfold os_path_isdir, stat. intros Hnd.
  case_bool_decide; [done|].
  destruct (tree fs !! resolve fs p) as [[c|]|]; try done.
  by destruct (wants_dir p).
Qed.

(** Copying a regular file onto a path that is free or holds a regular
    file, in an existing directory. *)
Lemma shutil_copy_file fs src dst content :
  stat fs src = Some (File content) →
  dst ≠ "" → wants_dir dst = false →
  resolve fs src ≠ resolve fs dst →
  tree fs !! resolve fs dst ≠ Some Dir →
  is_dir_at (tree fs) (parent (resolve fs dst)) = true →
  shutil_copy fs src dst
  = Ok (set_tree fs (<[resolve fs dst := File content]> (tree fs))).
Proof.
  intros Hsrc Hdst Hwd Hne Hnd Hpar. unfold shutil_copy.
  rewrite (stat_not_dir fs dst) by done.
  rewrite (bool_decide_eq_false_2 _ Hne), andb_false_r.
  unfold read_all. rewrite Hsrc.
  unfold open_trunc. rewrite (bool_decide_eq_false_2 _ Hdst), Hwd, Hpar.
  destruct (tree fs !! resolve fs dst) as [[c|]|] eqn:Hk; try done.
  - unfold append_file. cbn [tree set_tree].
    change (resolve (set_tree fs _) dst) with (resolve fs dst).
    rewrite lookup_insert_eq. cbn [app].
    by rewrite insert_insert_eq.
  - unfold append_file. cbn [tree set_tree].
    change (resolve (set_tree fs _) dst) with (resolve fs dst).
    rewrite lookup_insert_eq. cbn [app].
    by rewrite insert_insert_eq.
Qed.

Lemma os_remove_file fs p c :
  stat fs p = Some (File c) →
  os_remove fs p = Ok (set_tree fs (delete (resolve fs p) (tree fs))).
Proof. intros H. unfold os_remove. by rewrite H. Qed.
End FileCopy.

Section LogFolder.
Context {E : Type} `{!Sqlite3 E}.
Implicit Types (w : world E) (fs : fsys) (conn : nat) (input : string).

(** The test for the log file decides about one printed line, and about
    nothing else: backup, checkpoint and compaction follow in both
    cases. *)
Lemma apply_wal_after_test conn input w :
  apply_wal conn input w
  = fold_log conn input
      (World (w_fs w) (w_eng w)
             (w_out w ++ no_wal_notice (w_fs w) input) (w_calls w)).
Proof.
  unfold apply_wal, no_wal_notice. fold checkpoint_sql vacuum_sql.
  fold (fold_log conn input).
  unfold mbind at 1 2. unfold py_bind, fs_test.
  destruct w as [fs e out calls]. cbn [w_fs w_eng w_out w_calls].
  destruct (os_path_exists fs (input +:+ "-wal")); cbn [negb].
  - unfold mret, py_ret. by rewrite app_nil_r.
  - reflexivity.
Qed.

Lemma resolve_cwd fs fs' p : cwd fs' = cwd fs → resolve fs' p = resolve fs p.
Proof. unfold resolve. by intros ->. Qed.

Lemma backup_no_sep : no_sep ".backup" = true.
Proof. reflexivity. Qed.

(** The backup of a regular file lands next to it. *)
Lemma backup_made fs input content :
  stat fs input = Some (File content) →
  is_dir_at (tree fs) (dir_location fs input) = true →
  os_path_isdir fs (input +:+ ".backup") = false →
  let ki := resolve fs input in
  let kb := resolve fs (input +:+ ".backup") in
  ki = dir_location fs input ++ [os_path_basename input]
  ∧ kb = dir_location fs input ++ [os_path_basename input +:+ ".backup"]
  ∧ ki ≠ kb
  ∧ wants_dir input = false
  ∧ wants_dir (input +:+ ".backup") = false
  ∧ input +:+ ".backup" ≠ ""
  ∧ tree fs !! ki = Some (File content)
  ∧ shutil_copy fs input (input +:+ ".backup")
    = Ok (set_tree fs (<[kb := File content]> (tree fs)))
  ∧ backed_up fs input = set_tree fs (<[kb := File content]> (tree fs)).
Proof.
  intros Hst Hdir Hnd ki kb.
  apply stat_file_named in Hst as Hnamed. destruct Hnamed as (Hne & Hname & Hki).
  assert (is_name (os_path_basename input +:+ ".backup") = true) as Hbn
    by (apply is_name_suffix; [done|cbn; lia]).
  assert (ki = dir_location fs input ++ [os_path_basename input]) as Eki
    by (by apply resolve_named).
  assert (kb = dir_location fs input ++ [os_path_basename input +:+ ".backup"])
    as Ekb by (by apply resolve_suffix).
  assert (ki ≠ kb) as Hkk.
  { rewrite Eki, Ekb. intros [= Heq]%app_inv_head.
    apply (f_equal String.length) in Heq.
    rewrite length_append in Heq. cbn in Heq. lia. }
  assert (wants_dir input = false) as Hwi.
  { unfold wants_dir. fold (os_path_basename input). by rewrite Hname. }
  assert (wants_dir (input +:+ ".backup") = false) as Hwb.
  { rewrite wants_dir_suffix by done. by rewrite Hbn. }
  assert (input +:+ ".backup" ≠ "") as Hbne by (by destruct input).
  assert (shutil_copy fs input (input +:+ ".backup")
          = Ok (set_tree fs (<[kb := File content]> (tree fs)))) as Hcopy.
  { apply shutil_copy_file; try done.
    - fold kb. intros Hd. unfold os_path_isdir, stat in Hnd.
      rewrite (bool_decide_eq_false_2 _ Hbne) in Hnd. fold kb in Hnd.
      by rewrite Hd in Hnd.
    - fold kb. rewrite Ekb, parent_snoc. exact Hdir. }
  repeat split; try done.
  unfold backed_up. by rewrite Hcopy.
Qed.


(** With or without a log file, once the backup is made the checkpoint
    goes to the engine. *)
Lemma apply_wal_checkpoints_always conn input w content :
  stat (w_fs w) input = Some (File content) →
  is_dir_at (tree (w_fs w)) (dir_location (w_fs w) input) = true →
  os_path_isdir (w_fs w) (input +:+ ".backup") = false →
  ∃ rest,
    w_calls (apply_wal conn input w).2
    = w_calls w ++ CExecute conn checkpoint_sql :: rest.
Proof.
  intros Hst Hdir Hnd.
  destruct (backup_made _ input content Hst Hdir Hnd)
    as (_ & _ & _ & _ & _ & _ & _ & Hcopy & _).
  rewrite apply_wal_after_test. unfold fold_log.
  destruct w as [fs eng out calls]. cbn [w_fs w_eng w_out w_calls] in *.
  erewrite run_bind_ok; [|by apply run_fs_do_ok].
  erewrite run_bind_ok; [|reflexivity].
  unfold try_except, conn_execute, engine_call. py_unfold.
  cbn [w_fs w_eng w_out w_calls].
  repeat match goal with
         | |- context [db_execute ?c ?q ?e ?f] =>
             destruct (db_execute c q e f) as [[[]|?] [? ?]];
             cbn [w_fs w_eng w_out w_calls]
         | |- context [os_remove ?f ?q] =>
             destruct (os_remove f q); cbn [w_fs w_eng w_out w_calls]
         | |- context [shutil_copy ?f ?a ?b] =>
             destruct (shutil_copy f a b); cbn [w_fs w_eng w_out w_calls]
         end;
    rewrite <- ?app_assoc; eexists; reflexivity.
Qed.

End LogFolder.

Module LogFolderCases.
Import MiniDb Worlds.



(** C2.  [x.db] has no [x.db-wal] next to it.  [apply_wal] prints that
    no log is applied and goes on: it sends the checkpoint and the
    compaction to the engine, and the compaction rewrites the file. *)
Theorem apply_wal_compacts_without_log :
  let w' := (apply_wal 1 "x.db" world_vac).2 in
  os_path_exists fs0 "x.db-wal" = false
  ∧ (apply_wal 1 "x.db" world_vac).1 = Ok tt
  ∧ w_out w' = ["[INFO] No WAL applied to x.db";
                "[INFO] A backup has been done: x.db.backup."]
  ∧ w_calls w' = [CExecute 1 checkpoint_sql; CExecute 1 vacuum_sql]
  ∧ stat fs0 "x.db" = Some (File header100)
  ∧ stat (w_fs w') "x.db" = Some (File compacted)
  ∧ compacted ≠ header100.
Proof. vm_compute. repeat split; discriminate. Qed.
End LogFolderCases.

(** ** Batch Driver: the [try] statement of [process_file] *)

Section Driver.
Context {E : Type} `{!Sqlite3 E} `{!FloatRepr}.
Implicit Types (w : world E) (input output_dir : string).

(** X22.  When the connection and the cursor were obtained and the
    body then raises, the handler prints the exception and closes the
    cursor.  If that raises, the exception
    leaves [process_file]'s [try] statement and the connection is not
    closed; otherwise the handler closes the connection, and whatever
    that does, normal return or exception, is the outcome. *)
Theorem file_try_failure_closes input output_dir w c w1 cu w2 e w3 :
  sqlite3_connect input w = (Ok c, w1) →
  conn_cursor c w1 = (Ok cu, w2) →
  file_body c cu input output_dir w2 = (Raise e, w3) →
  let out := w_out w3 ++ ["[EXCEPTION RAISED] " +:+ exn_msg e] in
  (∀ e2 eng fs,
     db_cursor_close cu (w_eng w3) (w_fs w3) = (Raise e2, (eng, fs)) →
     file_try input output_dir w
     = (Raise e2, World fs eng out (w_calls w3 ++ [CCursorClose cu])))
  ∧ (∀ eng fs r eng' fs',
       db_cursor_close cu (w_eng w3) (w_fs w3) = (Ok tt, (eng, fs)) →
       db_close c eng fs = (r, (eng', fs')) →
       file_try input output_dir w
       = (r, World fs' eng' out (w_calls w3 ++ [CCursorClose cu; CClose c]))).
Proof.
  intros Hc Hcu Hbody out. unfold file_try. rewrite Hc, Hcu.
  rewrite (run_try_raise _ _ _ _ _ Hbody).
  unfold file_handler, obj_close, engine_call. py_unfold.
  cbn [w_fs w_eng w_out w_calls].
  split.
  - intros e2 eng fs ->. reflexivity.
  - intros eng fs r eng' fs' -> Hcl. cbn [w_fs w_eng w_out w_calls].
    rewrite Hcl. by rewrite <- app_assoc.
Qed.

(** A verdict, or the caller's word, leads into the [try] statement;
    until then the engine is not touched. *)
Lemma process_file_runs_try input output_dir (already_checked : bool) w :
  sqlite3_verdict (w_fs w) input || already_checked = true →
  ∃ w', process_file input output_dir already_checked w
        = file_try input (os_path_join output_dir input) w'
        ∧ w_eng w' = w_eng w ∧ w_calls w' = w_calls w.
Proof.
  intros Hv. unfold process_file.
  erewrite run_bind_ok; [|reflexivity].
  destruct (is_sqlite3_run input
              (World (w_fs w) (w_eng w)
                 (w_out w ++ ["[INFO] Processing " +:+ input +:+ "..."])
                 (w_calls w))) as [out Hrun].
  erewrite run_bind_ok; [|exact Hrun].
  cbn [w_fs w_eng w_out w_calls]. rewrite Hv.
  unfold create_folder_if_not_exists.
  destruct (os_makedirs (w_fs w) (os_path_join output_dir input)) as [fs'|e'] eqn:Hmk.
  - erewrite run_bind_ok; [|by apply run_try_ok, run_fs_do_ok].
    eexists. split; [reflexivity|done].
  - erewrite run_bind_ok.
    2:{ erewrite run_try_raise; [|by apply run_fs_do_raise]. reflexivity. }
    eexists. split; [reflexivity|done].
Qed.

(** A negative verdict without the caller's word ends the run: the
    engine is not called and the file system is as it was. *)
Lemma process_file_rejects input output_dir w :
  sqlite3_verdict (w_fs w) input = false →
  ∃ out, process_file input output_dir false w
         = (Ok tt, World (w_fs w) (w_eng w) out (w_calls w)).
Proof.
  intros Hv. unfold process_file.
  erewrite run_bind_ok; [|reflexivity].
  destruct (is_sqlite3_run input
              (World (w_fs w) (w_eng w)
                 (w_out w ++ ["[INFO] Processing " +:+ input +:+ "..."])
                 (w_calls w))) as [out Hrun].
  erewrite run_bind_ok; [|exact Hrun].
  cbn [w_fs w_eng w_out w_calls]. rewrite Hv. cbn [orb].
  eexists. reflexivity.
Qed.
End Driver.

Module DriverCases.
Import MiniDb Worlds.

Lemma file_try_failure_closes_witness :
  file_try "x.db" "out/x.db" world_unreadable
  = (Ok tt,
     World (w_fs w_failed) (w_eng w_failed)
           (w_out w_failed ++ ["[EXCEPTION RAISED] disk I/O error"])
           (w_calls w_failed ++ [CCursorClose 2; CClose 1])).
Proof.
  eapply (file_try_failure_closes "x.db" "out/x.db" world_unreadable
            1%nat w_connected 2%nat w_cursor
            (operational_error "disk I/O error") w_failed).
  - vm_compute. reflexivity.
  - vm_compute. reflexivity.
  - vm_compute. reflexivity.
  - reflexivity.
  - reflexivity.
Defined.

(** C9.  The file is a valid database and [sqlite3.connect] raises.
    The handler prints the exception and calls [cursor.close()] while
    [cursor] still holds the empty string the function starts with:
    an [AttributeError] leaves [process_file].  The failure to open
    the connection is logged, but it is not handled: the caller gets
    an exception, not a normal return. *)
Lemma process_file_connect_failure_propagates :
  let run := process_file "x.db" "out" false world_refusing in
  sqlite3_verdict fs0 "x.db" = true
  ∧ run.1 = Raise (attribute_error "close")
  ∧ w_out run.2
    = ["[INFO] Processing x.db...";
       "[EXCEPTION RAISED] unable to open database file"]
  ∧ w_calls run.2 = [CConnect "x.db"]
  ∧ run.1 ≠ Ok tt.
Proof. vm_compute. repeat split; discriminate. Qed.
End DriverCases.

(** ** Creating directories *)

Section Makedirs.
Implicit Types (t : gmap location node) (a k q : location) (ns : list string).

Lemma on_the_way_longer a ns q :
  q ∈ on_the_way a ns → (length a < length q ≤ length a + length ns)%nat.
Proof.
  revert a. induction ns as [|c ns IH]; intros a Hq; [by inversion Hq|].
  cbn [on_the_way] in Hq. apply elem_of_cons in Hq as [->|Hq].
  - rewrite length_app. cbn. lia.
  - apply IH in Hq. rewrite length_app in Hq. cbn in *. lia.
Qed.

Lemma on_the_way_last a ns c : a ++ ns ++ [c] ∈ on_the_way a (ns ++ [c]).
Proof.
  revert a. induction ns as [|n ns IH]; intros a; cbn [on_the_way app].
  - left.
  - right. replace (a ++ n :: ns ++ [c]) with ((a ++ [n]) ++ ns ++ [c])
      by (by rewrite <- app_assoc). apply IH.
Qed.

(** Directories stay, and nothing off the way changes. *)
Lemma mkdirs_from_frame t a ns t' :
  mkdirs_from t a ns = Some t' →
  (∀ q, t !! q = Some Dir → t' !! q = Some Dir)
  ∧ (∀ q, q ∉ on_the_way a ns → t' !! q = t !! q).
Proof.
  revert t a. induction ns as [|c ns IH]; intros t a Hmk.
  - cbn in Hmk. by injection Hmk as <-.
  - cbn [mkdirs_from on_the_way] in *.
    destruct (t !! (a ++ [c])) as [[?|]|] eqn:Hk; [done| |].
    + apply IH in Hmk as [Hd Ho]. split; [done|].
      intros q Hq. apply Ho. intros ?. apply Hq. by right.
    + apply IH in Hmk as [Hd Ho]. split.
      * intros q Hq. apply Hd.
        destruct (decide (q = a ++ [c])) as [->|Hne];
          [by rewrite lookup_insert_eq|by rewrite lookup_insert_ne].
      * intros q Hq. rewrite Ho by (intros ?; apply Hq; by right).
        rewrite lookup_insert_ne; [done|]. intros <-. apply Hq. left.
Qed.

(** After a successful run every location on the way is a directory. *)
Lemma mkdirs_from_dirs t a ns t' :
  mkdirs_from t a ns = Some t' →
  ∀ q, q ∈ on_the_way a ns → t' !! q = Some Dir.
Proof.
  revert t a. induction ns as [|c ns IH]; intros t a Hmk q Hq;
    [by inversion Hq|].
  cbn [mkdirs_from on_the_way] in *.
  apply elem_of_cons in Hq as [->|Hq].
  - destruct (t !! (a ++ [c])) as [[?|]|] eqn:Hk; [done| |].
    + apply mkdirs_from_frame in Hmk as [Hd _]. by apply Hd.
    + apply mkdirs_from_frame in Hmk as [Hd _]. apply Hd.
      by rewrite lookup_insert_eq.
  - destruct (t !! (a ++ [c])) as [[?|]|]; [done| |]; by eapply IH.
Qed.

(** Where all are directories already, nothing is done. *)
Lemma mkdirs_from_present t a ns :
  (∀ q, q ∈ on_the_way a ns → t !! q = Some Dir) →
  mkdirs_from t a ns = Some t.
Proof.
  revert a. induction ns as [|c ns IH]; intros a Hall; [done|].
  cbn [mkdirs_from on_the_way] in *.
  rewrite (Hall (a ++ [c])) by left.
  apply IH. intros q Hq. apply Hall. by right.
Qed.

Lemma mkdirs_from_idem t a ns t' :
  mkdirs_from t a ns = Some t' → mkdirs_from t' a ns = Some t'.
Proof. intros H. by eapply mkdirs_from_present, mkdirs_from_dirs. Qed.

(** A failure stays a failure when a regular file is put somewhere. *)
Lemma mkdirs_from_fails_with_file t a ns k c :
  mkdirs_from t a ns = None →
  mkdirs_from (<[k := File c]> t) a ns = None.
Proof.
  revert t a. induction ns as [|n ns IH]; intros t a Hmk; [done|].
  cbn [mkdirs_from] in *.
  destruct (decide (k = a ++ [n])) as [->|Hne].
  - by rewrite lookup_insert_eq.
  - rewrite lookup_insert_ne by done.
    destruct (t !! (a ++ [n])) as [[?|]|]; [done|by apply IH|].
    rewrite insert_insert_ne by done. by apply IH.
Qed.

(** It succeeds where no regular file is on the way. *)
Lemma mkdirs_from_succeeds t a ns :
  (∀ q c, q ∈ on_the_way a ns → t !! q ≠ Some (File c)) →
  ∃ t', mkdirs_from t a ns = Some t'.
Proof.
  revert t a. induction ns as [|n ns IH]; intros t a Hfree; [by eexists|].
  cbn [mkdirs_from on_the_way] in *.
  destruct (t !! (a ++ [n])) as [[c|]|] eqn:Hk.
  - by destruct (Hfree (a ++ [n]) c (list_elem_of_here _ _)).
  - apply IH. intros q c Hq. apply Hfree. by right.
  - apply IH. intros q c Hq.
    rewrite lookup_insert_ne.
    + apply Hfree. by right.
    + intros <-. apply on_the_way_longer in Hq. lia.
Qed.
End Makedirs.

(** ** Table Exporter: writing the file *)

Section Writer.
Context {E : Type} `{!Sqlite3 E} `{!FloatRepr}.
Implicit Types (w : world E) (fs : fsys) (l : list dict) (f : string).

Lemma append_file_at fs f c data :
  tree fs !! resolve fs f = Some (File c) →
  append_file fs f data
  = set_tree fs (<[resolve fs f := File (c ++ data)]> (tree fs)).
Proof. intros Hk. unfold append_file. by rewrite Hk. Qed.

Lemma append_file_twice fs f c d1 d2 :
  tree fs !! resolve fs f = Some (File c) →
  append_file (append_file fs f d1) f d2 = append_file fs f (d1 ++ d2).
Proof.
  intros Hk. rewrite (append_file_at fs f c d1 Hk).
  rewrite (append_file_at _ f (c ++ d1) d2), (append_file_at fs f c _ Hk).
  - cbn [tree set_tree]. change (resolve (set_tree fs _) f) with (resolve fs f).
    by rewrite insert_insert_eq, app_assoc.
  - cbn [tree set_tree]. change (resolve (set_tree fs _) f) with (resolve fs f).
    by rewrite lookup_insert_eq.
Qed.

Lemma append_file_nil fs f c :
  tree fs !! resolve fs f = Some (File c) → append_file fs f [] = fs.
Proof.
  intros Hk. rewrite (append_file_at fs f c [] Hk), app_nil_r, insert_id by done.
  by destruct fs.
Qed.

(** The loop, on a file that is open. *)
Lemma write_loop l f w c :
  tree (w_fs w) !! resolve (w_fs w) f = Some (File c) →
  ∃ r,
    for_each l (λ entry,
      json_line ← lift_result (json_dumps entry);
      fs_do (λ fs, Ok (append_file fs f
                         (bytes_of_string (json_line +:+ str1 newline))))) w
    = (r, set_fs w (append_file (w_fs w) f (jsonl_bytes l))).
Proof.
  revert w c. induction l as [|entry l IH]; intros w c Hopen.
  - exists (Ok tt). cbn [for_each jsonl_bytes]. unfold mret, py_ret.
    rewrite (append_file_nil _ _ c Hopen). by destruct w.
  - cbn [for_each jsonl_bytes].
    destruct (json_dumps entry) as [line|e] eqn:Hd.
    + set (data := bytes_of_string (line +:+ str1 newline)).
      destruct (IH (set_fs w (append_file (w_fs w) f data)) (c ++ data))
        as [r Hr].
      { cbn [w_fs set_fs]. rewrite (append_file_at _ _ c data Hopen).
        cbn [tree set_tree].
        change (resolve (set_tree _ _) f) with (resolve (w_fs w) f).
        by rewrite lookup_insert_eq. }
      exists r. erewrite run_bind_ok.
      2:{ erewrite run_bind_ok; [|reflexivity].
          apply run_fs_do_ok. reflexivity. }
      fold data. rewrite Hr. cbn [w_fs set_fs].
      by rewrite (append_file_twice _ _ c).
    + exists (Raise e). erewrite run_bind_raise.
      2:{ apply run_bind_raise. reflexivity. }
      rewrite (append_file_nil _ _ c Hopen). by destruct w.
Qed.

Lemma open_trunc_opened fs f fs2 :
  open_trunc fs f = Ok fs2 →
  let k := resolve fs f in
  fs2 = set_tree fs (<[k := File []]> (tree fs))
  ∧ tree fs !! k ≠ Some Dir
  ∧ is_dir_at (tree fs) (parent k) = true
  ∧ k ≠ parent k
  ∧ f ≠ "" ∧ wants_dir f = false.
Proof.
  intros Ho k. unfold open_trunc in Ho.
  case_bool_decide as Hf; [done|].
  destruct (wants_dir f); [done|]. fold k in Ho.
  assert (tree fs !! k ≠ Some Dir ∧ is_dir_at (tree fs) (parent k) = true
          ∧ fs2 = set_tree fs (<[k := File []]> (tree fs))) as (Hk & Hp & ->).
  { destruct (tree fs !! k) as [[c|]|]; [| done |];
      (destruct (is_dir_at (tree fs) (parent k));
       [by injection Ho as <-
       |by destruct (tree fs !! parent k) as [[?|]|]]). }
  repeat split; try done.
  intros Heq. unfold is_dir_at in Hp. rewrite <- Heq in Hp.
  by destruct (tree fs !! k) as [[c|]|].
Qed.

(** [write_dicts_to_jsonl] always returns; its effect on the file
    system is [jsonl_fs]. *)
Lemma write_dicts_run l f w :
  ∃ out, write_dicts_to_jsonl l f w
         = (Ok tt, World (jsonl_fs l f (w_fs w)) (w_eng w) out (w_calls w)).
Proof.
  unfold write_dicts_to_jsonl, jsonl_fs, create_folder_if_not_exists.
  set (folder := join_sep (removelast (split_sep f))).
  destruct w as [fs eng out calls]. cbn [w_fs w_eng w_out w_calls].
  assert (∃ out1,
    try_except (fs_do (λ fs, os_makedirs fs folder))
      (λ e, print ("[EXCEPTION RAISED] An error occurred while creating the folder '"
                   +:+ folder +:+ "': " +:+ exn_msg e))
      (World fs eng out calls)
    = (Ok tt, World (match os_makedirs fs folder with
                     | Ok fs' => fs' | Raise _ => fs end) eng out1 calls))
    as [out1 Hmk].
  { destruct (os_makedirs fs folder) as [fs'|e] eqn:Hm.
    - exists out. by erewrite run_try_ok; [|by apply run_fs_do_ok].
    - eexists. by erewrite run_try_raise; [|by apply run_fs_do_raise]. }
  set (fs1 := match os_makedirs fs folder with
              | Ok fs' => fs' | Raise _ => fs end) in *.
  destruct (open_trunc fs1 f) as [fs2|e] eqn:Hopen.
  - destruct (open_trunc_opened _ _ _ Hopen) as (Hfs2 & _).
    destruct (write_loop l f (World fs2 eng out1 calls) [])
      as [r Hloop].
    { cbn [w_fs]. rewrite Hfs2. cbn [tree set_tree].
      change (resolve (set_tree fs1 _) f) with (resolve fs1 f).
      by rewrite lookup_insert_eq. }
    cbn [w_fs set_fs w_eng w_out w_calls] in Hloop.
    destruct r as [[]|e].
    + eexists. erewrite run_try_ok; [reflexivity|].
      erewrite run_bind_ok; [|exact Hmk].
      erewrite run_bind_ok; [|by apply run_fs_do_ok].
      exact Hloop.
    + eexists. erewrite run_try_raise.
      2:{ erewrite run_bind_ok; [|exact Hmk].
          erewrite run_bind_ok; [|by apply run_fs_do_ok].
          exact Hloop. }
      reflexivity.
  - eexists. erewrite run_try_raise.
    2:{ erewrite run_bind_ok; [|exact Hmk].
        apply run_bind_raise. by apply run_fs_do_raise. }
    reflexivity.
Qed.

Lemma os_makedirs_ok fs p fs' :
  os_makedirs fs p = Ok fs' →
  p ≠ "" ∧ mkdirs_from (tree fs) [] (resolve fs p) = Some (tree fs')
  ∧ cwd fs' = cwd fs.
Proof.
  unfold os_makedirs. case_bool_decide; [done|].
  destruct (mkdirs_from (tree fs) [] (resolve fs p)) as [t'|];
    [|by destruct (tree fs !! resolve fs p) as [[?|]|]].
  by intros [= <-].
Qed.

Lemma os_makedirs_idem fs p fs' :
  os_makedirs fs p = Ok fs' → os_makedirs fs' p = Ok fs'.
Proof.
  intros (Hp & Hmk & Hcwd)%os_makedirs_ok. unfold os_makedirs.
  rewrite (bool_decide_eq_false_2 _ Hp), (resolve_cwd fs fs' p Hcwd).
  rewrite (mkdirs_from_idem _ _ _ _ Hmk). by destruct fs'.
Qed.

(** The file that was opened and written, as one update. *)
Lemma written_file fs f fs2 data :
  open_trunc fs f = Ok fs2 →
  append_file fs2 f data
  = set_tree fs (<[resolve fs f := File data]> (tree fs)).
Proof.
  intros (-> & _)%open_trunc_opened.
  rewrite (append_file_at _ f []).
  - cbn [tree set_tree]. change (resolve (set_tree fs _) f) with (resolve fs f).
    by rewrite insert_insert_eq.
  - cbn [tree set_tree]. change (resolve (set_tree fs _) f) with (resolve fs f).
    by rewrite lookup_insert_eq.
Qed.

(** Opening it again truncates it again. *)
Lemma reopen_written fs f fs2 data :
  open_trunc fs f = Ok fs2 →
  open_trunc (set_tree fs (<[resolve fs f := File data]> (tree fs))) f = Ok fs2.
Proof.
  intros Hop. destruct (open_trunc_opened _ _ _ Hop)
    as (-> & Hk & Hp & Hkp & Hf & Hw).
  unfold open_trunc. rewrite (bool_decide_eq_false_2 _ Hf), Hw.
  change (resolve (set_tree fs _) f) with (resolve fs f).
  cbn [tree set_tree]. rewrite lookup_insert_eq.
  unfold is_dir_at in *. rewrite lookup_insert_ne, Hp by done.
  by rewrite insert_insert_eq.
Qed.

(** Creating the directories again after the file was written: the
    outcome is as it was. *)
Lemma makedirs_after_write fs f fs2 data p :
  open_trunc fs f = Ok fs2 →
  let final := set_tree fs (<[resolve fs f := File data]> (tree fs)) in
  (os_makedirs fs p = Ok fs → os_makedirs final p = Ok final)
  ∧ (is_ok (os_makedirs fs p) = false → is_ok (os_makedirs final p) = false).
Proof.
  intros Hop final. destruct (open_trunc_opened _ _ _ Hop)
    as (_ & Hk & _).
  unfold os_makedirs.
  change (resolve final p) with (resolve fs p). cbn [tree final set_tree].
  case_bool_decide as Hp; [done|]. split.
  - destruct (mkdirs_from (tree fs) [] (resolve fs p)) as [t'|] eqn:Hmk;
      [|by destruct (tree fs !! resolve fs p) as [[?|]|]].
    intros [= Heq]. apply (f_equal tree) in Heq. cbn in Heq. subst t'.
    rewrite mkdirs_from_present; [done|].
    intros q Hq. pose proof (mkdirs_from_dirs _ _ _ _ Hmk q Hq) as Hd.
    rewrite lookup_insert_ne; [done|]. intros <-. by rewrite Hd in Hk.
  - destruct (mkdirs_from (tree fs) [] (resolve fs p)) as [t'|] eqn:Hmk; [done|].
    intros _. rewrite mkdirs_from_fails_with_file by done.
    by destruct (_ !! resolve fs p) as [[?|]|].
Qed.

(** Writing the same entries to the same path twice leaves what
    writing them once leaves. *)
Lemma jsonl_fs_idem l f fs : jsonl_fs l f (jsonl_fs l f fs) = jsonl_fs l f fs.
Proof.
  set (folder := join_sep (removelast (split_sep f))).
  destruct (os_makedirs fs folder) as [fs1|e] eqn:Hmk.
  - apply os_makedirs_idem in Hmk as Hmk1.
    destruct (open_trunc fs1 f) as [fs2|e] eqn:Hop.
    + set (final := set_tree fs1 (<[resolve fs1 f := File (jsonl_bytes l)]> (tree fs1))).
      assert (jsonl_fs l f fs = final) as ->.
      { unfold jsonl_fs. fold folder. rewrite Hmk, Hop. by apply written_file. }
      destruct (makedirs_after_write fs1 f fs2 (jsonl_bytes l) folder Hop)
        as [Hagain _].
      unfold jsonl_fs. fold folder. fold final in Hagain.
      rewrite (Hagain Hmk1). unfold final at 1.
      rewrite (reopen_written _ _ _ _ Hop).
      by rewrite (written_file _ _ _ _ Hop).
    + assert (jsonl_fs l f fs = fs1) as ->.
      { unfold jsonl_fs. fold folder. by rewrite Hmk, Hop. }
      unfold jsonl_fs. fold folder. by rewrite Hmk1, Hop.
  - destruct (open_trunc fs f) as [fs2|e'] eqn:Hop.
    + set (final := set_tree fs (<[resolve fs f := File (jsonl_bytes l)]> (tree fs))).
      assert (jsonl_fs l f fs = final) as ->.
      { unfold jsonl_fs. fold folder. rewrite Hmk, Hop. by apply written_file. }
      destruct (makedirs_after_write fs f fs2 (jsonl_bytes l) folder Hop)
        as [_ Hagain].
      fold final in Hagain. rewrite Hmk in Hagain. specialize (Hagain eq_refl).
      unfold jsonl_fs. fold folder.
      destruct (os_makedirs final folder) as [fs'|e2] eqn:Hmk2; [done|].
      unfold final at 1. rewrite (reopen_written _ _ _ _ Hop).
      by rewrite (written_file _ _ _ _ Hop).
    + assert (jsonl_fs l f fs = fs) as ->.
      { unfold jsonl_fs. fold folder. by rewrite Hmk, Hop. }
      unfold jsonl_fs. fold folder. by rewrite Hmk, Hop.
Qed.
End Writer.

(** ** Table Exporter: one table *)

Section Exporter.
Context {E : Type} `{!Sqlite3 E} `{!FloatRepr}.
Implicit Types (w : world E) (fs : fsys) (t : value) (cu : nat).

Lemma tuple_get_run (r : row) (i : nat) w :
  tuple_get r i w
  = (match r !! i with Some v => Ok v | None => Raise index_error end, w).
Proof. unfold tuple_get. by destruct (r !! i). Qed.

Lemma second_fields_run (columns_info : list row) w :
  comprehension columns_info (λ column, tuple_get column 1) w
  = (match second_fields columns_info with
     | Some names => Ok names
     | None => Raise index_error
     end, w).
Proof.
  unfold second_fields.
  induction columns_info as [|column info IH]; [done|].
  cbn [comprehension mapM].
  destruct (column !! 1%nat) as [v|] eqn:Hv; cbn [mbind option_bind].
  - erewrite run_bind_ok; [|by rewrite tuple_get_run, Hv].
    destruct (mapM (λ column : row, column !! 1%nat) info) as [names|];
      cbn [mbind option_bind mret option_ret].
    + erewrite run_bind_ok; [|exact IH]. reflexivity.
    + erewrite run_bind_raise; [|exact IH]. reflexivity.
  - erewrite run_bind_raise; [|by rewrite tuple_get_run, Hv]. reflexivity.
Qed.

Lemma process_table_run output_dir t cu w columns_info names rows wa wb :
  cursor_fetch cu (table_info_sql (str_of t)) w = (Ok columns_info, wa) →
  second_fields columns_info = Some names →
  cursor_fetch cu (select_all_sql (str_of t)) wa = (Ok rows, wb) →
  ∃ out,
    process_table output_dir t cu w
    = (match os_path_join_value output_dir t with
       | Ok _ => Ok tt
       | Raise e => Raise e
       end,
       World (exported_fs output_dir t names rows (w_fs wb))
             (w_eng wb) out (w_calls wb)).
Proof.
  intros Hinfo Hn Hrows. unfold process_table, exported_fs.
  fold (table_info_sql (str_of t)) (select_all_sql (str_of t)).
  erewrite run_bind_ok; [|exact Hinfo].
  erewrite run_bind_ok; [|by rewrite second_fields_run, Hn].
  erewrite run_bind_ok; [|exact Hrows].
  destruct (os_path_join_value output_dir t) as [joined|e] eqn:Hj.
  - erewrite run_bind_ok; [|reflexivity].
    destruct (write_dicts_run (map (row_dict names) rows)
                (joined +:+ ".jsonl") wb) as [out Hw].
    by exists out.
  - erewrite run_bind_raise; [|reflexivity].
    exists (w_out wb). by destruct wb.
Qed.

Lemma exported_fs_idem output_dir t names rows fs :
  exported_fs output_dir t names rows (exported_fs output_dir t names rows fs)
  = exported_fs output_dir t names rows fs.
Proof.
  unfold exported_fs. destruct (os_path_join_value output_dir t); [|done].
  apply jsonl_fs_idem.
Qed.

(** The table is exported, and then exported again on a database
    that answers the two statements as before, leaving the file system
    as the first run left it: the second run leaves the file system
    as the first did. *)
Lemma process_table_again output_dir t cu w columns_info names rows
    wa wb wa' wb' :
  cursor_fetch cu (table_info_sql (str_of t)) w = (Ok columns_info, wa) →
  second_fields columns_info = Some names →
  cursor_fetch cu (select_all_sql (str_of t)) wa = (Ok rows, wb) →
  let once := process_table output_dir t cu w in
  cursor_fetch cu (table_info_sql (str_of t)) once.2 = (Ok columns_info, wa') →
  cursor_fetch cu (select_all_sql (str_of t)) wa' = (Ok rows, wb') →
  w_fs wb' = w_fs once.2 →
  let twice := process_table output_dir t cu once.2 in
  w_fs twice.2 = w_fs once.2 ∧ twice.1 = once.1.
Proof.
  intros Hinfo Hn Hrows once Hinfo' Hrows' Hsame twice.
  destruct (process_table_run output_dir t cu w _ _ _ _ _ Hinfo Hn Hrows)
    as [out Honce].
  destruct (process_table_run output_dir t cu once.2 _ _ _ _ _ Hinfo' Hn Hrows')
    as [out' Htwice].
  unfold twice. rewrite Htwice. cbn [fst snd w_fs].
  rewrite Hsame. unfold once. rewrite Honce. cbn [fst snd w_fs].
  split; [apply exported_fs_idem|done].
Qed.
End Exporter.

(** ** The folder of an output file *)

Section Folder.
Implicit Types (s b f : string) (fs : fsys).

Lemma join_sep_cons h (l : list string) :
  l ≠ [] → join_sep (h :: l) = h +:+ String sep (join_sep l).
Proof. by destruct l. Qed.

Lemma join_split s : join_sep (split_sep s) = s.
Proof.
  induction s as [|c s IH]; [done|]. cbn [split_sep].
  pose proof (split_sep_nonempty s) as Hne.
  case_bool_decide as Hc.
  - rewrite join_sep_cons, IH by done. by rewrite Hc.
  - destruct (split_sep s) as [|h l]; [done|].
    destruct l as [|h' l].
    + cbn in *. by rewrite IH.
    + rewrite join_sep_cons by done. rewrite join_sep_cons in IH by done.
      by rewrite <- IH.
Qed.

Lemma split_sep_no_sep s : Forall (λ c, no_sep c = true) (split_sep s).
Proof.
  induction s as [|c s IH]; [by repeat constructor|]. cbn [split_sep].
  case_bool_decide as Hc; [by constructor|].
  pose proof (split_sep_nonempty s) as Hne.
  destruct (split_sep s) as [|h l]; [done|].
  apply Forall_cons in IH as [Hh Hl]. constructor; [|done].
  cbn [no_sep]. by rewrite (bool_decide_eq_false_2 _ Hc), Hh.
Qed.

Lemma split_sep_then s b :
  no_sep b = true → split_sep (s +:+ String sep b) = split_sep s ++ [b].
Proof.
  intros Hb. induction s as [|c s IH].
  - change (split_sep ("" +:+ String sep b)) with ("" :: split_sep b).
    by rewrite split_sep_plain.
  - change (String c s +:+ String sep b) with (String c (s +:+ String sep b)).
    cbn [split_sep]. rewrite IH.
    pose proof (split_sep_nonempty s) as Hne.
    destruct (bool_decide (c = sep)); [done|].
    by destruct (split_sep s).
Qed.

Lemma join_sep_snoc (l : list string) b :
  l ≠ [] → join_sep (l ++ [b]) = join_sep l +:+ String sep b.
Proof.
  induction l as [|h l IH]; [done|]. intros _.
  destruct l as [|h' l]; [done|].
  change ((h :: h' :: l) ++ [b]) with (h :: h' :: (l ++ [b])).
  rewrite join_sep_cons by done.
  change (h' :: (l ++ [b])) with ((h' :: l) ++ [b]).
  rewrite IH by done. rewrite (join_sep_cons h (h' :: l)) by done.
  generalize (join_sep (h' :: l)). intros j.
  induction h as [|a h IHh]; [done|]. rewrite !append_cons. by f_equal.
Qed.

Lemma folder_split f :
  folder_of f ≠ "" → f = folder_of f +:+ String sep (os_path_basename f).
Proof.
  intros Hne. unfold folder_of in *.
  rewrite <- (join_split f) at 1. rewrite (split_sep_snoc f) at 1.
  apply join_sep_snoc. by intros Heq; rewrite Heq in Hne.
Qed.

Lemma basename_no_sep f : no_sep (os_path_basename f) = true.
Proof.
  pose proof (split_sep_no_sep f) as Hall. rewrite (split_sep_snoc f) in Hall.
  by apply Forall_app in Hall as [_ [Hb _]%Forall_cons].
Qed.

(** The folder resolves to the directory of the file. *)
Lemma folder_location fs f :
  folder_of f ≠ "" → resolve fs (folder_of f) = dir_location fs f.
Proof.
  intros Hne. pose proof (folder_split f Hne) as Hf.
  assert (removelast (split_sep f) = split_sep (folder_of f)) as HL.
  { pose proof (split_sep_snoc f) as Hs. rewrite Hf in Hs at 1.
    rewrite split_sep_then in Hs by apply basename_no_sep.
    by apply app_inj_tail in Hs as [-> _]. }
  unfold resolve, dir_location. rewrite HL.
  assert (startswith_sep f = startswith_sep (folder_of f)) as ->.
  { rewrite Hf at 1. by apply startswith_sep_suffix. }
  by destruct (startswith_sep (folder_of f)).
Qed.

(** Without a folder the file lies in the root or in the working
    directory. *)
Lemma no_folder_location fs f :
  folder_of f = "" →
  dir_location fs f = [] ∨ dir_location fs f = cwd fs.
Proof.
  unfold folder_of, dir_location. intros Hno.
  pose proof (split_sep_snoc f) as Hs.
  destruct (removelast (split_sep f)) as [|h l] eqn:HL.
  - cbn [List.filter]. rewrite app_nil_r. destruct (startswith_sep f); auto.
  - destruct l as [|h' l].
    + cbn in Hno. subst h. cbn [List.filter is_name]. cbn.
      rewrite app_nil_r. destruct (startswith_sep f); auto.
    + rewrite join_sep_cons in Hno by done. by destruct h.
Qed.
End Folder.

(** ** Table Exporter: a table without rows *)

Section EmptyTable.
Context {E : Type} `{!Sqlite3 E} `{!FloatRepr}.
Implicit Types (w : world E) (fs : fsys) (f : string).

Lemma is_name_long s : (2 ≤ String.length s)%nat → is_name s = true.
Proof.
  destruct s as [|a [|b s]]; cbn; try lia. intros _. unfold is_name.
  by rewrite !bool_decide_eq_false_2.
Qed.

Lemma basename_suffix p t :
  no_sep t = true → os_path_basename (p +:+ t) = os_path_basename p +:+ t.
Proof.
  intros Ht. unfold os_path_basename.
  by rewrite split_sep_suffix, last_last.
Qed.

Lemma jsonl_named p : is_name (os_path_basename (p +:+ ".jsonl")) = true.
Proof.
  rewrite basename_suffix by done. apply is_name_long.
  rewrite length_append. cbn. lia.
Qed.

(** Where no regular file is on the way to its directory and the path
    itself is not a directory, the file is created, empty when there
    are no entries, and its directory exists. *)
Lemma jsonl_fs_empty fs f :
  is_name (os_path_basename f) = true →
  tree fs !! [] = Some Dir →
  is_dir_at (tree fs) (cwd fs) = true →
  (∀ q c, q ∈ on_the_way [] (dir_location fs f) → tree fs !! q ≠ Some (File c)) →
  tree fs !! resolve fs f ≠ Some Dir →
  let fs' := jsonl_fs [] f fs in
  stat fs' f = Some (File [])
  ∧ is_dir_at (tree fs') (dir_location fs f) = true
  ∧ cwd fs' = cwd fs.
Proof.
  intros Hname Hroot Hcwd Hway Hnd fs'.
  pose proof (resolve_named fs f Hname) as Hk.
  assert (f ≠ "") as Hf by (by intros ->).
  assert (wants_dir f = false) as Hw.
  { unfold wants_dir. fold (os_path_basename f). by rewrite Hname. }
  set (d := dir_location fs f) in *.
  set (k := resolve fs f) in *.
  assert (k ≠ d) as Hkd.
  { rewrite Hk. intros Heq. apply (f_equal length) in Heq.
    rewrite length_app in Heq. cbn in Heq. lia. }
  assert (∀ fs1, cwd fs1 = cwd fs → tree fs1 !! k ≠ Some Dir →
                 is_dir_at (tree fs1) d = true →
                 match open_trunc fs1 f with
                 | Ok fs2 => append_file fs2 f []
                 | Raise _ => fs1
                 end = set_tree fs1 (<[k := File []]> (tree fs1))) as Hopen.
  { intros fs1 Hc Hnd1 Hd1.
    assert (open_trunc fs1 f
            = Ok (set_tree fs1 (<[k := File []]> (tree fs1)))) as Ho.
    { unfold open_trunc. rewrite (bool_decide_eq_false_2 _ Hf), Hw.
      rewrite (resolve_cwd fs fs1 f Hc). fold k.
      replace (parent k) with d by (by rewrite Hk, parent_snoc). rewrite Hd1.
      by destruct (tree fs1 !! k) as [[c|]|]. }
    rewrite Ho. rewrite (written_file _ _ _ [] Ho).
    by rewrite (resolve_cwd fs fs1 f Hc). }
  assert (∀ fs1, cwd fs1 = cwd fs →
                 stat (set_tree fs1 (<[k := File []]> (tree fs1))) f
                 = Some (File [])) as Hstat.
  { intros fs1 Hc. rewrite stat_set_tree, (resolve_cwd fs fs1 f Hc). fold k.
    by rewrite (bool_decide_eq_false_2 _ Hf), lookup_insert_eq, Hw. }
  unfold fs', jsonl_fs. fold (folder_of f). cbn [jsonl_bytes].
  destruct (decide (folder_of f = "")) as [Hno|Hfolder].
  - rewrite Hno. cbn [os_makedirs bool_decide decide_rel].
    replace (os_makedirs fs "") with (Raise (A:=fsys) (no_such_file ""))
      by reflexivity.
    assert (is_dir_at (tree fs) d = true) as Hd.
    { destruct (no_folder_location fs f Hno) as [Hd|Hd]; fold d in Hd;
        rewrite Hd; [|done]. unfold is_dir_at. by rewrite Hroot. }
    rewrite (Hopen fs eq_refl Hnd Hd). split; [by apply Hstat|].
    split; [|done]. cbn [tree set_tree]. unfold is_dir_at in *.
    by rewrite lookup_insert_ne.
  - pose proof (folder_location fs f Hfolder) as Hres. fold d in Hres.
    destruct (mkdirs_from_succeeds (tree fs) [] d Hway) as [t' Hmk].
    assert (os_makedirs fs (folder_of f) = Ok (set_tree fs t')) as ->.
    { unfold os_makedirs.
      by rewrite (bool_decide_eq_false_2 _ Hfolder), Hres, Hmk. }
    destruct (mkdirs_from_frame _ _ _ _ Hmk) as [Hkeep Hoff].
    assert (is_dir_at t' d = true) as Hd.
    { unfold is_dir_at. destruct (decide (d = [])) as [->|Hne].
      - by rewrite (Hkeep [] Hroot).
      - destruct (exists_last Hne) as (ns & c & Hdc).
        rewrite (mkdirs_from_dirs _ _ _ _ Hmk d); [done|].
        rewrite Hdc at 1. rewrite Hdc at 1.
        apply (on_the_way_last [] ns c). }
    assert (t' !! k ≠ Some Dir) as Hnd'.
    { rewrite Hoff; [done|]. intros Hin%on_the_way_longer.
      rewrite Hk, length_app in Hin. cbn in Hin. lia. }
    rewrite (Hopen (set_tree fs t') eq_refl Hnd' Hd).
    split; [by apply Hstat|]. split; [|done].
    cbn [tree set_tree]. unfold is_dir_at in *. by rewrite lookup_insert_ne.
Qed.

Lemma os_path_join_plain (a b : string) :
  a ≠ "" → endswith_sep a = false → startswith_sep b = false →
  os_path_join a b = a +:+ "/" +:+ b.
Proof.
  intros Ha He Hb. unfold os_path_join.
  by rewrite Hb, He, (bool_decide_eq_false_2 _ Ha).
Qed.

(** C10.  The table has columns and the scan returns no row.  The root
    and the working directory are directories, no regular file is on
    the way to the directory of the output file, and the output path
    is not a directory.  Then [process_table] returns normally, the
    output file exists and is empty (zero lines), and its directory
    exists.  For an output directory that is not empty and does not
    end in a slash, and a table name that does not begin with one, the
    file is [output_dir/name.jsonl]. *)
Theorem process_table_empty_table (output_dir name : string) (cu : nat) w
    columns_info names wa wb :
  cursor_fetch cu (table_info_sql name) w = (Ok columns_info, wa) →
  second_fields columns_info = Some names →
  cursor_fetch cu (select_all_sql name) wa = (Ok [], wb) →
  let f := os_path_join output_dir name +:+ ".jsonl" in
  tree (w_fs wb) !! [] = Some Dir →
  is_dir_at (tree (w_fs wb)) (cwd (w_fs wb)) = true →
  (∀ q c, q ∈ on_the_way [] (dir_location (w_fs wb) f) →
          tree (w_fs wb) !! q ≠ Some (File c)) →
  tree (w_fs wb) !! resolve (w_fs wb) f ≠ Some Dir →
  ∃ w',
    process_table output_dir (VStr name) cu w = (Ok tt, w')
    ∧ stat (w_fs w') f = Some (File [])
    ∧ is_dir_at (tree (w_fs w')) (dir_location (w_fs w') f) = true
    ∧ (output_dir ≠ "" → endswith_sep output_dir = false →
       startswith_sep name = false →
       f = output_dir +:+ "/" +:+ name +:+ ".jsonl").
Proof.
  intros Hinfo Hn Hrows f Hroot Hcwd Hway Hnd.
  destruct (process_table_run output_dir (VStr name) cu w _ _ _ _ _
              Hinfo Hn Hrows) as [out Hrun].
  cbn [os_path_join_value] in Hrun. unfold exported_fs in Hrun.
  cbn [os_path_join_value map] in Hrun. fold f in Hrun.
  destruct (jsonl_fs_empty (w_fs wb) f (jsonl_named _) Hroot Hcwd Hway Hnd)
    as (Hfile & Hdir & Hsame).
  eexists. split; [exact Hrun|]. cbn [w_fs].
  split; [exact Hfile|]. split.
  - unfold dir_location in *. by rewrite Hsame.
  - intros Ha He Hb. unfold f.
    by rewrite os_path_join_plain, !append_assoc.
Qed.
End EmptyTable.

Module EmptyTableCases.
Import MiniDb Worlds.

Lemma process_table_empty_table_witness :
  ∃ w',
    process_table "out/x.db" (VStr "log") 2 world_log = (Ok tt, w')
    ∧ stat (w_fs w') "out/x.db/log.jsonl" = Some (File [])
    ∧ is_dir_at (tree (w_fs w')) (home ++ ["out"; "x.db"]) = true.
Proof.
  destruct (process_table_empty_table "out/x.db" "log" 2 world_log
              log_info [VStr "at"; VStr "line"] w_info w_rows)
    as (w' & Hrun & Hfile & Hdir & _).
  - vm_compute. reflexivity.
  - vm_compute. reflexivity.
  - vm_compute. reflexivity.
  - vm_compute. reflexivity.
  - vm_compute. reflexivity.
  - intros q c Hq.
    change (q ∈ [["home"]; home; home ++ ["out"]; home ++ ["out"; "x.db"]])
      in Hq.
    repeat (apply elem_of_cons in Hq as [->|Hq]); try (vm_compute; discriminate).
    by apply elem_of_nil in Hq.
  - vm_compute. discriminate.
  - exists w'. split; [exact Hrun|]. split; [exact Hfile|].
    replace (home ++ ["out"; "x.db"])
      with (dir_location (w_fs w') (os_path_join "out/x.db" "log" +:+ ".jsonl"));
      [exact Hdir|].
    assert (w' = (process_table "out/x.db" (VStr "log") 2 world_log).2)
      as -> by (by rewrite Hrun).
    vm_compute. reflexivity.
Defined.
End EmptyTableCases.

(** ** Output layout *)

Section Layout.
Implicit Types (a b : string).

Lemma endswith_sep_append a b :
  b ≠ "" → endswith_sep (a +:+ b) = endswith_sep b.
Proof.
  intros Hb. induction a as [|c a IH]; [done|].
  rewrite append_cons. cbn [endswith_sep]. rewrite IH.
  destruct (a +:+ b) eqn:Hab; [|done].
  destruct a; [|done]. by destruct b.
Qed.

(** For a relative input path the output file of a table lies under
    the output directory, below the components of the input path. *)
Lemma output_path_layout (output_dir input name : string) :
  output_dir ≠ "" → endswith_sep output_dir = false →
  input ≠ "" → startswith_sep input = false → endswith_sep input = false →
  startswith_sep name = false →
  os_path_join (os_path_join output_dir input) name +:+ ".jsonl"
  = output_dir +:+ "/" +:+ input +:+ "/" +:+ name +:+ ".jsonl".
Proof.
  intros Ho Hoe Hi His Hie Hn.
  rewrite (os_path_join_plain output_dir input) by done.
  rewrite os_path_join_plain; [by rewrite !append_assoc| | |done].
  - by destruct output_dir.
  - rewrite !endswith_sep_append; [done|by destruct input|done].
Qed.

(** An absolute input path replaces the output directory. *)
Lemma output_path_absolute (output_dir input name : string) :
  startswith_sep input = true →
  os_path_join output_dir input = input.
Proof. intros Hi. unfold os_path_join. by rewrite Hi. Qed.
End Layout.

Module ExporterCases.
Import MiniDb Worlds.

Example export_users_once :
  once.1 = Ok tt
  ∧ read_all (w_fs once.2) "out/x.db/users.jsonl"
    = Ok (bytes_of_string users_jsonl).
Proof. vm_compute. done. Qed.

Example export_users_twice :
  read_all (w_fs twice.2) "out/x.db/users.jsonl"
  = Ok (bytes_of_string users_jsonl).
Proof. vm_compute. done. Qed.

Example process_file_relative_input :
  let run := process_file "x.db" "output" false world_rel in
  run.1 = Ok tt
  ∧ read_all (w_fs run.2) "output/x.db/users.jsonl"
    = Ok (bytes_of_string users_jsonl)
  ∧ os_path_isfile (w_fs run.2) "output/x.db/sqlite_sequence.jsonl" = true.
Proof. vm_compute. done. Qed.

(** C8.  For the absolute input path [/tmp/x.db] and the output
    directory [output], [os.path.join] drops the output directory: the
    path computed for the table [users] is [/tmp/x.db/users.jsonl].
    Its directory is the database file itself, so neither the
    directory nor the file can be created: the run ends normally, has
    printed the errors, and has written nothing, under [output] or
    elsewhere. *)
Theorem process_file_absolute_input :
  let run := process_file "/tmp/x.db" "output" false world_abs in
  os_path_join (os_path_join "output" "/tmp/x.db") "users" +:+ ".jsonl"
  = "/tmp/x.db/users.jsonl"
  ∧ run.1 = Ok tt
  ∧ w_calls run.2
    = [CConnect "/tmp/x.db"; CCursor 1;
       CExecute 1 checkpoint_sql; CExecute 1 vacuum_sql;
       CQuery 2 master_sql;
       CQuery 2 (table_info_sql "users"); CQuery 2 (select_all_sql "users");
       CQuery 2 (table_info_sql "sqlite_sequence");
       CQuery 2 (select_all_sql "sqlite_sequence")]
  ∧ stat (w_fs run.2) "output//tmp/x.db/users.jsonl" = None
  ∧ stat (w_fs run.2) "/tmp/x.db/users.jsonl" = None
  ∧ w_fs run.2 = fs_abs
  ∧ w_out run.2 = abs_log.
Proof. vm_compute. repeat split. Qed.
End ExporterCases.

(** * Further properties *)

(** ** Format Validator: what it prints *)

Section Diagnostics.
Context {E : Type}.

(** X1.  [is_sqlite3] prints nothing when its verdict is positive, and
    exactly one line when it is negative: [[ERROR]], the file name,
    and the reason. *)
Theorem is_sqlite3_one_diagnostic (filename : string) (w : world E) :
  ∃ (b : bool) (diag : list string),
    is_sqlite3 filename w
    = (Ok b, World (w_fs w) (w_eng w) (w_out w ++ diag) (w_calls w))
    ∧ (b = true → diag = [])
    ∧ (b = false →
       ∃ reason, diag = ["[ERROR] " +:+ filename +:+ reason]).
Proof.
  unfold is_sqlite3, os_path_isfile, os_path_getsize, read_head.
  py_unfold. destruct w as [fs e out calls]; cbn.
  destruct (stat fs filename) as [[c|]|] eqn:Hst; cbn; rewrite ?Hst; cbn.
  - destruct (Z.of_nat (length c) <? 100)%Z eqn:Hsz; cbn; rewrite ?Hst; cbn.
    + exists false, ["[ERROR] " +:+ filename
                     +:+ " is too small to be a SQLite3 database"].
      repeat split; [done|eauto].
    + destruct (bool_decide (take 16 c = magic)); cbn.
      * exists true, []. rewrite app_nil_r. repeat split; done.
      * exists false, ["[ERROR] " +:+ filename +:+ " has the wrong header: "
                       +:+ str_of_bytes (take 15 (take 16 c))].
        repeat split; [done|eauto].
  - exists false, ["[ERROR] " +:+ filename +:+ " is not a file"].
    repeat split; [done|eauto].
  - exists false, ["[ERROR] " +:+ filename +:+ " is not a file"].
    repeat split; [done|eauto].
Qed.
End Diagnostics.

(** ** Value Normalizer: the exact reach of the stripping *)

Section Stripping.
Implicit Types (s t : string) (data : bytes) (c : Byte.byte).

Lemma append_nil_r s : s +:+ "" = s.
Proof. induction s as [|a s IH]; [done|]. by rewrite append_cons, IH. Qed.

Lemma repr_body_cons q c data :
  repr_body q (c :: data) = repr_byte q c +:+ repr_body q data.
Proof.
  unfold repr_body. destruct data as [|c' data]; [|done].
  cbn [map String.concat]. symmetry. apply append_nil_r.
Qed.

Lemma last_char_none s : last_char s = None → s = "".
Proof.
  induction s as [|a s IH]; [done|]. cbn.
  destruct s as [|b s]; [done|]. intros Hl. by specialize (IH Hl).
Qed.

Lemma last_char_app s t :
  last_char (s +:+ t)
  = match last_char t with Some x => Some x | None => last_char s end.
Proof.
  induction s as [|a s IH].
  - change ("" +:+ t) with t. by destruct (last_char t).
  - rewrite append_cons.
    destruct (last_char t) as [x|] eqn:Ht.
    + destruct (s +:+ t) as [|b u] eqn:Hst.
      * destruct s; [|done]. change t with ("" +:+ t) in Ht.
        by rewrite Hst in Ht.
      * change (last_char (String a (String b u)))
          with (last_char (String b u)).
        done.
    + apply last_char_none in Ht as ->. by rewrite !append_nil_r.
Qed.

Lemma repr_byte_head c :
  ∃ a rest, repr_byte squote c = String a rest ∧ a ≠ squote.
Proof. destruct c; vm_compute; eexists _, _; (split; [reflexivity|discriminate]). Qed.

Lemma repr_byte_last c :
  bool_decide (last_char (repr_byte squote c) = Some squote)
  = byte_is squote c.
Proof. destruct c; reflexivity. Qed.

Lemma repr_body_head c data :
  ∃ a rest, repr_body squote (c :: data) = String a rest ∧ a ≠ squote.
Proof.
  rewrite repr_body_cons.
  destruct (repr_byte_head c) as (a & rest & -> & Ha).
  by exists a, (rest +:+ repr_body squote data).
Qed.

Lemma repr_body_last data :
  bool_decide (last_char (repr_body squote data) = Some squote)
  = ends_with_squote data.
Proof.
  induction data as [|c data IH]; [done|].
  rewrite repr_body_cons, last_char_app.
  destruct data as [|c' data].
  - cbn [repr_body map String.concat last_char ends_with_squote].
    apply repr_byte_last.
  - change (ends_with_squote (c :: c' :: data))
      with (ends_with_squote (c' :: data)).
    rewrite <- IH.
    destruct (last_char (repr_body squote (c' :: data))) as [x|] eqn:Hl; [done|].
    apply last_char_none in Hl.
    destruct (repr_body_head c' data) as (a & rest & Hb & _). congruence.
Qed.

Lemma rstrip_snoc chars s a :
  a ∈ chars → rstrip chars (s +:+ str1 a) = rstrip chars s.
Proof.
  intros Ha. induction s as [|b s IH].
  - change (rstrip chars ("" +:+ str1 a))
      with (if bool_decide (a ∈ chars) then "" else str1 a).
    by rewrite bool_decide_eq_true_2.
  - change (String b s +:+ str1 a) with (String b (s +:+ str1 a)).
    cbn [rstrip]. by rewrite IH.
Qed.

Lemma rstrip_fixed chars s :
  rstrip chars s = s
  ↔ match last_char s with Some x => x ∉ chars | None => True end.
Proof.
  induction s as [|a s IH]; [done|].
  destruct s as [|b s].
  - cbn. case_bool_decide; split; done.
  - change (last_char (String a (String b s))) with (last_char (String b s)).
    rewrite <- IH.
    change (rstrip chars (String a (String b s)))
      with (match rstrip chars (String b s) with
            | EmptyString =>
                if bool_decide (a ∈ chars) then EmptyString else str1 a
            | kept => String a kept
            end).
    destruct (rstrip chars (String b s)) as [|x kept] eqn:Hr.
    + split; [|done]. by destruct (bool_decide (a ∈ chars)).
    + split; [intros [= -> ->]|intros [= -> ->]]; done.
Qed.

(** What [to_string] makes of [bytes], by the quote of the
    representation. *)
Lemma to_string_bytes data :
  to_string (VBytes data)
  = VStr (if bool_decide (repr_quote data = squote)
          then rstrip [squote] (repr_stripped data)
          else String dquote (repr_stripped data +:+ str1 dquote)).
Proof.
  unfold to_string, str_of_bytes, bytes_repr, repr_stripped.
  assert (repr_quote data = squote ∨ repr_quote data = dquote) as [Hq|Hq].
  { unfold repr_quote. destruct (_ && _); auto. }
  - rewrite Hq, bool_decide_eq_true_2 by done. f_equal.
    cbn [lstrip].
    rewrite bool_decide_eq_true_2 by set_solver.
    rewrite bool_decide_eq_false_2 by (intros ?%list_elem_of_singleton; done).
    unfold strip.
    change (lstrip [squote] (String squote (repr_body squote data +:+ str1 squote)))
      with (lstrip [squote] (repr_body squote data +:+ str1 squote)).
    destruct data as [|c data]; [done|].
    destruct (repr_body_head c data) as (a & rest & -> & Ha).
    change (String a rest +:+ str1 squote) with (String a (rest +:+ str1 squote)).
    cbn [lstrip].
    rewrite bool_decide_eq_false_2 by (intros ?%list_elem_of_singleton; done).
    change (String a (rest +:+ str1 squote)) with (String a rest +:+ str1 squote).
    apply rstrip_snoc. set_solver.
  - rewrite Hq, bool_decide_eq_false_2 by done. f_equal.
    cbn [lstrip].
    rewrite bool_decide_eq_true_2 by set_solver.
    rewrite bool_decide_eq_false_2 by (intros ?%list_elem_of_singleton; done).
    unfold strip. cbn [lstrip].
    rewrite bool_decide_eq_false_2 by (intros ?%list_elem_of_singleton; done).
    apply rstrip_fixed.
    change (String dquote (repr_body dquote data +:+ str1 dquote))
      with (str1 dquote +:+ repr_body dquote data +:+ str1 dquote).
    rewrite !last_char_app. cbn. intros ?%list_elem_of_singleton. done.
Qed.

(** X3.  On [bytes], [to_string] gives the representation without its
    prefix and its two quotes exactly when the representation is
    quoted with single quotes and the data does not end with a single
    quote. *)
Theorem to_string_strips_exactly data :
  to_string (VBytes data) = VStr (repr_stripped data)
  ↔ repr_quote data = squote ∧ ends_with_squote data = false.
Proof.
  rewrite to_string_bytes. case_bool_decide as Hq.
  - unfold repr_stripped. rewrite Hq, <- repr_body_last. split.
    + intros [= Hr]. split; [done|].
      apply rstrip_fixed in Hr. apply bool_decide_eq_false_2.
      intros Hl. rewrite Hl in Hr. apply Hr. set_solver.
    + intros [_ Hl]. f_equal. apply rstrip_fixed.
      destruct (last_char (repr_body squote data)) as [x|]; [|done].
      intros ->%list_elem_of_singleton.
      by rewrite bool_decide_eq_true_2 in Hl.
  - split; [|by intros [? _]]. intros [= Hr].
    apply (f_equal String.length) in Hr.
    cbn [String.length] in Hr. rewrite length_append in Hr. lia.
Qed.

Lemma all_chars_app P s t :
  all_chars P (s +:+ t) = all_chars P s && all_chars P t.
Proof.
  induction s as [|a s IH]; [done|].
  rewrite append_cons. cbn [all_chars]. by rewrite IH, andb_assoc.
Qed.

Lemma all_chars_lstrip P chars s :
  all_chars P s = true → all_chars P (lstrip chars s) = true.
Proof.
  induction s as [|a s IH]; [done|]. cbn [lstrip].
  destruct (bool_decide (a ∈ chars)); [|done].
  intros [_ Hs]%andb_true_iff. by apply IH.
Qed.

Lemma all_chars_rstrip P chars s :
  all_chars P s = true → all_chars P (rstrip chars s) = true.
Proof.
  induction s as [|a s IH]; [done|].
  intros [Ha Hs]%andb_true_iff. cbn [rstrip].
  destruct (rstrip chars s) as [|x kept].
  - destruct (bool_decide (a ∈ chars)); [done|]. cbn. by rewrite Ha.
  - cbn [all_chars]. rewrite Ha. by apply IH.
Qed.

Lemma printable_repr_byte q c :
  q = squote ∨ q = dquote → all_chars printable (repr_byte q c) = true.
Proof. intros [->| ->]; destruct c; reflexivity. Qed.

Lemma printable_repr_body q data :
  q = squote ∨ q = dquote → all_chars printable (repr_body q data) = true.
Proof.
  intros Hq. induction data as [|c data IH]; [done|].
  by rewrite repr_body_cons, all_chars_app, printable_repr_byte, IH.
Qed.

(** X4.  On [bytes], [to_string] gives a string of printable ASCII
    characters only, whatever the bytes. *)
Theorem to_string_bytes_printable data :
  ∃ s, to_string (VBytes data) = VStr s ∧ all_chars printable s = true.
Proof.
  eexists. split; [reflexivity|].
  unfold strip. apply all_chars_rstrip, all_chars_lstrip, all_chars_lstrip.
  unfold str_of_bytes, bytes_repr.
  assert (repr_quote data = squote ∨ repr_quote data = dquote) as Hq.
  { unfold repr_quote. destruct (_ && _); auto. }
  cbn [all_chars]. rewrite all_chars_app, printable_repr_body by done.
  by destruct Hq as [-> | ->].
Qed.
End Stripping.

(** ** Records: shape and serialization *)

Section RecordShape.
Context `{!FloatRepr}.
Implicit Types (d : dict) (k v : value) (r : row).

Lemma json_items_plain d :
  Forall plain_pair d → ∃ items, json_items d = Ok items.
Proof.
  induction 1 as [|[k v] d [Hk Hv] _ [items IH]]; [by eexists|].
  cbn [json_items]. rewrite IH.
  destruct k; try done; destruct v; try done; by eexists.
Qed.

Lemma dict_set_plain k v d :
  plain_pair (k, v) → Forall plain_pair d → Forall plain_pair (dict_set k v d).
Proof.
  intros Hkv. induction 1 as [|[k' v'] d Hh Hd IH]; cbn [dict_set].
  - constructor; [done|constructor].
  - destruct (decide (k' = k)) as [->|_]; by constructor.
Qed.

Lemma dict_of_pairs_plain (pairs : dict) :
  Forall plain_pair pairs → Forall plain_pair (dict_of_pairs pairs).
Proof.
  unfold dict_of_pairs. intros Hp.
  assert (∀ acc, Forall plain_pair acc →
            Forall plain_pair
              (fold_left (λ d kv, dict_set kv.1 kv.2 d) pairs acc)) as Hgo.
  { induction Hp as [|[k v] pairs Hkv _ IH]; intros acc Hacc; [done|].
    cbn [fold_left fst snd]. apply IH. by apply dict_set_plain. }
  apply Hgo. constructor.
Qed.

Lemma row_pairs_plain (column_names : list value) r :
  Forall (λ k, is_bytes k = false) column_names →
  Forall plain_pair (map (λ cv, (cv.1, to_string cv.2)) (zip column_names r)).
Proof.
  intros Hn. revert r. induction Hn as [|k names Hk _ IH]; intros [|v r];
    try by constructor.
  cbn [zip combine map fst snd]. constructor; [|apply IH].
  split; [done|apply to_string_not_bytes].
Qed.

Lemma row_dict_dumps (column_names : list value) r :
  Forall (λ k, is_bytes k = false) column_names →
  ∃ line, json_dumps (row_dict column_names r) = Ok line.
Proof.
  intros Hn. unfold json_dumps, row_dict.
  destruct (json_items_plain _ (dict_of_pairs_plain _ (row_pairs_plain _ r Hn)))
    as [items ->].
  by eexists.
Qed.

(** X2.  Where no column name is [bytes], [json.dumps] accepts the
    record of every row, whatever the row holds: the Value Normalizer
    has turned the binary values into text. *)
Theorem row_dict_serializable (column_names : list value) r :
  Forall (λ k, is_bytes k = false) column_names →
  is_ok (json_dumps (row_dict column_names r)) = true.
Proof.
  intros Hn. by destruct (row_dict_dumps column_names r Hn) as [line ->].
Qed.

Lemma fst_combine {A B} (a : list A) (b : list B) :
  (zip a b).*1 = take (length b) a.
Proof.
  revert b. induction a as [|x a IH]; intros [|y b]; try done.
  cbn. by rewrite <- IH.
Qed.

Lemma snd_combine {A B} (a : list A) (b : list B) :
  (zip a b).*2 = take (length a) b.
Proof.
  revert b. induction a as [|x a IH]; intros [|y b]; try done.
  cbn. by rewrite <- IH.
Qed.

(** X5.  With distinct column names, the record pairs names and values
    by position and stops at the shorter of the two: its keys are the
    first names, as many as the row has values, and its values are
    the normalized first values, as many as there are names. *)
Theorem row_dict_stops_at_shorter (column_names : list value) r :
  NoDup column_names →
  (row_dict column_names r).*1 = take (length r) column_names
  ∧ (row_dict column_names r).*2
    = map to_string (take (length column_names) r).
Proof.
  intros Hnd. unfold row_dict.
  rewrite zip_map_snd, dict_of_pairs_distinct by (by apply NoDup_fst_zip).
  rewrite fst_combine, snd_combine, length_map.
  split; [done|]. symmetry. apply fmap_take.
Qed.
End RecordShape.

(** ** Creating the folder and writing the file: what is left alone *)

Section Contained.
Context {E : Type} `{!Sqlite3 E} `{!FloatRepr}.
Implicit Types (w : world E) (fs : fsys) (l : list dict) (f p : string).

Lemma mkdirs_from_keeps (t : gmap location node) a ns t' :
  mkdirs_from t a ns = Some t' →
  ∀ q n, t !! q = Some n → t' !! q = Some n.
Proof.
  revert t a. induction ns as [|c ns IH]; intros t a Hmk q n Hq.
  - cbn in Hmk. by injection Hmk as <-.
  - cbn [mkdirs_from] in Hmk.
    destruct (t !! (a ++ [c])) as [[?|]|] eqn:Hk; [done| |].
    + by eapply IH.
    + eapply IH; [exact Hmk|]. rewrite lookup_insert_ne; [done|].
      intros <-. by rewrite Hk in Hq.
Qed.

Lemma os_makedirs_keeps fs p fs' :
  os_makedirs fs p = Ok fs' →
  cwd fs' = cwd fs ∧ ∀ q n, tree fs !! q = Some n → tree fs' !! q = Some n.
Proof.
  intros (_ & Hmk & Hcwd)%os_makedirs_ok. split; [done|].
  by eapply mkdirs_from_keeps.
Qed.

(** X8.  [create_folder_if_not_exists] never raises and never calls
    the engine.  Whatever lies in the file system stays as it is.
    Either nothing is printed and every location on the way to the
    folder is a directory afterwards, or one line reports the error
    and the file system is unchanged. *)
Theorem create_folder_if_not_exists_contained p w :
  ∃ fs' diag,
    create_folder_if_not_exists p w
    = (Ok tt, World fs' (w_eng w) (w_out w ++ diag) (w_calls w))
    ∧ cwd fs' = cwd (w_fs w)
    ∧ (∀ q n, tree (w_fs w) !! q = Some n → tree fs' !! q = Some n)
    ∧ ((diag = []
        ∧ ∀ q, q ∈ on_the_way [] (resolve (w_fs w) p) →
               tree fs' !! q = Some Dir)
       ∨ (fs' = w_fs w
          ∧ ∃ reason,
              diag = ["[EXCEPTION RAISED] An error occurred while creating the folder '"
                      +:+ p +:+ "': " +:+ reason])).
Proof.
  unfold create_folder_if_not_exists.
  destruct w as [fs eng out calls]. cbn [w_fs w_eng w_out w_calls].
  destruct (os_makedirs fs p) as [fs'|e] eqn:Hmk.
  - exists fs', []. rewrite app_nil_r.
    erewrite run_try_ok; [|by apply run_fs_do_ok].
    destruct (os_makedirs_keeps _ _ _ Hmk) as [Hcwd Hkeep].
    apply os_makedirs_ok in Hmk as (_ & Hmk & _).
    repeat split; try done. left. split; [done|].
    intros q Hq. by eapply mkdirs_from_dirs.
  - exists fs. eexists.
    erewrite run_try_raise; [|by apply run_fs_do_raise].
    repeat split; try done. right. eauto.
Qed.

Lemma jsonl_fs_frame l f fs :
  cwd (jsonl_fs l f fs) = cwd fs
  ∧ (∀ q, tree fs !! q = Some Dir → tree (jsonl_fs l f fs) !! q = Some Dir)
  ∧ (∀ q c, q ≠ resolve fs f → tree fs !! q = Some (File c) →
            tree (jsonl_fs l f fs) !! q = Some (File c)).
Proof.
  unfold jsonl_fs.
  set (fs1 := match os_makedirs fs (join_sep (removelast (split_sep f))) with
              | Ok fs' => fs' | Raise _ => fs end).
  assert (cwd fs1 = cwd fs
          ∧ ∀ q n, tree fs !! q = Some n → tree fs1 !! q = Some n)
    as [Hcwd Hkeep].
  { unfold fs1.
    destruct (os_makedirs fs _) as [fs'|e] eqn:Hmk; [|done].
    by apply os_makedirs_keeps in Hmk. }
  destruct (open_trunc fs1 f) as [fs2|e] eqn:Hop.
  - rewrite (written_file _ _ _ _ Hop).
    apply open_trunc_opened in Hop as (_ & Hk & _).
    rewrite (resolve_cwd fs fs1 f Hcwd) in *. cbn [cwd tree set_tree].
    repeat split; [done| |].
    + intros q Hq. apply Hkeep in Hq. rewrite lookup_insert_ne; [done|].
      intros <-. by rewrite Hq in Hk.
    + intros q c Hne Hq. rewrite lookup_insert_ne by done. by apply Hkeep.
  - repeat split; [done|by intros; apply Hkeep|by intros; apply Hkeep].
Qed.

(** X7.  [write_dicts_to_jsonl] never raises, whatever the entries and
    the path, and never calls the engine.  Directories stay, and so
    does every regular file other than the output file. *)
Theorem write_dicts_to_jsonl_contained l f w :
  ∃ fs' out,
    write_dicts_to_jsonl l f w = (Ok tt, World fs' (w_eng w) out (w_calls w))
    ∧ cwd fs' = cwd (w_fs w)
    ∧ (∀ q, tree (w_fs w) !! q = Some Dir → tree fs' !! q = Some Dir)
    ∧ (∀ q c, q ≠ resolve (w_fs w) f →
              tree (w_fs w) !! q = Some (File c) →
              tree fs' !! q = Some (File c)).
Proof.
  destruct (write_dicts_run l f w) as [out Hrun].
  exists (jsonl_fs l f (w_fs w)), out. split; [exact Hrun|].
  apply jsonl_fs_frame.
Qed.

(** Where no regular file is on the way to its directory and the path
    itself is not a directory, the file holds the lines of the
    entries. *)
Lemma jsonl_fs_written l fs f :
  is_name (os_path_basename f) = true →
  tree fs !! [] = Some Dir →
  is_dir_at (tree fs) (cwd fs) = true →
  (∀ q c, q ∈ on_the_way [] (dir_location fs f) → tree fs !! q ≠ Some (File c)) →
  tree fs !! resolve fs f ≠ Some Dir →
  stat (jsonl_fs l f fs) f = Some (File (jsonl_bytes l)).
Proof.
  intros Hname Hroot Hcwd Hway Hnd.
  pose proof (resolve_named fs f Hname) as Hk.
  assert (f ≠ "") as Hf by (by intros ->).
  assert (wants_dir f = false) as Hw.
  { unfold wants_dir. fold (os_path_basename f). by rewrite Hname. }
  set (data := jsonl_bytes l).
  set (d := dir_location fs f) in *.
  set (k := resolve fs f) in *.
  assert (∀ fs1, cwd fs1 = cwd fs → tree fs1 !! k ≠ Some Dir →
                 is_dir_at (tree fs1) d = true →
                 match open_trunc fs1 f with
                 | Ok fs2 => append_file fs2 f data
                 | Raise _ => fs1
                 end = set_tree fs1 (<[k := File data]> (tree fs1))) as Hopen.
  { intros fs1 Hc Hnd1 Hd1.
    assert (open_trunc fs1 f
            = Ok (set_tree fs1 (<[k := File []]> (tree fs1)))) as Ho.
    { unfold open_trunc. rewrite (bool_decide_eq_false_2 _ Hf), Hw.
      rewrite (resolve_cwd fs fs1 f Hc). fold k.
      replace (parent k) with d by (by rewrite Hk, parent_snoc). rewrite Hd1.
      by destruct (tree fs1 !! k) as [[c|]|]. }
    rewrite Ho. rewrite (written_file _ _ _ data Ho).
    by rewrite (resolve_cwd fs fs1 f Hc). }
  assert (∀ fs1, cwd fs1 = cwd fs →
                 stat (set_tree fs1 (<[k := File data]> (tree fs1))) f
                 = Some (File data)) as Hstat.
  { intros fs1 Hc. rewrite stat_set_tree, (resolve_cwd fs fs1 f Hc). fold k.
    by rewrite (bool_decide_eq_false_2 _ Hf), lookup_insert_eq, Hw. }
  unfold jsonl_fs. fold (folder_of f). fold data.
  destruct (decide (folder_of f = "")) as [Hno|Hfolder].
  - rewrite Hno.
    replace (os_makedirs fs "") with (Raise (A:=fsys) (no_such_file ""))
      by reflexivity.
    assert (is_dir_at (tree fs) d = true) as Hd.
    { destruct (no_folder_location fs f Hno) as [Hd|Hd]; fold d in Hd;
        rewrite Hd; [|done]. unfold is_dir_at. by rewrite Hroot. }
    rewrite (Hopen fs eq_refl Hnd Hd). by apply Hstat.
  - pose proof (folder_location fs f Hfolder) as Hres. fold d in Hres.
    destruct (mkdirs_from_succeeds (tree fs) [] d Hway) as [t' Hmk].
    assert (os_makedirs fs (folder_of f) = Ok (set_tree fs t')) as ->.
    { unfold os_makedirs.
      by rewrite (bool_decide_eq_false_2 _ Hfolder), Hres, Hmk. }
    destruct (mkdirs_from_frame _ _ _ _ Hmk) as [Hkeep Hoff].
    assert (is_dir_at t' d = true) as Hd.
    { unfold is_dir_at. destruct (decide (d = [])) as [->|Hne].
      - by rewrite (Hkeep [] Hroot).
      - destruct (exists_last Hne) as (ns & c & Hdc).
        rewrite (mkdirs_from_dirs _ _ _ _ Hmk d); [done|].
        rewrite Hdc at 1. rewrite Hdc at 1.
        apply (on_the_way_last [] ns c). }
    assert (t' !! k ≠ Some Dir) as Hnd'.
    { rewrite Hoff; [done|]. intros Hin%on_the_way_longer.
      rewrite Hk, length_app in Hin. cbn in Hin. lia. }
    rewrite (Hopen (set_tree fs t') eq_refl Hnd' Hd). by apply Hstat.
Qed.

Lemma jsonl_bytes_lines (names : list value) (rows : list row) :
  Forall (λ k, is_bytes k = false) names →
  ∃ lines,
    Forall2 (λ r line, json_dumps (row_dict names r) = Ok line) rows lines
    ∧ jsonl_bytes (map (row_dict names) rows)
      = concat (map (λ line, bytes_of_string (line +:+ str1 newline)) lines).
Proof.
  intros Hn. induction rows as [|r rows (lines & Hall & Heq)].
  - exists []. by split; [constructor|].
  - destruct (row_dict_dumps names r Hn) as [line Hline].
    exists (line :: lines). split; [by constructor|].
    cbn [map jsonl_bytes concat]. by rewrite Hline, Heq.
Qed.

(** X6.  The table has columns of which no name is [bytes], and the
    scan returns [rows].  The root and the working directory are
    directories, no regular file is on the way to the directory of
    the output file, and the output path is not a directory.  Then
    [process_table] returns normally and the output file holds one
    line per row, in the order of the scan: the JSON text of the
    row's record and a newline. *)
Theorem process_table_one_line_per_row (output_dir name : string) (cu : nat) w
    columns_info names rows wa wb :
  cursor_fetch cu (table_info_sql name) w = (Ok columns_info, wa) →
  second_fields columns_info = Some names →
  Forall (λ k, is_bytes k = false) names →
  cursor_fetch cu (select_all_sql name) wa = (Ok rows, wb) →
  let f := os_path_join output_dir name +:+ ".jsonl" in
  tree (w_fs wb) !! [] = Some Dir →
  is_dir_at (tree (w_fs wb)) (cwd (w_fs wb)) = true →
  (∀ q c, q ∈ on_the_way [] (dir_location (w_fs wb) f) →
          tree (w_fs wb) !! q ≠ Some (File c)) →
  tree (w_fs wb) !! resolve (w_fs wb) f ≠ Some Dir →
  ∃ w' lines,
    process_table output_dir (VStr name) cu w = (Ok tt, w')
    ∧ Forall2 (λ r line, json_dumps (row_dict names r) = Ok line) rows lines
    ∧ read_all (w_fs w') f
      = Ok (concat (map (λ line, bytes_of_string (line +:+ str1 newline))
                        lines)).
Proof.
  intros Hinfo Hn Hplain Hrows f Hroot Hcwd Hway Hnd.
  destruct (process_table_run output_dir (VStr name) cu w _ _ _ _ _
              Hinfo Hn Hrows) as [out Hrun].
  cbn [os_path_join_value] in Hrun. unfold exported_fs in Hrun.
  cbn [os_path_join_value] in Hrun. fold f in Hrun.
  destruct (jsonl_bytes_lines names rows Hplain) as (lines & Hall & Heq).
  exists (World (jsonl_fs (map (row_dict names) rows) f (w_fs wb))
                (w_eng wb) out (w_calls wb)), lines.
  split; [exact Hrun|]. split; [exact Hall|].
  cbn [w_fs]. unfold read_all.
  by rewrite (jsonl_fs_written _ _ f (jsonl_named _) Hroot Hcwd Hway Hnd), Heq.
Qed.
Lemma jsonl_bytes_stops (good : list dict) bad rest :
  Forall (λ d, is_ok (json_dumps d) = true) good →
  is_ok (json_dumps bad) = false →
  ∃ lines,
    Forall2 (λ d line, json_dumps d = Ok line) good lines
    ∧ jsonl_bytes (good ++ bad :: rest)
      = concat (map (λ line, bytes_of_string (line +:+ str1 newline)) lines).
Proof.
  intros Hgood Hbad. induction Hgood as [|d good Hd _ (lines & Hall & Heq)].
  - exists []. split; [constructor|].
    cbn [app jsonl_bytes]. by destruct (json_dumps bad).
  - destruct (json_dumps d) as [line|] eqn:Hline; [|done].
    exists (line :: lines). split; [by constructor|].
    cbn [app map jsonl_bytes concat]. by rewrite Hline, Heq.
Qed.

(** X20.  An entry [json.dumps] rejects ends the writing.  The root
    and the working directory are directories, no regular file is on
    the way to the directory of the output file, and the output path
    is not a directory.  Then [write_dicts_to_jsonl] still returns
    normally, and the file holds the lines of the entries before the
    rejected one, and nothing of those after it. *)
Theorem write_dicts_to_jsonl_stops_at_rejected (good : list dict) bad rest f w :
  Forall (λ d, is_ok (json_dumps d) = true) good →
  is_ok (json_dumps bad) = false →
  is_name (os_path_basename f) = true →
  tree (w_fs w) !! [] = Some Dir →
  is_dir_at (tree (w_fs w)) (cwd (w_fs w)) = true →
  (∀ q c, q ∈ on_the_way [] (dir_location (w_fs w) f) →
          tree (w_fs w) !! q ≠ Some (File c)) →
  tree (w_fs w) !! resolve (w_fs w) f ≠ Some Dir →
  ∃ w' lines,
    write_dicts_to_jsonl (good ++ bad :: rest) f w = (Ok tt, w')
    ∧ Forall2 (λ d line, json_dumps d = Ok line) good lines
    ∧ read_all (w_fs w') f
      = Ok (concat (map (λ line, bytes_of_string (line +:+ str1 newline))
                        lines)).
Proof.
  intros Hgood Hbad Hname Hroot Hcwd Hway Hnd.
  destruct (write_dicts_run (good ++ bad :: rest) f w) as [out Hrun].
  destruct (jsonl_bytes_stops good bad rest Hgood Hbad) as (lines & Hall & Heq).
  eexists _, lines. split; [exact Hrun|]. split; [exact Hall|].
  cbn [w_fs]. unfold read_all.
  by rewrite (jsonl_fs_written _ _ f Hname Hroot Hcwd Hway Hnd), Heq.
Qed.
End Contained.

(** ** Table Exporter: the second run *)

Section Rerun.
Context {E : Type} `{!Sqlite3 E} `{!FloatRepr}.
Implicit Types (w : world E) (cu : nat).

(** C5.  The table has columns of which no name is [bytes]; the root
    and the working directory are directories, no regular file is on
    the way to the directory of the output file, and the output path
    is not a directory: it may be a file of an earlier run, with any
    content.  The table is exported, and then exported again on a
    database that answers the two statements as before and leaves
    the file system as the first run left it.  Both runs return
    normally.  After the first run the output file holds one line per
    row and nothing else, whatever it held before; after the second
    run it holds the same lines, once: the file is written anew,
    nothing is appended, and the file system is what it was after the
    first run. *)
Theorem process_table_twice (output_dir name : string) cu w
    columns_info names rows wa wb wa' wb' :
  cursor_fetch cu (table_info_sql name) w = (Ok columns_info, wa) →
  second_fields columns_info = Some names →
  Forall (λ k, is_bytes k = false) names →
  cursor_fetch cu (select_all_sql name) wa = (Ok rows, wb) →
  let f := os_path_join output_dir name +:+ ".jsonl" in
  tree (w_fs wb) !! [] = Some Dir →
  is_dir_at (tree (w_fs wb)) (cwd (w_fs wb)) = true →
  (∀ q c, q ∈ on_the_way [] (dir_location (w_fs wb) f) →
          tree (w_fs wb) !! q ≠ Some (File c)) →
  tree (w_fs wb) !! resolve (w_fs wb) f ≠ Some Dir →
  let once := process_table output_dir (VStr name) cu w in
  cursor_fetch cu (table_info_sql name) once.2 = (Ok columns_info, wa') →
  cursor_fetch cu (select_all_sql name) wa' = (Ok rows, wb') →
  w_fs wb' = w_fs once.2 →
  let twice := process_table output_dir (VStr name) cu once.2 in
  ∃ lines,
    Forall2 (λ r line, json_dumps (row_dict names r) = Ok line) rows lines
    ∧ once.1 = Ok tt
    ∧ read_all (w_fs once.2) f
      = Ok (concat (map (λ line, bytes_of_string (line +:+ str1 newline))
                        lines))
    ∧ twice.1 = Ok tt
    ∧ read_all (w_fs twice.2) f
      = Ok (concat (map (λ line, bytes_of_string (line +:+ str1 newline))
                        lines))
    ∧ w_fs twice.2 = w_fs once.2.
Proof.
  intros Hinfo Hn Hplain Hrows f Hroot Hcwd Hway Hnd once Hinfo' Hrows'
    Hsame twice.
  destruct (process_table_again output_dir (VStr name) cu w columns_info
              names rows wa wb wa' wb' Hinfo Hn Hrows Hinfo' Hrows' Hsame)
    as [Hfs Hres].
  fold once twice in Hfs, Hres.
  destruct (process_table_run output_dir (VStr name) cu w _ _ _ _ _
              Hinfo Hn Hrows) as [out Hrun].
  cbn [os_path_join_value] in Hrun. unfold exported_fs in Hrun.
  cbn [os_path_join_value] in Hrun. fold f in Hrun. fold once in Hrun.
  destruct (jsonl_bytes_lines names rows Hplain) as (lines & Hall & Heq).
  assert (read_all (w_fs once.2) f
          = Ok (concat (map (λ line, bytes_of_string (line +:+ str1 newline))
                            lines))) as Hfile.
  { rewrite Hrun. cbn [snd w_fs]. unfold read_all.
    by rewrite (jsonl_fs_written _ _ f (jsonl_named _) Hroot Hcwd Hway Hnd),
      Heq. }
  assert (once.1 = Ok tt) as Hok by (by rewrite Hrun).
  exists lines. repeat split; try done.
  - by rewrite Hres.
  - by rewrite Hfs.
Qed.
End Rerun.

(** ** Log Folder: the run without failure, and the source that is no file *)

Section LogFolderRuns.
Context {E : Type} `{!Sqlite3 E}.
Implicit Types (w : world E) (fs : fsys) (conn : nat) (input : string).

(** X10.  The source is a regular file in an existing directory and no
    directory sits at the backup path.  If the checkpoint and the
    compaction both succeed and the backup file is still there when
    they are done, then [apply_wal] returns normally, has sent the two
    statements to the engine, once each and in that order, has
    printed the notice about the log file and the line about the
    backup, and leaves the file system of the engine without the
    backup file. *)
Theorem apply_wal_removes_backup conn input w content eng1 fs1 eng2 fs2 kept :
  stat (w_fs w) input = Some (File content) →
  is_dir_at (tree (w_fs w)) (dir_location (w_fs w) input) = true →
  os_path_isdir (w_fs w) (input +:+ ".backup") = false →
  db_execute conn checkpoint_sql (w_eng w) (backed_up (w_fs w) input)
  = (Ok tt, (eng1, fs1)) →
  db_execute conn vacuum_sql eng1 fs1 = (Ok tt, (eng2, fs2)) →
  stat fs2 (input +:+ ".backup") = Some (File kept) →
  ∃ w',
    apply_wal conn input w = (Ok tt, w')
    ∧ w_fs w'
      = set_tree fs2 (delete (resolve fs2 (input +:+ ".backup")) (tree fs2))
    ∧ os_path_exists (w_fs w') (input +:+ ".backup") = false
    ∧ w_eng w' = eng2
    ∧ w_calls w'
      = w_calls w ++ [CExecute conn checkpoint_sql; CExecute conn vacuum_sql]
    ∧ w_out w'
      = w_out w ++ no_wal_notice (w_fs w) input
        ++ ["[INFO] A backup has been done: " +:+ input +:+ ".backup."].
Proof.
  intros Hst Hdir Hnd H1 H2 Hkept.
  destruct (backup_made _ input content Hst Hdir Hnd)
    as (_ & _ & _ & _ & _ & Hbne & _ & Hcopy & Hbu).
  rewrite <- Hbu in Hcopy. clear Hbu.
  rewrite apply_wal_after_test. unfold fold_log.
  destruct w as [fs eng out calls]. cbn [w_fs w_eng w_out w_calls] in *.
  set (bfs := backed_up fs input) in *.
  erewrite run_bind_ok; [|by apply run_fs_do_ok].
  erewrite run_bind_ok; [|reflexivity].
  unfold set_fs. cbn [w_fs w_eng w_out w_calls].
  erewrite run_try_ok.
  2:{ erewrite run_bind_ok.
      2:{ unfold conn_execute, engine_call.
          cbn [w_fs w_eng w_out w_calls]. rewrite H1. reflexivity. }
      erewrite run_bind_ok.
      2:{ unfold conn_execute, engine_call.
          cbn [w_fs w_eng w_out w_calls]. rewrite H2. reflexivity. }
      apply run_fs_do_ok. cbn [w_fs]. by eapply os_remove_file. }
  eexists. split; [reflexivity|].
  unfold set_fs. cbn [w_fs w_eng w_out w_calls].
  repeat split.
  - unfold os_path_exists. rewrite stat_set_tree.
    by rewrite (bool_decide_eq_false_2 _ Hbne), lookup_delete_eq.
  - by rewrite <- !app_assoc.
  - by rewrite <- !app_assoc, (append_assoc input).
Qed.


End LogFolderRuns.

(** ** Batch Driver: rejection, and the connection after a run without failure *)

Section DriverRuns.
Context {E : Type} `{!Sqlite3 E} `{!FloatRepr}.
Implicit Types (w : world E) (input output_dir : string).

Lemma is_sqlite3_negative input w :
  sqlite3_verdict (w_fs w) input = false →
  ∃ reason,
    is_sqlite3 input w
    = (Ok false,
       World (w_fs w) (w_eng w)
             (w_out w ++ ["[ERROR] " +:+ input +:+ reason]) (w_calls w)).
Proof.
  unfold is_sqlite3, sqlite3_verdict, os_path_isfile, os_path_getsize,
    read_head.
  py_unfold. destruct w as [fs e out calls]; cbn.
  destruct (stat fs input) as [[c|]|] eqn:Hst; cbn; rewrite ?Hst; cbn;
    [|by eexists..].
  destruct (Z.of_nat (length c) <? 100)%Z eqn:Hsz; cbn; rewrite ?Hst; cbn;
    [by eexists|].
  destruct (bool_decide (take 16 c = magic)); cbn; [done|].
  intros _. by eexists.
Qed.

Lemma is_sqlite3_positive input w :
  sqlite3_verdict (w_fs w) input = true →
  is_sqlite3 input w = (Ok true, w).
Proof.
  unfold is_sqlite3, sqlite3_verdict, os_path_isfile, os_path_getsize,
    read_head.
  py_unfold. destruct w as [fs e out calls]; cbn.
  destruct (stat fs input) as [[c|]|] eqn:Hst; cbn; rewrite ?Hst; cbn;
    [|done..].
  destruct (Z.of_nat (length c) <? 100)%Z eqn:Hsz; cbn; rewrite ?Hst; cbn;
    [done|].
  destruct (bool_decide (take 16 c = magic)); cbn; done.
Qed.

(** X9.  A file the validator rejects, processed without the caller's
    word: [process_file] returns normally, has not called the engine,
    has left the file system as it was, and has printed three lines:
    the file being processed, the validator's reason, and that the
    file is not a sqlite3 file. *)
Theorem process_file_rejection_report input output_dir w :
  sqlite3_verdict (w_fs w) input = false →
  ∃ reason,
    process_file input output_dir false w
    = (Ok tt,
       World (w_fs w) (w_eng w)
             (w_out w ++ ["[INFO] Processing " +:+ input +:+ "...";
                          "[ERROR] " +:+ input +:+ reason;
                          "[ERROR] " +:+ input +:+ " is not a sqlite3 file"])
             (w_calls w)).
Proof.
  intros Hv. unfold process_file.
  erewrite run_bind_ok; [|reflexivity].
  destruct (is_sqlite3_negative input
              (World (w_fs w) (w_eng w)
                 (w_out w ++ ["[INFO] Processing " +:+ input +:+ "..."])
                 (w_calls w)) Hv) as [reason Hrun].
  erewrite run_bind_ok; [|exact Hrun].
  exists reason. cbn [orb]. unfold print.
  cbn [w_fs w_eng w_out w_calls]. by rewrite <- !app_assoc.
Qed.

Lemma only_calls_refl P w : only_calls P w w.
Proof. exists []. by rewrite app_nil_r. Qed.

Lemma only_calls_trans P w1 w2 w3 :
  only_calls P w1 w2 → only_calls P w2 w3 → only_calls P w1 w3.
Proof.
  intros (r1 & E1 & H1) (r2 & E2 & H2). exists (r1 ++ r2).
  rewrite E2, E1, <- app_assoc, forallb_app, H1, H2. done.
Qed.

Lemma only_calls_same P w w' : w_calls w' = w_calls w → only_calls P w w'.
Proof. intros Heq. exists []. by rewrite app_nil_r. Qed.

Lemma calls_only_ret {A} P (a : A) : calls_only P (mret a : py E A).
Proof. intros w. apply only_calls_refl. Qed.

Lemma calls_only_bind {A B} P (m : py E A) (f : A → py E B) :
  calls_only P m → (∀ a, calls_only P (f a)) → calls_only P (m ≫= f).
Proof.
  intros Hm Hf w. specialize (Hm w). unfold mbind, py_bind.
  destruct (m w) as [[a|e] w1]; [|done].
  eapply only_calls_trans; [exact Hm|apply Hf].
Qed.

Lemma calls_only_try {A} P (m : py E A) (h : exn → py E A) :
  calls_only P m → (∀ e, calls_only P (h e)) → calls_only P (try_except m h).
Proof.
  intros Hm Hh w. specialize (Hm w). unfold try_except.
  destruct (m w) as [[a|e] w1]; [done|].
  eapply only_calls_trans; [exact Hm|apply Hh].
Qed.

Lemma calls_only_for_each {A} P (l : list A) (f : A → py E unit) :
  (∀ a, calls_only P (f a)) → calls_only P (for_each l f).
Proof.
  intros Hf. induction l as [|x l IH]; [apply calls_only_ret|].
  cbn [for_each]. apply calls_only_bind; [apply Hf|by intros _].
Qed.

Lemma calls_only_comprehension {A B} P (l : list A) (f : A → py E B) :
  (∀ a, calls_only P (f a)) → calls_only P (comprehension l f).
Proof.
  intros Hf. induction l as [|x l IH]; [apply calls_only_ret|].
  cbn [comprehension]. apply calls_only_bind; [apply Hf|intros y].
  apply calls_only_bind; [exact IH|intros ys]. apply calls_only_ret.
Qed.

Lemma calls_only_print P line : calls_only P (print line : py E unit).
Proof. intros w. by apply only_calls_same. Qed.

Lemma calls_only_fs_do P op : calls_only P (fs_do op : py E unit).
Proof.
  intros w. apply only_calls_same. unfold fs_do.
  by destruct (op (w_fs w)).
Qed.

Lemma calls_only_fs_test P op : calls_only P (fs_test op : py E bool).
Proof. intros w. by apply only_calls_same. Qed.

Lemma calls_only_lift {A} P (r : result A) : calls_only P (lift_result r : py E A).
Proof. intros w. by apply only_calls_same. Qed.

Lemma calls_only_tuple_get P (r : row) i : calls_only P (tuple_get r i : py E value).
Proof.
  intros w. apply only_calls_same. unfold tuple_get.
  by destruct (r !! i).
Qed.

Lemma calls_only_engine {A} P c (op : eng_op E A) :
  P c = true → calls_only P (engine_call c op).
Proof.
  intros Hc w. unfold engine_call.
  destruct (op (w_eng w) (w_fs w)) as [r [e' fs']]. cbn.
  exists [c]. split; [done|]. cbn. by rewrite Hc.
Qed.

Lemma calls_only_write P l f :
  calls_only P (write_dicts_to_jsonl l f : py E unit).
Proof.
  intros w. destruct (write_dicts_run l f w) as [out ->].
  by apply only_calls_same.
Qed.

Lemma calls_only_apply_wal conn input :
  calls_only is_statement (apply_wal conn input : py E unit).
Proof.
  unfold apply_wal, conn_execute.
  repeat first
    [ apply calls_only_bind; [|intros ?]
    | apply calls_only_try; [|intros ?]
    | apply calls_only_print
    | apply calls_only_fs_do
    | apply calls_only_fs_test
    | apply calls_only_ret
    | apply calls_only_engine; reflexivity
    | match goal with
      | |- calls_only _ (if ?b then _ else _) => destruct b
      end ].
Qed.

Lemma calls_only_get_tables cu :
  calls_only is_statement (get_tables cu : py E (list value)).
Proof.
  unfold get_tables, cursor_fetch.
  apply calls_only_bind; [by apply calls_only_engine|intros rows].
  apply calls_only_comprehension. intros r. apply calls_only_tuple_get.
Qed.

Lemma calls_only_process_table output_dir t cu :
  calls_only is_statement (process_table output_dir t cu : py E unit).
Proof.
  unfold process_table, cursor_fetch.
  apply calls_only_bind; [by apply calls_only_engine|intros info].
  apply calls_only_bind.
  { apply calls_only_comprehension. intros r. apply calls_only_tuple_get. }
  intros names.
  apply calls_only_bind; [by apply calls_only_engine|intros rows].
  apply calls_only_bind; [apply calls_only_lift|intros joined].
  apply calls_only_write.
Qed.

Lemma calls_only_file_body c cu input output_dir :
  calls_only is_statement (file_body c cu input output_dir : py E unit).
Proof.
  unfold file_body.
  apply calls_only_bind; [apply calls_only_apply_wal|intros _].
  apply calls_only_bind; [apply calls_only_get_tables|intros tables].
  apply calls_only_for_each. intros t. apply calls_only_process_table.
Qed.

(** X16.  When the connection and the cursor were obtained and the
    body of the [try] statement ends without an exception, that is
    the outcome of the statement: after the connection and the cursor
    the engine has only been sent statements.  Neither the cursor nor
    the connection is closed. *)
Theorem file_try_success_leaves_open input output_dir w c w1 cu w2 w3 :
  sqlite3_connect input w = (Ok c, w1) →
  conn_cursor c w1 = (Ok cu, w2) →
  file_body c cu input output_dir w2 = (Ok tt, w3) →
  file_try input output_dir w = (Ok tt, w3)
  ∧ ∃ rest,
      w_calls w3 = w_calls w ++ [CConnect input; CCursor c] ++ rest
      ∧ forallb is_statement rest = true.
Proof.
  intros Hc Hcu Hbody. split.
  - unfold file_try. rewrite Hc, Hcu. by apply run_try_ok.
  - destruct (calls_only_file_body c cu input output_dir w2)
      as (rest & Hrest & Hall).
    rewrite Hbody in Hrest. cbn [snd] in Hrest.
    exists rest. split; [|done]. rewrite Hrest.
    unfold sqlite3_connect, conn_cursor, engine_call in Hc, Hcu.
    destruct (db_connect input (w_eng w) (w_fs w)) as [r [e' fs']].
    injection Hc as -> <-. cbn [w_fs w_eng w_out w_calls] in Hcu.
    destruct (db_cursor c e' fs') as [r [e'' fs'']].
    injection Hcu as -> <-. cbn [w_calls].
    by rewrite <- !app_assoc.
Qed.

(** X21.  When [sqlite3.connect] raises, or [conn.cursor()] does, the
    handler prints the exception and then calls [close] on the empty
    string [cursor] still holds: [process_file]'s [try] statement
    ends with an [AttributeError], and [close] has been called on
    nothing, an open connection included. *)
Theorem file_try_setup_failure input output_dir w e w' :
  sqlite3_connect input w = (Raise e, w')
  ∨ (∃ c w1, sqlite3_connect input w = (Ok c, w1)
             ∧ conn_cursor c w1 = (Raise e, w')) →
  file_try input output_dir w
  = (Raise (attribute_error "close"),
     World (w_fs w') (w_eng w')
           (w_out w' ++ ["[EXCEPTION RAISED] " +:+ exn_msg e]) (w_calls w')).
Proof.
  unfold file_try. intros [Hc|(c & w1 & Hc & Hcu)].
  - by rewrite Hc.
  - by rewrite Hc, Hcu.
Qed.
End DriverRuns.

(** ** Output layout: the folder of a database *)

Section DatabaseFolder.
Context {E : Type} `{!Sqlite3 E} `{!FloatRepr}.
Implicit Types (w : world E) (input output_dir : string).


End DatabaseFolder.

(** ** Folder mode *)

Section FolderRuns.
Context {E : Type} `{!Sqlite3 E} `{!FloatRepr}.
Implicit Types (w : world E) (fs : fsys) (folder output_dir : string).

Lemma process_folder_loop folder output_dir :
  process_folder folder output_dir
  = (list_file ← fs_read (λ fs, os_listdir fs folder);
     for_each list_file (folder_step folder output_dir) : py E unit).
Proof. reflexivity. Qed.

Lemma os_listdir_not_dir fs folder :
  os_path_isdir fs folder = false →
  ∃ e, os_listdir fs folder = Raise e
       ∧ (e = no_such_file folder ∨ e = not_a_directory folder).
Proof.
  unfold os_path_isdir, stat, os_listdir.
  case_bool_decide; [eauto|].
  destruct (tree fs !! resolve fs folder) as [[c|]|]; [eauto|done|eauto].
Qed.

(** X12.  Where the input folder is not a directory, [process_folder]
    raises the error of the listing, [FileNotFoundError] or
    [NotADirectoryError]: nothing is printed, nothing is processed. *)
Theorem process_folder_not_a_directory folder output_dir w :
  os_path_isdir (w_fs w) folder = false →
  ∃ e, process_folder folder output_dir w = (Raise e, w)
       ∧ (e = no_such_file folder ∨ e = not_a_directory folder).
Proof.
  intros Hnd. destruct (os_listdir_not_dir _ _ Hnd) as (e & Hls & He).
  exists e. split; [|exact He].
  rewrite process_folder_loop. apply run_bind_raise.
  unfold fs_read. by rewrite Hls.
Qed.

Lemma folder_step_rejects folder output_dir file w :
  sqlite3_verdict (w_fs w) (os_path_join folder file) = false →
  ∃ out, folder_step folder output_dir file w
         = (Ok tt, World (w_fs w) (w_eng w) out (w_calls w)).
Proof.
  intros Hv. unfold folder_step.
  erewrite run_bind_ok; [|reflexivity]. cbn beta.
  destruct (os_path_isfile (w_fs w) (os_path_join folder file)).
  - destruct (is_sqlite3_run (os_path_join folder file) w) as [out Hrun].
    erewrite run_bind_ok; [|exact Hrun]. rewrite Hv. by exists out.
  - erewrite run_bind_ok; [|reflexivity]. exists (w_out w). by destruct w.
Qed.

(** X13.  Where no entry of the folder is a file the validator
    accepts, [process_folder] returns normally without a call to the
    engine, and the file system is as it was. *)
Theorem process_folder_without_database folder output_dir w names :
  os_listdir (w_fs w) folder = Ok names →
  Forall (λ n, sqlite3_verdict (w_fs w) (os_path_join folder n) = false)
         names →
  ∃ out, process_folder folder output_dir w
         = (Ok tt, World (w_fs w) (w_eng w) out (w_calls w)).
Proof.
  intros Hls Hall. rewrite process_folder_loop.
  erewrite run_bind_ok; [|unfold fs_read; by rewrite Hls].
  destruct w as [fs eng out calls]. cbn [w_fs w_eng w_out w_calls] in *.
  clear Hls. revert out. induction Hall as [|n names Hn _ IH]; intros out.
  - by exists out.
  - cbn [for_each].
    destruct (folder_step_rejects folder output_dir n
                (World fs eng out calls) Hn) as [out1 Hstep].
    erewrite run_bind_ok; [|exact Hstep]. apply IH.
Qed.

Lemma folder_step_skips folder output_dir file w :
  os_path_isfile (w_fs w) (os_path_join folder file) = false →
  folder_step folder output_dir file w = (Ok tt, w).
Proof.
  intros Hnf. unfold folder_step.
  erewrite run_bind_ok; [|reflexivity]. cbn beta. rewrite Hnf.
  erewrite run_bind_ok; [|reflexivity]. reflexivity.
Qed.

(** X14.  Entries that are not regular files are passed over in
    silence: where the folder holds nothing else, [process_folder]
    returns normally and the world is as it was, standard output
    included. *)
Theorem process_folder_skips_directories folder output_dir w names :
  os_listdir (w_fs w) folder = Ok names →
  Forall (λ n, os_path_isfile (w_fs w) (os_path_join folder n) = false)
         names →
  process_folder folder output_dir w = (Ok tt, w).
Proof.
  intros Hls Hall. rewrite process_folder_loop.
  erewrite run_bind_ok; [|unfold fs_read; by rewrite Hls].
  clear Hls. induction Hall as [|n names Hn _ IH]; [done|].
  cbn [for_each].
  erewrite run_bind_ok; [|by apply folder_step_skips]. exact IH.
Qed.

(** X15.  Where the folder holds one entry and the validator accepts
    it, [process_folder] is [process_file] on the folder joined with
    the entry, with [already_checked] set: the check made by the
    folder loop prints nothing, and [process_file] checks the file
    again. *)
Theorem process_folder_single_database folder output_dir w name :
  os_listdir (w_fs w) folder = Ok [name] →
  sqlite3_verdict (w_fs w) (os_path_join folder name) = true →
  process_folder folder output_dir w
  = process_file (os_path_join folder name) output_dir true w.
Proof.
  intros Hls Hv. rewrite process_folder_loop.
  erewrite run_bind_ok; [|unfold fs_read; by rewrite Hls].
  cbn [for_each]. unfold folder_step.
  assert (os_path_isfile (w_fs w) (os_path_join folder name) = true) as Hf.
  { unfold sqlite3_verdict in Hv. unfold os_path_isfile.
    by destruct (stat (w_fs w) (os_path_join folder name)) as [[c|]|]. }
  unfold mbind at 1. unfold py_bind at 1.
  erewrite run_bind_ok; [|reflexivity]. cbn beta. rewrite Hf.
  erewrite run_bind_ok; [|by apply is_sqlite3_positive]. cbn match.
  destruct (process_file (os_path_join folder name) output_dir true w)
    as [[[]|e] w']; reflexivity.
Qed.
End FolderRuns.

(** ** The entry point *)

Section EntryPoint.
Context {E : Type} `{!Sqlite3 E} `{!FloatRepr}.
Implicit Types (w : world E) (fs : fsys) (args : arguments).


Lemma no_sep_endswith (c : string) : no_sep c = true → endswith_sep c = false.
Proof.
  induction c as [|a c IH]; [done|]. cbn [no_sep endswith_sep].
  intros [Ha Hc]%andb_true_iff. destruct c; [|by apply IH].
  by destruct (bool_decide (a = sep)).
Qed.

Lemma split_join_names (l : list string) :
  l ≠ [] → Forall (λ c, no_sep c = true) l → split_sep (join_sep l) = l.
Proof.
  induction l as [|b l IH] using rev_ind; [done|].
  intros _ [Hl [Hb _]%Forall_cons]%Forall_app.
  destruct (decide (l = [])) as [->|Hne].
  - by apply split_sep_plain.
  - by rewrite join_sep_snoc, split_sep_then, IH.
Qed.

Lemma join_sep_endswith (l : list string) :
  l ≠ [] → Forall (λ c, is_name c = true ∧ no_sep c = true) l →
  endswith_sep (String sep (join_sep l)) = false.
Proof.
  intros Hne Hall. destruct (exists_last Hne) as (l' & c & ->).
  apply Forall_app in Hall as [_ [[Hn Hc] _]%Forall_cons].
  assert (c ≠ "") as Hce by (by intros ->).
  destruct (decide (l' = [])) as [->|Hne'].
  - change (join_sep ([] ++ [c])) with c.
    destruct c as [|a c]; [done|].
    change (endswith_sep (String a c) = false). by apply no_sep_endswith.
  - rewrite join_sep_snoc by done.
    change (String sep (join_sep l' +:+ String sep c))
      with (String sep (join_sep l') +:+ String sep c).
    rewrite endswith_sep_append by done.
    destruct c as [|a c]; [done|].
    change (endswith_sep (String a c) = false). by apply no_sep_endswith.
Qed.

Lemma filter_names (l : list string) :
  Forall (λ c, is_name c = true ∧ no_sep c = true) l →
  List.filter is_name l = l.
Proof.
  induction 1 as [|c l [Hn _] _ IH]; [done|].
  cbn [List.filter]. by rewrite Hn, IH.
Qed.

Lemma default_folder_location fs :
  Forall (λ c, is_name c = true ∧ no_sep c = true) (cwd fs) →
  resolve fs (os_path_join (os_getcwd fs) "output") = cwd fs ++ ["output"].
Proof.
  intros Hall. unfold os_getcwd.
  destruct (decide (cwd fs = [])) as [Hcwd|Hne].
  - rewrite Hcwd. reflexivity.
  - rewrite os_path_join_plain; [|done|by apply join_sep_endswith|done].
    change (String sep (join_sep (cwd fs)) +:+ "/" +:+ "output")
      with (String sep (join_sep (cwd fs) +:+ String sep "output")).
    rewrite <- join_sep_snoc by done.
    unfold resolve. cbn [startswith_sep split_sep].
    rewrite bool_decide_eq_true_2 by done.
    rewrite split_join_names.
    + cbn [List.filter is_name]. cbn.
      apply filter_names, Forall_app. split; [done|by repeat constructor].
    + by destruct (cwd fs).
    + apply Forall_app. split; [|by repeat constructor].
      eapply Forall_impl; [exact Hall|]. by intros c [_ ?].
Qed.

(** X19.  No output directory is among the arguments, the components
    of the working directory are names, and no regular file is on the
    way to the entry [output] of the working directory.  Then [main]
    makes that entry a directory, printing nothing, calling no engine
    and keeping whatever lay in the file system, and goes on from
    there: it processes the input file if its name is not empty, else
    the input folder if its name is not empty, else nothing, with the
    working directory joined with [output] as output directory. *)
Theorem main_default_output_folder args w :
  args_output_dir args = None →
  Forall (λ c, is_name c = true ∧ no_sep c = true) (cwd (w_fs w)) →
  (∀ q c, q ∈ on_the_way [] (cwd (w_fs w) ++ ["output"]) →
          tree (w_fs w) !! q ≠ Some (File c)) →
  let output_folder := os_path_join (os_getcwd (w_fs w)) "output" in
  ∃ fs',
    main args w
    = (if truthy (args_input_filename args) then
         process_file (default "" (args_input_filename args))
                      output_folder false
       else if truthy (args_input_foldername args) then
         process_folder (default "" (args_input_foldername args))
                        output_folder
       else mret tt)
        (World fs' (w_eng w) (w_out w) (w_calls w))
    ∧ cwd fs' = cwd (w_fs w)
    ∧ tree fs' !! (cwd (w_fs w) ++ ["output"]) = Some Dir
    ∧ ∀ q n, tree (w_fs w) !! q = Some n → tree fs' !! q = Some n.
Proof.
  intros Hnone Hnames Hway output_folder. unfold main. rewrite Hnone.
  erewrite (run_bind_ok _ _ w output_folder w); [|reflexivity].
  pose proof (default_folder_location (w_fs w) Hnames) as Hres.
  fold output_folder in Hres.
  destruct (mkdirs_from_succeeds (tree (w_fs w)) [] _ Hway) as [t' Hmk].
  assert (output_folder ≠ "") as Hne.
  { unfold output_folder, os_path_join, os_getcwd. cbn [startswith_sep].
    by destruct (_ || _). }
  assert (os_makedirs (w_fs w) output_folder = Ok (set_tree (w_fs w) t'))
    as Hmake.
  { unfold os_makedirs. by rewrite (bool_decide_eq_false_2 _ Hne), Hres, Hmk. }
  unfold create_folder_if_not_exists.
  erewrite run_bind_ok; [|by apply run_try_ok, run_fs_do_ok].
  exists (set_tree (w_fs w) t'). split; [by destruct w|].
  split; [done|]. cbn [tree set_tree]. split.
  - eapply mkdirs_from_dirs; [exact Hmk|].
    apply (on_the_way_last [] (cwd (w_fs w)) "output").
  - by eapply mkdirs_from_keeps.
Qed.
End EntryPoint.

(** ** The further properties on concrete worlds *)

Module FurtherCases.
Import MiniDb Worlds.

Lemma row_dict_serializable_witness :
  is_ok (json_dumps (row_dict [VStr "id"; VStr "blob"]
                              [VInt 1; VBytes [x00; x27]])) = true.
Proof.
  apply (row_dict_serializable [VStr "id"; VStr "blob"]
           [VInt 1; VBytes [x00; x27]]).
  repeat constructor.
Defined.

Lemma row_dict_stops_at_shorter_witness :
  (row_dict [VStr "id"; VStr "name"; VStr "score"] [VInt 7; VStr "ann"]).*1
  = take (length [VInt 7; VStr "ann"]) [VStr "id"; VStr "name"; VStr "score"]
  ∧ (row_dict [VStr "id"; VStr "name"; VStr "score"] [VInt 7; VStr "ann"]).*2
    = map to_string
        (take (length [VStr "id"; VStr "name"; VStr "score"])
              [VInt 7; VStr "ann"]).
Proof.
  apply (row_dict_stops_at_shorter
           [VStr "id"; VStr "name"; VStr "score"] [VInt 7; VStr "ann"]).
  apply (bool_decide_unpack _). vm_compute. exact I.
Defined.

Lemma process_table_one_line_per_row_witness :
  ∃ w' lines,
    process_table "out/x.db" (VStr "users") 2 world0 = (Ok tt, w')
    ∧ Forall2 (λ r line,
                 json_dumps (row_dict [VStr "id"; VStr "name"] r) = Ok line)
              users_rows lines
    ∧ read_all (w_fs w') (os_path_join "out/x.db" "users" +:+ ".jsonl")
      = Ok (concat (map (λ line, bytes_of_string (line +:+ str1 newline))
                        lines)).
Proof.
  apply (process_table_one_line_per_row "out/x.db" "users" 2 world0
           users_info [VStr "id"; VStr "name"] users_rows
           (cursor_fetch 2 (table_info_sql "users") world0).2
           (cursor_fetch 2 (select_all_sql "users")
              (cursor_fetch 2 (table_info_sql "users") world0).2).2).
  - vm_compute. reflexivity.
  - vm_compute. reflexivity.
  - repeat constructor.
  - vm_compute. reflexivity.
  - vm_compute. reflexivity.
  - vm_compute. reflexivity.
  - intros q c Hq.
    change (q ∈ [["home"]; home; home ++ ["out"]; home ++ ["out"; "x.db"]])
      in Hq.
    repeat (apply elem_of_cons in Hq as [->|Hq]); try (vm_compute; discriminate).
    by apply elem_of_nil in Hq.
  - vm_compute. discriminate.
Defined.

Lemma process_file_rejection_report_witness :
  ∃ reason,
    process_file "nope.db" "out" false world0
    = (Ok tt,
       World (w_fs world0) (w_eng world0)
             (w_out world0 ++ ["[INFO] Processing " +:+ "nope.db" +:+ "...";
                               "[ERROR] " +:+ "nope.db" +:+ reason;
                               "[ERROR] " +:+ "nope.db"
                               +:+ " is not a sqlite3 file"])
             (w_calls world0)).
Proof.
  apply (process_file_rejection_report "nope.db" "out" world0).
  vm_compute. reflexivity.
Defined.

Lemma apply_wal_removes_backup_witness :
  ∃ w',
    apply_wal 1 "x.db" world_vac = (Ok tt, w')
    ∧ w_fs w'
      = set_tree fs_vac
          (delete (resolve fs_vac ("x.db" +:+ ".backup")) (tree fs_vac))
    ∧ os_path_exists (w_fs w') ("x.db" +:+ ".backup") = false
    ∧ w_eng w' = db_vac
    ∧ w_calls w'
      = w_calls world_vac
        ++ [CExecute 1 checkpoint_sql; CExecute 1 vacuum_sql]
    ∧ w_out w'
      = w_out world_vac ++ no_wal_notice (w_fs world_vac) "x.db"
        ++ ["[INFO] A backup has been done: " +:+ "x.db" +:+ ".backup."].
Proof.
  apply (apply_wal_removes_backup 1 "x.db" world_vac header100
           db_vac (backed_up fs0 "x.db") db_vac fs_vac header100).
  - vm_compute. reflexivity.
  - vm_compute. reflexivity.
  - vm_compute. reflexivity.
  - vm_compute. reflexivity.
  - vm_compute. reflexivity.
  - vm_compute. reflexivity.
Defined.


Lemma process_folder_not_a_directory_witness :
  ∃ e, process_folder "x.db" "out" world0 = (Raise e, world0)
       ∧ (e = no_such_file "x.db" ∨ e = not_a_directory "x.db").
Proof.
  apply (process_folder_not_a_directory "x.db" "out" world0).
  vm_compute. reflexivity.
Defined.

Lemma process_folder_without_database_witness :
  ∃ out, process_folder "docs" "out" world_docs
         = (Ok tt,
            World (w_fs world_docs) (w_eng world_docs) out
                  (w_calls world_docs)).
Proof.
  apply (process_folder_without_database "docs" "out" world_docs
           ["notes.txt"; "old"]).
  - vm_compute. reflexivity.
  - constructor; [vm_compute; reflexivity|].
    constructor; [vm_compute; reflexivity|]. constructor.
Defined.

Lemma process_folder_skips_directories_witness :
  process_folder "/home" "out" world0 = (Ok tt, world0).
Proof.
  apply (process_folder_skips_directories "/home" "out" world0 ["u"]).
  - vm_compute. reflexivity.
  - constructor; [vm_compute; reflexivity|]. constructor.
Defined.

Lemma process_folder_single_database_witness :
  process_folder "." "out" world0
  = process_file (os_path_join "." "x.db") "out" true world0.
Proof.
  apply (process_folder_single_database "." "out" world0 "x.db").
  - vm_compute. reflexivity.
  - vm_compute. reflexivity.
Defined.

Lemma file_try_success_leaves_open_witness :
  let w1 := (sqlite3_connect "x.db" world0).2 in
  let w2 := (conn_cursor 1 w1).2 in
  let w3 := (file_body 1 2 "x.db" "out/x.db" w2).2 in
  file_try "x.db" "out/x.db" world0 = (Ok tt, w3)
  ∧ ∃ rest,
      w_calls w3 = w_calls world0 ++ [CConnect "x.db"; CCursor 1] ++ rest
      ∧ forallb is_statement rest = true.
Proof.
  intros w1 w2 w3.
  apply (file_try_success_leaves_open "x.db" "out/x.db" world0 1%nat w1
           2%nat w2 w3).
  - vm_compute. reflexivity.
  - vm_compute. reflexivity.
  - vm_compute. reflexivity.
Defined.



Lemma main_default_output_folder_witness :
  ∃ fs',
    main (Args None (Some "x.db") None) world0
    = process_file "x.db" (os_path_join (os_getcwd (w_fs world0)) "output")
        false (World fs' (w_eng world0) (w_out world0) (w_calls world0))
    ∧ cwd fs' = cwd (w_fs world0)
    ∧ tree fs' !! (cwd (w_fs world0) ++ ["output"]) = Some Dir
    ∧ ∀ q n, tree (w_fs world0) !! q = Some n → tree fs' !! q = Some n.
Proof.
  apply (main_default_output_folder (Args None (Some "x.db") None) world0).
  - reflexivity.
  - repeat constructor.
  - intros q c Hq.
    change (q ∈ [["home"]; home; home ++ ["output"]]) in Hq.
    repeat (apply elem_of_cons in Hq as [->|Hq]); try (vm_compute; discriminate).
    by apply elem_of_nil in Hq.
Defined.

Lemma write_dicts_to_jsonl_stops_at_rejected_witness :
  ∃ w' lines,
    write_dicts_to_jsonl
      ([[(VStr "a", VInt 1)]] ++ [(VStr "b", VBytes [])]
       :: [[(VStr "c", VInt 2)]]) "out/t.jsonl" world0
    = (Ok tt, w')
    ∧ Forall2 (λ d line, json_dumps d = Ok line) [[(VStr "a", VInt 1)]] lines
    ∧ read_all (w_fs w') "out/t.jsonl"
      = Ok (concat (map (λ line, bytes_of_string (line +:+ str1 newline))
                        lines)).
Proof.
  apply (write_dicts_to_jsonl_stops_at_rejected
           [[(VStr "a", VInt 1)]] [(VStr "b", VBytes [])]
           [[(VStr "c", VInt 2)]] "out/t.jsonl" world0).
  - repeat constructor.
  - reflexivity.
  - reflexivity.
  - vm_compute. reflexivity.
  - vm_compute. reflexivity.
  - intros q c Hq.
    change (q ∈ [["home"]; home; home ++ ["out"]]) in Hq.
    repeat (apply elem_of_cons in Hq as [->|Hq]); try (vm_compute; discriminate).
    by apply elem_of_nil in Hq.
  - vm_compute. discriminate.
Defined.

Lemma file_try_setup_failure_witness :
  let w' := (sqlite3_connect "x.db" world_refusing).2 in
  file_try "x.db" "out/x.db" world_refusing
  = (Raise (attribute_error "close"),
     World (w_fs w') (w_eng w')
           (w_out w' ++ ["[EXCEPTION RAISED] "
                         +:+ exn_msg (operational_error
                                        "unable to open database file")])
           (w_calls w')).
Proof.
  intros w'.
  apply (file_try_setup_failure "x.db" "out/x.db" world_refusing
           (operational_error "unable to open database file") w').
  left. vm_compute. reflexivity.
Defined.
End FurtherCases.

(** ** The second run on a concrete world *)

Module RerunCases.
Import MiniDb Worlds.

Lemma process_table_twice_witness :
  let once := process_table "out/x.db" (VStr "users") 2 world_stale in
  let twice := process_table "out/x.db" (VStr "users") 2 once.2 in
  ∃ lines,
    Forall2 (λ r line,
               json_dumps (row_dict [VStr "id"; VStr "name"] r) = Ok line)
            users_rows lines
    ∧ once.1 = Ok tt
    ∧ read_all (w_fs once.2) (os_path_join "out/x.db" "users" +:+ ".jsonl")
      = Ok (concat (map (λ line, bytes_of_string (line +:+ str1 newline))
                        lines))
    ∧ twice.1 = Ok tt
    ∧ read_all (w_fs twice.2) (os_path_join "out/x.db" "users" +:+ ".jsonl")
      = Ok (concat (map (λ line, bytes_of_string (line +:+ str1 newline))
                        lines))
    ∧ w_fs twice.2 = w_fs once.2.
Proof.
  intros once twice.
  apply (process_table_twice "out/x.db" "users" 2 world_stale
           users_info [VStr "id"; VStr "name"] users_rows
           (cursor_fetch 2 (table_info_sql "users") world_stale).2
           (cursor_fetch 2 (select_all_sql "users")
              (cursor_fetch 2 (table_info_sql "users") world_stale).2).2
           (cursor_fetch 2 (table_info_sql "users") once.2).2
           (cursor_fetch 2 (select_all_sql "users")
              (cursor_fetch 2 (table_info_sql "users") once.2).2).2).
  - vm_compute. reflexivity.
  - vm_compute. reflexivity.
  - repeat constructor.
  - vm_compute. reflexivity.
  - vm_compute. reflexivity.
  - vm_compute. reflexivity.
  - intros q c Hq.
    change (q ∈ [["home"]; home; home ++ ["out"]; home ++ ["out"; "x.db"]])
      in Hq.
    repeat (apply elem_of_cons in Hq as [->|Hq]); try (vm_compute; discriminate).
    by apply elem_of_nil in Hq.
  - vm_compute. discriminate.
  - vm_compute. reflexivity.
  - vm_compute. reflexivity.
  - vm_compute. reflexivity.
Defined.

(** The file of the earlier run held other content, and holds the two
    lines of the table after each run. *)
Example process_table_replaces_stale_file :
  let once := process_table "out/x.db" (VStr "users") 2 world_stale in
  let twice := process_table "out/x.db" (VStr "users") 2 once.2 in
  read_all fs_stale "out/x.db/users.jsonl" = Ok (bytes_of_string "stale line")
  ∧ read_all (w_fs once.2) "out/x.db/users.jsonl"
    = Ok (bytes_of_string users_jsonl)
  ∧ read_all (w_fs twice.2) "out/x.db/users.jsonl"
    = Ok (bytes_of_string users_jsonl).
Proof. vm_compute. done. Qed.
End RerunCases.

(** ** A table with a generated column *)

Module RecordCases.
Import MiniDb Worlds.

(** C6.  The table [g] has a generated column [b] between [a] and
    [c], and one row, without binary values.  [PRAGMA table_info]
    names [a] and [c], the scan returns the three values of the row,
    and [process_table] pairs names and values by position: the
    record gives [c] the value of [b].  The line written is what the
    record holds, not the mapping of each column name to the value of
    that column. *)
Theorem process_table_mispairs_generated_column :
  let run := process_table "out/x.db" (VStr "g") 2 world_gen in
  let names := [VStr "a"; VStr "c"] in
  Forall (λ v, is_bytes v = false) gen_row
  ∧ db_query 2 (table_info_sql "g") db_gen fs0 = (Ok gen_info, (db_gen, fs0))
  ∧ second_fields gen_info = Some names
  ∧ db_query 2 (select_all_sql "g") db_gen fs0 = (Ok [gen_row], (db_gen, fs0))
  ∧ run.1 = Ok tt
  ∧ read_all (w_fs run.2) "out/x.db/g.jsonl" = Ok (bytes_of_string gen_jsonl)
  ∧ row_dict names gen_row = [(VStr "a", VInt 7); (VStr "c", VInt 70)]
  ∧ dict_get (VStr "c") (zip gen_columns gen_row) = Some (VInt 700)
  ∧ dict_get (VStr "c") (row_dict names gen_row)
    ≠ dict_get (VStr "c") (zip gen_columns gen_row).
Proof.
  split; [repeat constructor|]. vm_compute. repeat split. discriminate.
Qed.
End RecordCases.
